(** * Technical-analysis engines: Ichimoku, RSI, Williams Fractals, MA cross

    A shallow embedding of [src/ichimoku.py], [src/rsi.py], [src/fractals.py]
    and [src/ma_cross.py], and of what [src/main.py] computes with them.

    - Prices and indicator values are IEEE-754 binary64 numbers, as in
      Python/NumPy: Rocq's primitive [float].  NaN is pandas' "no value"
      marker; Python's [None] is a separate marker, modelled by [option].
    - Python exceptions are values of [exn]; a computation that may raise
      returns a [result].
    - The [DataFrame] handed to the four engines is ONE shared mutable
      object ([main.py] passes the same [df] to every constructor).  It is
      modelled as a store of named columns threaded through the methods
      that touch [self.df] (monad [M]).
    - pandas primitives ([rolling], [ewm], [diff], [iloc], boolean masks,
      [Index.get_loc], [Series.__getitem__]) are not part of the
      repository; they are modelled after the pandas 1.x behaviour that
      the calls in the sources rely on.  Periods and windows are Python
      integers of any size; a rolling window is taken to fit the 64-bit
      integer pandas stores it in. *)

From Stdlib Require Import ZArith List Floats Bool Lia.
From Stdlib Require Import Uint63.
From stdpp Require Import base gmap strings list fin_maps.

Set Warnings "-inexact-float".

Local Open Scope Z_scope.

(** ** Python exceptions and results *)

Inductive exn : Type :=
| KeyError
| TypeError
| IndexError
| ValueError
| ZeroDivisionError
| OverflowError.

Inductive result (A : Type) : Type :=
| Ok (a : A)
| Raise (e : exn).

Arguments Ok {A} a.
Arguments Raise {A} e.

Definition rbind {A B} (r : result A) (k : A -> result B) : result B :=
  match r with
  | Ok a => k a
  | Raise e => Raise e
  end.

Notation "'let!' x ':=' r 'in' k" := (rbind r (fun x => k))
  (at level 10, x name, r at level 100, k at level 200).

Definition is_ok {A} (r : result A) : bool :=
  match r with Ok _ => true | Raise _ => false end.

(** ** Numbers *)

Abbreviation Series := (list float).

(** A series that kept its row labels after slicing or masking: the labels
    are positions of the default [RangeIndex] of the frame it came from. *)
Abbreviation LSeries := (list (nat * float)).

(** The integer [z] as a float: the binary64 number nearest to it (ties to
    even), whatever the size of [z]. *)
Definition float_of_Z (z : Z) : float :=
  SF2Prim (binary_normalize prec emax z 0 false).

Definition isnan (x : float) : bool := PrimFloat.is_nan x.
Definition notnan (x : float) : bool := negb (isnan x).

(** [np.isinf] and [np.isfinite]: [inf] and [-inf] are numbers to IEEE
    comparisons but not finite ones. *)
Definition isinf (x : float) : bool := PrimFloat.is_infinity x.
Definition isfinite (x : float) : bool := notnan x && negb (isinf x).

(** [a > b] on floats (false as soon as one side is NaN). *)
Definition fgt (a b : float) : bool := (b <? a)%float.

(** ** Python sequences *)

Module Py.

(** [l[i]] for a Python [int] index [i], negative indices counting from
    the end; [IndexError] out of range. *)
Definition index {A} (l : list A) (i : Z) : result A :=
  let n := Z.of_nat (length l) in
  let j := if i <? 0 then n + i else i in
  if (j <? 0) || (n <=? j) then Raise IndexError
  else match l !! Z.to_nat j with
       | Some x => Ok x
       | None => Raise IndexError
       end.

(** [l[k:]]: the slice never raises; its start is clamped. *)
Definition slice_from {A} (l : list A) (k : Z) : list A :=
  let n := Z.of_nat (length l) in
  let s := if k <? 0 then Z.max (n + k) 0 else Z.min k n in
  drop (Z.to_nat s) l.

(** [a / b] on two Python [int]s is the true division: the exact quotient
    rounded once to the nearest binary64 number, whatever the size of the
    two integers. *)
Definition SF_of_int (z : Z) : spec_float :=
  match z with
  | Z0 => S754_zero false
  | Zpos m => S754_finite false m 0
  | Zneg m => S754_finite true m 0
  end.

Definition quotient (a b : Z) : float :=
  SF2Prim (SF64div (SF_of_int a) (SF_of_int b)).

(** It raises [ZeroDivisionError] for a zero divisor and [OverflowError]
    when the quotient is too large for a float. *)
Definition truediv (a b : Z) : result float :=
  if b =? 0 then Raise ZeroDivisionError
  else if isinf (quotient a b) then Raise OverflowError
  else Ok (quotient a b).

(** [range(a, b)] for naturals. *)
Definition range (a b : nat) : list nat := seq a (b - a).

(** [max(a, b)] and [min(a, b)] of the builtins on two arguments, each a
    float or [None]: the first argument is kept unless the second compares
    strictly beyond it; comparing with [None] raises [TypeError]. *)
Definition max2 (a b : option float) : result float :=
  match a, b with
  | Some x, Some y => Ok (if fgt y x then y else x)
  | _, _ => Raise TypeError
  end.

Definition min2 (a b : option float) : result float :=
  match a, b with
  | Some x, Some y => Ok (if (y <? x)%float then y else x)
  | _, _ => Raise TypeError
  end.

(** Truthiness of a value that is [None] or a float: [None] and zero
    (of either sign) are falsy, everything else (NaN included) is truthy. *)
Definition truthy (v : option float) : bool :=
  match v with
  | None => false
  | Some x => negb (x =? 0)%float
  end.

End Py.

(** ** pandas primitives *)

Module Pandas.

(** [Series.iloc[i]]. *)
Definition iloc {A} (s : list A) (i : Z) : result A := Py.index s i.

(** [Series.iloc[k:]] on a labelled series (labels travel with values). *)
Definition iloc_from {A} (s : list A) (k : Z) : list A := Py.slice_from s k.

(** A full-length column with the frame's default [RangeIndex]. *)
Definition with_index {A} (s : list A) : list (nat * A) :=
  zip (seq 0 (length s)) s.

Definition values {A} (s : list (nat * A)) : list A := map snd s.
Definition labels {A} (s : list (nat * A)) : list nat := map fst s.

(** [Series.dropna()]. *)
Definition dropna (s : Series) : Series := filter (fun x => notnan x = true) s.
Definition ldropna (s : LSeries) : LSeries :=
  filter (fun p => notnan (snd p) = true) s.

(** [s[mask]] with a boolean mask aligned on the same rows. *)
Definition mask {A} (s : list A) (m : list bool) : list A :=
  map fst (filter (fun p => snd p = true) (zip s m)).

(** Elementwise operations on aligned series. *)
Definition map2 {A B C} (f : A -> B -> C) (a : list A) (b : list B) : list C :=
  zip_with f a b.

(** [Series.diff()] on floats: NaN first, then successive differences. *)
Definition diff (s : Series) : Series :=
  match s with
  | [] => []
  | _ :: t => nan :: map2 (fun cur prev => (cur - prev)%float) t s
  end.

(** *** Rolling windows *)

(** [rolling(window=w)] accepts an integer window that is 0 or greater.
    (pandas later stores the window in a 64-bit integer: a window of
    [2^63] or more ends in an [OverflowError] there.  Windows of that
    size are outside this model.) *)
Definition check_window (w : Z) : result nat :=
  if w <? 0 then Raise ValueError else Ok (Z.to_nat w).

(** Bounds [start, end) of the fixed window of row [i] among [n] rows:
    the window ends at [i] (trailing) or is shifted forward by
    [(w - 1) // 2] rows ([center=True]); both ends are clipped to the
    series. *)
Definition window_bounds (w : nat) (center : bool) (n i : nat) : nat * nat :=
  let offset := if center then ((w - 1) / 2)%nat else 0%nat in
  let e := (i + 1 + offset)%nat in
  (Nat.min (e - w) n, Nat.min e n).

Definition window (w : nat) (center : bool) (s : Series) (i : nat) : Series :=
  let '(b, e) := window_bounds w center (length s) i in
  take (e - b) (drop b s).

(** The window routines do not see the values themselves: pandas first
    replaces [inf] and [-inf] by NaN ([_prep_values]), so an infinite
    value counts as a missing one. *)
Definition prep_value (x : float) : float := if isinf x then nan else x.
Definition prep_values (s : Series) : Series := map prep_value s.

(** One output row: the aggregate of the observations (the values of the
    window that are neither NaN nor infinite) when there are at least
    [min_periods = w] of them, NaN otherwise. *)
Definition roll_at (agg : Series -> float) (w : nat) (center : bool)
    (s : Series) (i : nat) : float :=
  let obs := dropna (window w center (prep_values s) i) in
  if (w <=? length obs)%nat then agg obs else nan.

Definition roll (agg : Series -> float) (w : nat) (center : bool)
    (s : Series) : Series :=
  map (roll_at agg w center s) (seq 0 (length s)).

Definition fmax (a b : float) : float := if (a <? b)%float then b else a.
Definition fmin (a b : float) : float := if (b <? a)%float then b else a.

Definition agg_max (obs : Series) : float :=
  match obs with [] => nan | x :: r => fold_left fmax r x end.
Definition agg_min (obs : Series) : float :=
  match obs with [] => nan | x :: r => fold_left fmin r x end.

Definition rolling_max (w : Z) (center : bool) (s : Series) : result Series :=
  let! n := check_window w in Ok (roll agg_max n center s).
Definition rolling_min (w : Z) (center : bool) (s : Series) : result Series :=
  let! n := check_window w in Ok (roll agg_min n center s).

(** *** Rolling mean

    The mean is not summed afresh for each row: [roll_mean] carries a
    compensated (Kahan) sum from one window to the next, removing the
    rows that left the window and adding the rows that entered it, and it
    answers a window of equal values with that value (pandas 1.5). *)
Record mean_state : Type := mkMean {
  nobs : Z;
  neg_ct : Z;
  sum_x : float;
  compensation_add : float;
  compensation_remove : float;
  num_consecutive_same_value : Z;
  prev_value : float
}.

(** C's [signbit] on a number that is not NaN. *)
Definition signbit (x : float) : bool := PrimFloat.get_sign x.

Definition add_mean (val : float) (st : mean_state) : mean_state :=
  if notnan val then
    let y := (val - compensation_add st)%float in
    let t := (sum_x st + y)%float in
    mkMean (nobs st + 1)
           (if signbit val then neg_ct st + 1 else neg_ct st)
           t
           (t - sum_x st - y)%float
           (compensation_remove st)
           (if (val =? prev_value st)%float
            then num_consecutive_same_value st + 1 else 1)
           val
  else st.

Definition remove_mean (val : float) (st : mean_state) : mean_state :=
  if notnan val then
    let y := (- val - compensation_remove st)%float in
    let t := (sum_x st + y)%float in
    mkMean (nobs st - 1)
           (if signbit val then neg_ct st - 1 else neg_ct st)
           t
           (compensation_add st)
           (t - sum_x st - y)%float
           (num_consecutive_same_value st)
           (prev_value st)
  else st.

Definition calc_mean (minp : Z) (st : mean_state) : float :=
  if (minp <=? nobs st) && (0 <? nobs st) then
    let result := (sum_x st / float_of_Z (nobs st))%float in
    if nobs st <=? num_consecutive_same_value st then prev_value st
    else if (neg_ct st =? 0) && (result <? 0)%float then 0%float
    else if (neg_ct st =? nobs st) && (0 <? result)%float then 0%float
    else result
  else nan.

(** The rows [values[a], ..., values[b - 1]]. *)
Definition rows (values : Series) (a b : nat) : Series :=
  take (b - a) (drop a values).

(** The set-up of a window [start, end) that does not overlap the one
    before it. *)
Definition mean_setup (values : Series) (s e : nat) : mean_state :=
  fold_left (fun st val => add_mean val st) (rows values s e)
    (mkMean 0 0 0 0 0 0 (nth s values nan)).

(** The state once row [i] is done: set up for the first row and for a
    window that starts at or after the end of the one before, updated
    from the state of row [i - 1] otherwise. *)
Fixpoint mean_state_at (w : nat) (center : bool) (values : Series) (i : nat)
    : mean_state :=
  let '(s, e) := window_bounds w center (length values) i in
  match i with
  | O => mean_setup values s e
  | S j =>
      let '(s', e') := window_bounds w center (length values) j in
      if (e' <=? s)%nat then mean_setup values s e
      else
        let st := mean_state_at w center values j in
        let st := fold_left (fun st val => remove_mean val st) (rows values s' s) st in
        fold_left (fun st val => add_mean val st) (rows values e' e) st
  end.

Definition roll_mean (w : nat) (center : bool) (s : Series) : Series :=
  let values := prep_values s in
  map (fun i => calc_mean (Z.of_nat w) (mean_state_at w center values i))
      (seq 0 (length s)).

Definition rolling_mean (w : Z) (center : bool) (s : Series) : result Series :=
  let! n := check_window w in Ok (roll_mean n center s).

(** *** Exponentially weighted mean, [adjust=False] *)

(** The smoothing is given by [alpha] or by [span]; pandas validates it
    and turns it into a centre of mass. *)
Definition com_of_alpha (alpha : float) : result float :=
  if (alpha <=? 0)%float || (1 <? alpha)%float then Raise ValueError
  else Ok ((1 - alpha) / alpha)%float.

Definition com_of_span (span : Z) : result float :=
  if span <? 1 then Raise ValueError
  else Py.truediv (span - 1) 2.

(** One step of the recursion: [weighted] is the running mean and
    [old_wt] the weight it carries. *)
Definition ewm_step (alpha : float) (st : float * float) (cur : float)
    : float * float :=
  let '(weighted, old_wt) := st in
  if notnan weighted then
    let old_wt := (old_wt * (1 - alpha))%float in
    if notnan cur then
      let weighted :=
        if (weighted =? cur)%float then weighted
        else ((old_wt * weighted + alpha * cur) / (old_wt + alpha))%float in
      (weighted, 1%float)
    else (weighted, old_wt)
  else if notnan cur then (cur, old_wt)
  else (weighted, old_wt).

Fixpoint ewm_run (alpha : float) (st : float * float) (s : Series) : Series :=
  match s with
  | [] => []
  | cur :: t =>
      let st' := ewm_step alpha st cur in
      fst st' :: ewm_run alpha st' t
  end.

(** The recursion runs on the prepared values, as the rolling windows
    do. *)
Definition ewm_mean (com : float) (s : Series) : Series :=
  let alpha := (1 / (1 + com))%float in
  match prep_values s with
  | [] => []
  | x0 :: t => x0 :: ewm_run alpha (x0, 1%float) t
  end.

(** *** Label lookups *)

(** [Index.get_indexer] with [method='pad'] and [method='backfill'] on
    increasing labels: the last position whose label is at most [key], the
    first whose label is at least [key]. *)
Definition pad (ls : list nat) (key : nat) : option (nat * nat) :=
  last (List.filter (fun p => (snd p <=? key)%nat) (with_index ls)).
Definition backfill (ls : list nat) (key : nat) : option (nat * nat) :=
  head (List.filter (fun p => (key <=? snd p)%nat) (with_index ls)).

Definition dist (a b : nat) : nat := ((a - b) + (b - a))%nat.

(** [Index.get_loc(key, method='nearest')]: the POSITION of the label
    nearest to [key]; on a tie the larger label wins; [KeyError] on an
    empty index. *)
Definition get_loc_nearest (ls : list nat) (key : nat) : result nat :=
  match pad ls key, backfill ls key with
  | Some (l, ll), Some (r, rl) =>
      Ok (if (dist ll key <? dist rl key)%nat then l else r)
  | Some (l, _), None => Ok l
  | None, Some (r, _) => Ok r
  | None, None => Raise KeyError
  end.

(** [s[k]] for an integer [k] on a series whose index holds integers: the
    key is a LABEL, never a position; [KeyError] when no row has it. *)
Definition getitem (s : LSeries) (k : nat) : result float :=
  match List.find (fun p => (fst p =? k)%nat) s with
  | Some p => Ok (snd p)
  | None => Raise KeyError
  end.

End Pandas.

(** ** The shared bar table *)

(** A pandas [DataFrame] with the default [RangeIndex]: [nrows] rows and a
    dictionary of named columns.  [main.py] builds it with the columns
    timestamp, open, high, low, close and volume. *)
Record DataFrame : Type := mkDF {
  nrows : nat;
  columns : gmap string Series
}.

(** Methods that touch [self.df] run against the one shared table: they
    take its current state and give back its next state with their result
    (or the exception they raised). *)
Definition M (A : Type) : Type := DataFrame -> DataFrame * result A.

Definition M_ret {A} (a : A) : M A := fun df => (df, Ok a).

Definition M_bind {A B} (m : M A) (k : A -> M B) : M B :=
  fun df =>
    match m df with
    | (df', Ok a) => k a df'
    | (df', Raise e) => (df', Raise e)
    end.

Notation "'let*' x ':=' m 'in' k" := (M_bind m (fun x => k))
  (at level 10, x name, m at level 100, k at level 200).

(** A computation that does not look at the table. *)
Definition lift {A} (r : result A) : M A := fun df => (df, r).

(** [len(df)]. *)
Definition df_len : M nat := fun df => (df, Ok (nrows df)).

(** [df[c]] read: [KeyError] when there is no such column. *)
Definition get_col (c : string) : M Series :=
  fun df =>
    match columns df !! c with
    | Some s => (df, Ok s)
    | None => (df, Raise KeyError)
    end.

(** [df[c] = s]: adds or replaces the column in place; the values must
    cover the rows of the table. *)
Definition set_col (c : string) (s : Series) : M unit :=
  fun df =>
    if (length s =? nrows df)%nat
    then (mkDF (nrows df) (<[c := s]> (columns df)), Ok tt)
    else (df, Raise ValueError).

(** ** Signals *)

Inductive signal : Type :=
| BULLISH | BEARISH | NEUTRAL
| OVERBOUGHT | OVERSOLD
| RISING | FALLING
| BREAKOUT | BREAKDOWN | RANGE
| UPTREND | DOWNTREND | MIXED
| ABOVE_BOTH | BELOW_BOTH | BETWEEN
| STRONG_BULLISH | STRONG_BEARISH | BULLISH_BIAS | BEARISH_BIAS.

(** The [description] strings of the analysis dictionaries are formatted
    renderings of the same values ([f'{x:.2f}']); only the ones that are
    constant texts are kept below. *)

(** ** ichimoku.py *)

Module Ichimoku.

(** The object: configuration and the four lines computed by
    [calculate].  [self.df] is the shared table, not a field. *)
Record t : Type := mk {
  tenkan_period : Z;
  kijun_period : Z;
  senkou_b_period : Z;
  displacement : Z;
  tenkan : Series;
  kijun : Series;
  senkou_span_a : Series;
  senkou_span_b : Series
}.

(** [(a + b) / 2] on aligned series. *)
Definition half_sum (a b : Series) : Series :=
  Pandas.map2 (fun x y => ((x + y) / 2)%float) a b.

Definition calculate (tp kp sp d : Z) : M t :=
  let* high := get_col "high" in
  let* high_tenkan := lift (Pandas.rolling_max tp false high) in
  let* low := get_col "low" in
  let* low_tenkan := lift (Pandas.rolling_min tp false low) in
  let tenkan := half_sum high_tenkan low_tenkan in
  let* high := get_col "high" in
  let* high_kijun := lift (Pandas.rolling_max kp false high) in
  let* low := get_col "low" in
  let* low_kijun := lift (Pandas.rolling_min kp false low) in
  let kijun := half_sum high_kijun low_kijun in
  let senkou_span_a := half_sum tenkan kijun in
  let* high := get_col "high" in
  let* high_span_b := lift (Pandas.rolling_max sp false high) in
  let* low := get_col "low" in
  let* low_span_b := lift (Pandas.rolling_min sp false low) in
  let senkou_span_b := half_sum high_span_b low_span_b in
  M_ret (mk tp kp sp d tenkan kijun senkou_span_a senkou_span_b).

(** [Ichimoku(df, tenkan_period=9, kijun_period=26, senkou_b_period=52,
    displacement=26)]. *)
Definition __init__ (tp kp sp d : Z) : M t := calculate tp kp sp d.

Definition default : M t := __init__ 9 26 52 26.

Record values : Type := mkValues {
  v_tenkan : float;
  v_kijun : float;
  current_span_a : option float;
  current_span_b : option float;
  future_span_a : float;
  future_span_b : float
}.

(** [s.iloc[-d] if len(s) > d else None]. *)
Definition displaced (s : Series) (d : Z) : result (option float) :=
  if d <? Z.of_nat (length s)
  then let! x := Pandas.iloc s (- d) in Ok (Some x)
  else Ok None.

Definition get_current_values (self : t) : result values :=
  let! tk := Pandas.iloc (tenkan self) (-1) in
  let! kj := Pandas.iloc (kijun self) (-1) in
  let! ca := displaced (senkou_span_a self) (displacement self) in
  let! cb := displaced (senkou_span_b self) (displacement self) in
  let! fa := Pandas.iloc (senkou_span_a self) (-1) in
  let! fb := Pandas.iloc (senkou_span_b self) (-1) in
  Ok (mkValues tk kj ca cb fa fb).

Record analysis : Type := mkAnalysis {
  price_vs_cloud : signal;
  future_cloud : signal;
  tk_cross : signal
}.

Definition analyze (self : t) (current_price : float)
    : result (values * analysis) :=
  let! v := get_current_values self in
  let! cloud_top := Py.max2 (current_span_a v) (current_span_b v) in
  let! cloud_bottom := Py.min2 (current_span_a v) (current_span_b v) in
  let pvc :=
    if fgt current_price cloud_top then BULLISH
    else if (current_price <? cloud_bottom)%float then BEARISH
    else NEUTRAL in
  let fc := if fgt (future_span_a v) (future_span_b v) then BULLISH else BEARISH in
  let tk := if fgt (v_tenkan v) (v_kijun v) then BULLISH else BEARISH in
  Ok (v, mkAnalysis pvc fc tk).

End Ichimoku.

(** ** rsi.py *)

Module RSI.

Record t : Type := mk {
  length : Z;
  smoothing_type : string;
  smoothing_length : Z;
  upper_limit : float;
  middle_limit : float;
  lower_limit : float;
  rsi : Series;
  smoothed_rsi : Series
}.

(** [1 / n] for a Python [int] [n]. *)
Definition one_over (n : Z) : result float := Py.truediv 1 n.

(** [delta.where(delta > 0, 0)] and [-delta.where(delta < 0, 0)]. *)
Definition gains_of (delta : Series) : Series :=
  map (fun d => if fgt d 0 then d else 0%float) delta.
Definition losses_of (delta : Series) : Series :=
  map (fun d => (- (if (d <? 0)%float then d else 0))%float) delta.

Definition rsi_of (avg_gains avg_losses : Series) : Series :=
  Pandas.map2 (fun g l => (100 - 100 / (1 + g / l))%float) avg_gains avg_losses.

Definition calculate (len : Z) (st : string) (sl : Z) (up mid lo : float) : M t :=
  let* close := get_col "close" in
  let delta := Pandas.diff close in
  let gains := gains_of delta in
  let losses := losses_of delta in
  let* alpha := lift (one_over len) in
  let* com := lift (Pandas.com_of_alpha alpha) in
  let avg_gains := Pandas.ewm_mean com gains in
  let* alpha := lift (one_over len) in
  let* com := lift (Pandas.com_of_alpha alpha) in
  let avg_losses := Pandas.ewm_mean com losses in
  let rsi := rsi_of avg_gains avg_losses in
  let* smoothed :=
    if String.eqb st "SMA" then lift (Pandas.rolling_mean sl false rsi)
    else if String.eqb st "EMA" then
      lift (let! com := Pandas.com_of_span sl in Ok (Pandas.ewm_mean com rsi))
    else M_ret rsi in
  M_ret (mk len st sl up mid lo rsi smoothed).

(** [RSI(df, length=14, smoothing_type='SMA', smoothing_length=14,
    upper_limit=70, middle_limit=50, lower_limit=30)]. *)
Definition __init__ (len : Z) (st : string) (sl : Z) (up mid lo : float) : M t :=
  calculate len st sl up mid lo.

Definition default : M t := __init__ 14 "SMA" 14 70 50 30.

Record values : Type := mkValues {
  v_rsi : float;
  v_smoothed_rsi : float;
  v_upper_limit : float;
  v_middle_limit : float;
  v_lower_limit : float
}.

Definition get_current_values (self : t) : result values :=
  let! r := Pandas.iloc (rsi self) (-1) in
  let! s := Pandas.iloc (smoothed_rsi self) (-1) in
  Ok (mkValues r s (upper_limit self) (middle_limit self) (lower_limit self)).

Record analysis : Type := mkAnalysis {
  condition : signal;
  momentum : signal;
  trend : option signal
}.

Definition analyze (self : t) : result (values * analysis) :=
  let! v := get_current_values self in
  let current_rsi := v_smoothed_rsi v in
  let cond :=
    if (upper_limit self <=? current_rsi)%float then OVERBOUGHT
    else if (current_rsi <=? lower_limit self)%float then OVERSOLD
    else NEUTRAL in
  let mom := if fgt current_rsi (middle_limit self) then BULLISH else BEARISH in
  let recent_rsi := Pandas.iloc_from (smoothed_rsi self) (-5) in
  let! tr :=
    if (5 <=? List.length recent_rsi)%nat then
      let! last := Pandas.iloc recent_rsi (-1) in
      let! first := Pandas.iloc recent_rsi 0 in
      Ok (Some (if fgt last first then RISING else FALLING))
    else Ok None in
  Ok (v, mkAnalysis cond mom tr).

(** *** Divergence *)

Record divergence : Type := mkDiv {
  bullish_divergence : bool;
  bearish_divergence : bool;
  description : string
}.

Definition no_divergence : divergence :=
  mkDiv false false "No divergence detected".
Definition bearish : divergence :=
  mkDiv false true
    "Bearish divergence: Price making higher highs, RSI making lower highs".
Definition bullish : divergence :=
  mkDiv true false
    "Bullish divergence: Price making lower lows, RSI making higher lows".

(** [s[s.rolling(w, center=True).max() == s].dropna()], and the same with
    [min]: the rows that equal the centred rolling extremum. *)
Definition extrema (rolling : Z -> bool -> Series -> result Series)
    (w : Z) (s : LSeries) : result LSeries :=
  let! r := rolling w true (Pandas.values s) in
  let m := Pandas.map2 (fun a b => (a =? b)%float) r (Pandas.values s) in
  Ok (Pandas.ldropna (Pandas.mask s m)).

Definition peaks := extrema Pandas.rolling_max.
Definition troughs := extrema Pandas.rolling_min.

(** [ext[ext.index.get_loc(label, method='nearest')]]: [get_loc] gives a
    position, and the subscript reads it as a label. *)
Definition corresponding (ext : LSeries) (label : nat) : result float :=
  let! pos := Pandas.get_loc_nearest (Pandas.labels ext) label in
  Pandas.getitem ext pos.

(** The body of one of the two checks: [beyond a b] is [a > b] for peaks
    and [a < b] for troughs. *)
Definition diverges (beyond : float -> float -> bool)
    (price_ext rsi_ext : LSeries) : result bool :=
  if (2 <=? List.length price_ext)%nat && (2 <=? List.length rsi_ext)%nat then
    let! last_price := Py.index (Pandas.labels price_ext) (-1) in
    let! prev_price := Py.index (Pandas.labels price_ext) (-2) in
    let! last_rsi := corresponding rsi_ext last_price in
    let! prev_rsi := corresponding rsi_ext prev_price in
    let! p1 := Pandas.iloc (Pandas.values price_ext) (-1) in
    let! p2 := Pandas.iloc (Pandas.values price_ext) (-2) in
    Ok (beyond p1 p2 && beyond prev_rsi last_rsi)
  else Ok false.

Definition get_divergence (self : t) (lookback peak_window : Z)
    : M (option divergence) :=
  let* n := df_len in
  if Z.of_nat n <? lookback then M_ret None else
  let* close := get_col "close" in
  let recent_prices := Pandas.iloc_from (Pandas.with_index close) (- lookback) in
  let recent_rsi :=
    Pandas.iloc_from (Pandas.with_index (smoothed_rsi self)) (- lookback) in
  let* price_peaks := lift (peaks peak_window recent_prices) in
  let* price_troughs := lift (troughs peak_window recent_prices) in
  let* rsi_peaks := lift (peaks peak_window recent_rsi) in
  let* rsi_troughs := lift (troughs peak_window recent_rsi) in
  let* bear := lift (diverges fgt price_peaks rsi_peaks) in
  if bear then M_ret (Some bearish) else
  let* bull := lift (diverges (fun a b => (a <? b)%float) price_troughs rsi_troughs) in
  if bull then M_ret (Some bullish) else
  M_ret (Some no_divergence).

End RSI.

(** ** fractals.py *)

Module WilliamsFractals.

(** The object.  The two fractal columns are NOT fields: [calculate]
    writes them into the shared table as [df['fractal_up']] and
    [df['fractal_down']]. *)
Record t : Type := mk {
  period : Z;
  last_up_fractal : option float;
  last_down_fractal : option float;
  recent_up_fractals : list float;
  recent_down_fractals : list float
}.

(** [np.where(a == b, a, np.nan)]. *)
Definition where_equal (a b : Series) : Series :=
  Pandas.map2 (fun x y => if (x =? y)%float then x else nan) a b.

(** [s.dropna().iloc[-1] if not s.dropna().empty else None]. *)
Definition last_value (s : Series) : option float := last (Pandas.dropna s).

(** [s.dropna().tail(5).tolist()]. *)
Definition recent5 (s : Series) : list float :=
  Py.slice_from (Pandas.dropna s) (-5).

Definition calculate (period : Z) : M t :=
  let n := period in
  let window_size := 2 * n + 1 in
  let* high := get_col "high" in
  let* r := lift (Pandas.rolling_max window_size true high) in
  let* _ := set_col "fractal_up" r in
  let* high := get_col "high" in
  let* fu := get_col "fractal_up" in
  let* _ := set_col "fractal_up" (where_equal high fu) in
  let* low := get_col "low" in
  let* r := lift (Pandas.rolling_min window_size true low) in
  let* _ := set_col "fractal_down" r in
  let* low := get_col "low" in
  let* fd := get_col "fractal_down" in
  let* _ := set_col "fractal_down" (where_equal low fd) in
  let* fu := get_col "fractal_up" in
  let* fd := get_col "fractal_down" in
  M_ret (mk period (last_value fu) (last_value fd) (recent5 fu) (recent5 fd)).

(** [WilliamsFractals(df, period=2)]. *)
Definition __init__ (period : Z) : M t := calculate period.

Definition default : M t := __init__ 2.

Record values : Type := mkValues {
  v_last_up_fractal : option float;
  v_last_down_fractal : option float;
  v_recent_up_fractals : list float;
  v_recent_down_fractals : list float;
  up_fractal_count : nat;
  down_fractal_count : nat
}.

Definition get_current_values (self : t) : values :=
  mkValues (last_up_fractal self) (last_down_fractal self)
           (recent_up_fractals self) (recent_down_fractals self)
           (List.length (recent_up_fractals self))
           (List.length (recent_down_fractals self)).

Inductive token : Type := up | down | none.

Definition token_eqb (a b : token) : bool :=
  match a, b with
  | up, up | down, down | none, none => true
  | _, _ => false
  end.

(** [l.count(x)]. *)
Definition count (x : token) (l : list token) : nat :=
  List.length (List.filter (token_eqb x) l).

Record analysis : Type := mkAnalysis {
  position : option signal;
  fractal_trend : option signal;
  distances : option (float * float);
  sequence : list token;
  dominance : string
}.

(** 1. Support/resistance: only when both last fractals are truthy. *)
Definition position_of (v : values) (current_price : float) : option signal :=
  if Py.truthy (v_last_up_fractal v) && Py.truthy (v_last_down_fractal v) then
    match v_last_up_fractal v, v_last_down_fractal v with
    | Some u, Some d =>
        Some (if fgt current_price u then BREAKOUT
              else if (current_price <? d)%float then BREAKDOWN
              else RANGE)
    | _, _ => None
    end
  else None.

(** 2. Fractal trend: last against first of each recent list. *)
Definition trend_of (v : values) : result (option signal) :=
  if (2 <=? List.length (v_recent_up_fractals v))%nat
     && (2 <=? List.length (v_recent_down_fractals v))%nat then
    let! u1 := Py.index (v_recent_up_fractals v) (-1) in
    let! u0 := Py.index (v_recent_up_fractals v) 0 in
    let up_trend := fgt u1 u0 in
    let! d1 := Py.index (v_recent_down_fractals v) (-1) in
    let! d0 := Py.index (v_recent_down_fractals v) 0 in
    let down_trend := fgt d1 d0 in
    Ok (Some (if up_trend && down_trend then UPTREND
              else if negb up_trend && negb down_trend then DOWNTREND
              else MIXED))
  else Ok None.

(** 3. Distances, in percent of the price. *)
Definition distances_of (v : values) (current_price : float)
    : option (float * float) :=
  if Py.truthy (v_last_up_fractal v) && Py.truthy (v_last_down_fractal v) then
    match v_last_up_fractal v, v_last_down_fractal v with
    | Some u, Some d =>
        Some (((u - current_price) / current_price * 100)%float,
              ((current_price - d) / current_price * 100)%float)
    | _, _ => None
    end
  else None.

(** 4. The loop [for i in range(1, len(self.df)): idx = -i ...] with its
    [break] once ten tokens are collected. *)
Fixpoint scan (fractal_up fractal_down : Series) (idxs : list nat)
    (recent_fractals : list token) : result (list token) :=
  match idxs with
  | [] => Ok recent_fractals
  | i :: rest =>
      let idx := - Z.of_nat i in
      let! u := Pandas.iloc fractal_up idx in
      let! recent_fractals :=
        if notnan u then Ok (recent_fractals ++ [up])
        else
          let! d := Pandas.iloc fractal_down idx in
          if notnan d then Ok (recent_fractals ++ [down])
          else Ok recent_fractals in
      if (List.length recent_fractals =? 10)%nat then Ok recent_fractals
      else scan fractal_up fractal_down rest recent_fractals
  end.

(** [while len(recent_fractals) < 10: recent_fractals.append('none')]. *)
Definition pad_none (recent_fractals : list token) : list token :=
  recent_fractals ++ replicate (10 - List.length recent_fractals) none.

Definition dominance_of (recent_fractals : list token) : string :=
  let up_count := count up recent_fractals in
  let down_count := count down recent_fractals in
  if (down_count <? up_count)%nat then "UP fractals dominate recent price action"
  else if (up_count <? down_count)%nat then "DOWN fractals dominate recent price action"
  else "No clear dominance in recent fractals".

Definition analyze (self : t) (current_price : float) : M (values * analysis) :=
  let v := get_current_values self in
  let pos := position_of v current_price in
  let* tr := lift (trend_of v) in
  let dist := distances_of v current_price in
  let* fractal_up := get_col "fractal_up" in
  let* fractal_down := get_col "fractal_down" in
  let* n := df_len in
  let* recent := lift (scan fractal_up fractal_down (Py.range 1 n) []) in
  let recent := pad_none recent in
  M_ret (v, mkAnalysis pos tr dist recent (dominance_of recent)).

End WilliamsFractals.

(** ** ma_cross.py *)

Module MACross.

Record t : Type := mk {
  fast_ma_period : Z;
  slow_ma_period : Z;
  long_ma_period : Z;
  ma_type : string;
  ma_fast : Series;
  ma_slow : Series;
  ma_long : Series
}.

(** One average of the close column, of the configured kind. *)
Definition moving_average (ma_type : string) (p : Z) : M Series :=
  let* close := get_col "close" in
  if String.eqb ma_type "SMA" then lift (Pandas.rolling_mean p false close)
  else lift (let! com := Pandas.com_of_span p in Ok (Pandas.ewm_mean com close)).

Definition calculate (f s l : Z) (ma_type : string) : M t :=
  let* ma_fast := moving_average ma_type f in
  let* ma_slow := moving_average ma_type s in
  let* ma_long := moving_average ma_type l in
  M_ret (mk f s l ma_type ma_fast ma_slow ma_long).

(** [MACross(df, fast_periods=[10, 50], slow_periods=[50, 200],
    ma_type='SMA')]: the periods are [fast_periods[0]], [slow_periods[0]]
    and [slow_periods[1]]. *)
Definition __init__ (fast_periods slow_periods : list Z) (ma_type : string) : M t :=
  let* f := lift (Py.index fast_periods 0) in
  let* s := lift (Py.index slow_periods 0) in
  let* l := lift (Py.index slow_periods 1) in
  calculate f s l ma_type.

Definition default : M t := __init__ [10; 50] [50; 200] "SMA".

Record values : Type := mkValues {
  v_ma_fast : float;
  v_ma_slow : float;
  v_ma_long : float
}.

Definition get_current_values (self : t) : result values :=
  let! a := Pandas.iloc (ma_fast self) (-1) in
  let! b := Pandas.iloc (ma_slow self) (-1) in
  let! c := Pandas.iloc (ma_long self) (-1) in
  Ok (mkValues a b c).

Record ma_set : Type := mkSet {
  cross_status : signal;
  price_position : signal;
  from_fast : float;
  from_slow : float
}.

Definition _analyze_ma_set (price fast_ma slow_ma : float) : ma_set :=
  mkSet
    (if fgt fast_ma slow_ma then BULLISH else BEARISH)
    (if fgt price fast_ma && fgt price slow_ma then ABOVE_BOTH
     else if (price <? fast_ma)%float && (price <? slow_ma)%float then BELOW_BOTH
     else BETWEEN)
    ((price - fast_ma) / price * 100)%float
    ((price - slow_ma) / price * 100)%float.

(** [1 if diff > 0 else -1]. *)
Definition sign_of (diff : float) : float :=
  if fgt diff 0 then 1%float else (-1)%float.

(** [((a - b) / b) * 100]. *)
Definition pct_diff (a b : float) : float := ((a - b) / b * 100)%float.

Definition weighted_score (price : float) (v : values) : float :=
  let ma_fast_slow_diff := pct_diff (v_ma_fast v) (v_ma_slow v) in
  let ma_slow_long_diff := pct_diff (v_ma_slow v) (v_ma_long v) in
  let price_ma_long_diff := pct_diff price (v_ma_long v) in
  (0.3 * sign_of ma_fast_slow_diff
   + 0.3 * sign_of ma_slow_long_diff
   + 0.4 * sign_of price_ma_long_diff)%float.

(** The [if]/[elif] chain on the score. *)
Definition structure_of (weighted_score : float) : signal :=
  if fgt weighted_score 0.5 then STRONG_BULLISH
  else if (weighted_score <? -0.5)%float then STRONG_BEARISH
  else if fgt weighted_score 0 then BULLISH_BIAS
  else BEARISH_BIAS.

Definition _analyze_market_structure (price : float) (v : values) : signal :=
  structure_of (weighted_score price v).

Record analysis : Type := mkAnalysis {
  set1_short_term : ma_set;
  set2_long_term : ma_set;
  market_structure : signal
}.

Definition analyze (self : t) (current_price : float)
    : result (values * analysis) :=
  let! v := get_current_values self in
  Ok (v, mkAnalysis
           (_analyze_ma_set current_price (v_ma_fast v) (v_ma_slow v))
           (_analyze_ma_set current_price (v_ma_slow v) (v_ma_long v))
           (_analyze_market_structure current_price v)).

(** *** Cross history *)

(** [Series.diff()] on a boolean series: pandas cannot subtract booleans
    and takes the exclusive or of neighbours instead; the result is an
    object series, NaN (here [None]) in its first row and [True] wherever
    the value CHANGED, in either direction. *)
Definition bool_diff (s : list bool) : list (option bool) :=
  match s with
  | [] => []
  | _ :: t => None :: Pandas.map2 (fun cur prev => Some (xorb cur prev)) t s
  end.

(** [x == k] for an element of that object series and a Python [int]:
    [True == 1], [False == 0], and NaN equals nothing. *)
Definition eq_int (x : option bool) (k : Z) : bool :=
  match x with
  | Some b => Z.b2z b =? k
  | None => false
  end.

Record cross_entry : Type := mkEntry {
  last_golden_cross : option nat;
  last_death_cross : option nat
}.

(** [sel.index[-1] if not sel.empty else None] for
    [sel = recent[recent == k]]. *)
Definition last_where (recent : list (nat * option bool)) (k : Z) : option nat :=
  last (Pandas.labels (List.filter (fun p => eq_int (snd p) k) recent)).

Definition crosses_of (ma_a ma_b : Series) (lookback : Z) : cross_entry :=
  let above := Pandas.map2 fgt ma_a ma_b in
  let crosses := bool_diff above in
  let recent := Pandas.iloc_from (Pandas.with_index crosses) (- lookback) in
  mkEntry (last_where recent 1) (last_where recent (-1)).

(** The dictionary is keyed by [f'{a}_{b}'] of the two periods; the pair
    [(a, b)] stands for that text. *)
Definition get_cross_history (self : t) (lookback : Z)
    : gmap (Z * Z) cross_entry :=
  let fast_slow := crosses_of (ma_fast self) (ma_slow self) lookback in
  let slow_long := crosses_of (ma_slow self) (ma_long self) lookback in
  <[(slow_ma_period self, long_ma_period self) := slow_long]>
    (<[(fast_ma_period self, slow_ma_period self) := fast_slow]> ∅).

End MACross.

(** ** main.py *)

Module Main.

(** The [signal] texts that the analysis dictionaries carry. *)
Definition signal_name (s : signal) : string :=
  match s with
  | BULLISH => "BULLISH" | BEARISH => "BEARISH" | NEUTRAL => "NEUTRAL"
  | OVERBOUGHT => "OVERBOUGHT" | OVERSOLD => "OVERSOLD"
  | RISING => "RISING" | FALLING => "FALLING"
  | BREAKOUT => "BREAKOUT" | BREAKDOWN => "BREAKDOWN" | RANGE => "RANGE"
  | UPTREND => "UPTREND" | DOWNTREND => "DOWNTREND" | MIXED => "MIXED"
  | ABOVE_BOTH => "ABOVE_BOTH" | BELOW_BOTH => "BELOW_BOTH"
  | BETWEEN => "BETWEEN"
  | STRONG_BULLISH => "STRONG_BULLISH" | STRONG_BEARISH => "STRONG_BEARISH"
  | BULLISH_BIAS => "BULLISH_BIAS" | BEARISH_BIAS => "BEARISH_BIAS"
  end.

(** The terminal colour sequences ['\033[92m'], ['\033[91m'] and
    ['\033[93m'] (octal 033 is the escape character, code 27). *)
Definition escape (code : string) : string :=
  String (Ascii.ascii_of_nat 27) code.

Definition green : string := escape "[92m".
Definition red : string := escape "[91m".
Definition yellow : string := escape "[93m".

(** The [colors] dictionary of [get_color_code]. *)
Definition colors : gmap string string :=
  list_to_map
    [ ("BULLISH", green); ("BEARISH", red); ("NEUTRAL", yellow);
      ("OVERBOUGHT", red); ("OVERSOLD", green);
      ("RISING", green); ("FALLING", red);
      ("BREAKOUT", green); ("BREAKDOWN", red); ("RANGE", yellow);
      ("UPTREND", green); ("DOWNTREND", red); ("MIXED", yellow);
      ("ABOVE_BOTH", green); ("BELOW_BOTH", red); ("BETWEEN", yellow);
      ("STRONG_BULLISH", green); ("STRONG_BEARISH", red);
      ("BULLISH_BIAS", green); ("BEARISH_BIAS", red) ]%string.

(** [colors.get(signal, '')]. *)
Definition get_color_code (signal : string) : string :=
  match colors !! signal with
  | Some c => c
  | None => ""%string
  end.

(** What [main] computes, in the order of its calls.  The price and the
    bars come from the exchange: the price is the argument and the bars
    are the table the computation starts from.  The four engines are
    constructed and analysed on that one table; the reports are printed
    afterwards, and printing the RSI report asks the RSI object for the
    divergence with the default arguments.  The printed text itself is
    not part of the result. *)
Record results : Type := mkResults {
  ichimoku_result : Ichimoku.values * Ichimoku.analysis;
  rsi_result : RSI.values * RSI.analysis;
  fractals_result : WilliamsFractals.values * WilliamsFractals.analysis;
  ma_result : MACross.values * MACross.analysis;
  divergence : option RSI.divergence
}.

Definition main (current_price : float) : M results :=
  let* ichimoku := Ichimoku.__init__ 9 26 52 26 in
  let* ichimoku_r := lift (Ichimoku.analyze ichimoku current_price) in
  let* rsi := RSI.__init__ 14 "SMA" 14 70 50 30 in
  let* rsi_r := lift (RSI.analyze rsi) in
  let* fractals := WilliamsFractals.__init__ 2 in
  let* fractals_r := WilliamsFractals.analyze fractals current_price in
  let* ma_cross := MACross.__init__ [10; 50] [50; 200] "SMA" in
  let* ma_r := lift (MACross.analyze ma_cross current_price) in
  let* divergence := RSI.get_divergence rsi 30 5 in
  M_ret (mkResults ichimoku_r rsi_r fractals_r ma_r divergence).

End Main.

(** * Vocabulary of the statements

    Closed forms of what the methods compute, the behaviour as the
    specification words it, and the bar tables used as examples. *)

Local Open Scope nat_scope.

(** ** Effects on the shared table *)

Section TableTerms.

(** [m] never changes the table, whether it returns or raises. *)
Definition read_only {A} (m : M A) : Prop := forall df, fst (m df) = df.

(** [m] keeps the rows and every column outside [cs]. *)
Definition writes_only {A} (cs : list string) (m : M A) : Prop :=
  forall df,
    nrows (fst (m df)) = nrows df /\
    forall c, c ∉ cs -> columns (fst (m df)) !! c = columns df !! c.

(** The columns of the ingested bars. *)
Definition ohlcv : list string :=
  ["timestamp"; "open"; "high"; "low"; "close"; "volume"]%string.

(** Each engine as [main.py] uses it: constructed on the shared table,
    then analysed (the RSI report also asks for the divergence; the
    cross history is asked of the same object). *)
Definition run_ichimoku (tp kp sp d : Z) (price : float) :=
  let* self := Ichimoku.__init__ tp kp sp d in
  lift (Ichimoku.analyze self price).

Definition run_rsi (len : Z) (st : string) (sl : Z) (up mid lo : float)
    (lookback peak_window : Z) :=
  let* self := RSI.__init__ len st sl up mid lo in
  let* r := lift (RSI.analyze self) in
  let* d := RSI.get_divergence self lookback peak_window in
  M_ret (r, d).

Definition run_fractals (period : Z) (price : float) :=
  let* self := WilliamsFractals.__init__ period in
  WilliamsFractals.analyze self price.

Definition run_macross (fast_periods slow_periods : list Z) (ty : string)
    (price : float) (lookback : Z) :=
  let* self := MACross.__init__ fast_periods slow_periods ty in
  let* r := lift (MACross.analyze self price) in
  M_ret (r, MACross.get_cross_history self lookback).

(** Row [i] of [s] is NaN whenever fewer than [w] rows end at [i]. *)
Definition no_value_prefix (w : Z) (s : Series) : Prop :=
  forall i, (Z.of_nat i + 1 < w)%Z -> i < length s -> s !! i = Some nan.

End TableTerms.

(** ** Ichimoku *)

Section IchimokuTerms.

Import Ichimoku.

(** The object [calculate] builds from the two columns it reads. *)
Definition lines_of (tp kp sp d : Z) (high low : Series) : t :=
  let line p :=
    half_sum (Pandas.roll Pandas.agg_max (Z.to_nat p) false high)
             (Pandas.roll Pandas.agg_min (Z.to_nat p) false low) in
  mk tp kp sp d (line tp) (line kp) (half_sum (line tp) (line kp)) (line sp).





(** The row that [s.iloc[i]] reads among [n] rows when [i] is in range
    ([-n <= i < n]): a negative index counts from the end. *)
Definition iloc_row (n : nat) (i : Z) : nat := Z.to_nat (i mod Z.of_nat n).

(** The price-versus-cloud signal for a cloud between [bottom] and [top]. *)
Definition against_cloud (price bottom top : float) : signal :=
  if fgt price top then BULLISH
  else if (price <? bottom)%float then BEARISH
  else NEUTRAL.

End IchimokuTerms.

(** ** RSI *)

Section RSITerms.

(** The trailing window of a column, with its row labels. *)
Definition recent_of (s : Series) (lookback : Z) : LSeries :=
  Pandas.iloc_from (Pandas.with_index s) (- lookback).

(** The value of [ext] at the row nearest to [label], as the
    specification words it: the nearest POSITION, read by position. *)
Definition nearest_value (ext : LSeries) (label : nat) : result float :=
  let! pos := Pandas.get_loc_nearest (Pandas.labels ext) label in
  Pandas.iloc (Pandas.values ext) (Z.of_nat pos).

(** Bearish divergence as the specification words it: at least two peaks
    in each series, the two most recent price peaks strictly increasing,
    and the RSI peaks nearest to them strictly decreasing. *)
Definition spec_bearish (price_peaks rsi_peaks : LSeries) : result bool :=
  if (2 <=? length price_peaks) && (2 <=? length rsi_peaks) then
    let! last_label := Py.index (Pandas.labels price_peaks) (-1) in
    let! prev_label := Py.index (Pandas.labels price_peaks) (-2) in
    let! last_rsi := nearest_value rsi_peaks last_label in
    let! prev_rsi := nearest_value rsi_peaks prev_label in
    let! p1 := Pandas.iloc (Pandas.values price_peaks) (-1) in
    let! p2 := Pandas.iloc (Pandas.values price_peaks) (-2) in
    Ok (fgt p1 p2 && (last_rsi <? prev_rsi)%float)
  else Ok false.

(** The rows of a series whose position satisfies [keep]. *)
Definition rows_where {A} (keep : nat -> bool) (s : list A) : list A :=
  map snd (List.filter (fun q => keep (fst q)) (zip (seq 0 (length s)) s)).



(** The two series [calculate] builds from the close column. *)
Definition rsi_line (len : Z) (close : Series) : Series :=
  let delta := Pandas.diff close in
  let alpha := Py.quotient 1 len in
  let com := ((1 - alpha) / alpha)%float in
  RSI.rsi_of (Pandas.ewm_mean com (RSI.gains_of delta))
             (Pandas.ewm_mean com (RSI.losses_of delta)).

Definition smoothed_line (st : string) (sl : Z) (rsi : Series) : Series :=
  if String.eqb st "SMA" then Pandas.roll_mean (Z.to_nat sl) false rsi
  else if String.eqb st "EMA" then
    Pandas.ewm_mean (Py.quotient (sl - 1) 2) rsi
  else rsi.

End RSITerms.

(** ** Williams Fractals *)

Section FractalTerms.

Import WilliamsFractals.

(** The two columns [calculate] leaves in the table. *)
Definition fractal_up_of (period : Z) (high : Series) : Series :=
  where_equal high
    (Pandas.roll Pandas.agg_max (Z.to_nat (2 * period + 1)) true high).

Definition fractal_down_of (period : Z) (low : Series) : Series :=
  where_equal low
    (Pandas.roll Pandas.agg_min (Z.to_nat (2 * period + 1)) true low).

(** The table after a successful construction, and the object built. *)
Definition after_init (period : Z) (high low : Series) (df : DataFrame)
    : DataFrame :=
  mkDF (nrows df)
       (<["fractal_down" := fractal_down_of period low]>
          (<["fractal_up" := fractal_up_of period high]> (columns df))).

Definition self_of (period : Z) (high low : Series) : t :=
  let fu := fractal_up_of period high in
  let fd := fractal_down_of period low in
  mk period (last_value fu) (last_value fd) (recent5 fu) (recent5 fd).

(** The tokens one bar contributes: 'up' if it is an up-fractal, else
    'down' if it is a down-fractal, else nothing. *)
Definition bar_token (b : float * float) : list token :=
  if notnan (fst b) then [up]
  else if notnan (snd b) then [down]
  else [].

(** The pair of flags the loop reads at [idx = -i]. *)
Definition bar_at (fu fd : Series) (i : nat) : float * float :=
  (nth (length fu - i) fu nan, nth (length fd - i) fd nan).

(** The tokens the loop collects, in closed form: the rows are read from
    the last one backward, the first row is never reached, and the
    reading stops at ten tokens. *)
Definition collected (fractal_up fractal_down : Series) : list token :=
  take 10 (flat_map bar_token
             (take (length fractal_up - 1)
                   (reverse (zip fractal_up fractal_down)))).

(** The sequence as the specification words it: the bars before the most
    recent one, read backward; one token per fractal bar ('up' first);
    at most ten; padded with 'none'. *)
Definition spec_sequence (fractal_up fractal_down : Series) : list token :=
  let bars := zip fractal_up fractal_down in
  let earlier := removelast bars in
  let found := take 10 (flat_map bar_token (reverse earlier)) in
  found ++ replicate (10 - length found) none.




(** Row [i] is an extremum of the [2 * p + 1] rows centred on it: the
    window lies inside the series, every row of it is a finite number
    (neither NaN nor infinite), and none is strictly beyond row [i]
    ([beyond h y]: [y] is strictly beyond [h]). *)
Definition window_extremum (beyond : float -> float -> bool) (s : Series)
    (p i : nat) : bool :=
  (p <=? i) && (i + p <? length s) &&
  forallb (fun y => isfinite y && negb (beyond (nth i s nan) y))
          (take (2 * p + 1) (drop (i - p) s)).

(** No row of the window is strictly higher (lower) than row [i]. *)
Definition window_maximum : Series -> nat -> nat -> bool :=
  window_extremum (fun h y => (h <? y)%float).

Definition window_minimum : Series -> nat -> nat -> bool :=
  window_extremum (fun h y => (y <? h)%float).

(** The last (at most) five values of a column, NaN rows left out. *)
Definition last_five (s : Series) : list float :=
  let obs := Pandas.dropna s in drop (length obs - 5) obs.

End FractalTerms.

(** ** MACross *)

Section MACrossTerms.

Import MACross.

(** The objects [calculate] builds from the close column. *)
Definition sma_of (f s l : Z) (close : Series) : t :=
  let avg p := Pandas.roll_mean (Z.to_nat p) false close in
  mk f s l "SMA" (avg f) (avg s) (avg l).

Definition ema_of (ty : string) (f s l : Z) (close : Series) : t :=
  let avg p := Pandas.ewm_mean (Py.quotient (p - 1) 2) close in
  mk f s l ty (avg f) (avg s) (avg l).

(** The periods the specification calls invalid for this engine. *)
Definition invalid_ma_periods (f s l : Z) : Prop :=
  (f <= 0 \/ s <= 0 \/ l <= 0 \/ s <= f)%Z.

(** The market-structure signal as a table of the three strict
    comparisons. *)
Definition sign_table (fast_above_slow slow_above_long price_above_long : bool)
    : signal :=
  match fast_above_slow, slow_above_long, price_above_long with
  | true, true, true => STRONG_BULLISH
  | false, false, false => STRONG_BEARISH
  | true, true, false | true, false, true | false, true, true => BULLISH_BIAS
  | _, _, _ => BEARISH_BIAS
  end.

(** Each row of the faster-above-slower series with the row before it:
    (previous, current). *)
Definition transitions (above : list bool) : list (option (bool * bool)) :=
  match above with
  | [] => []
  | _ :: t => None :: Pandas.map2 (fun cur prev => Some (prev, cur)) t above
  end.

(** The history as the specification words it: the row of the most recent
    transition from [from] to [to] within the trailing window (golden:
    false to true; death: true to false). *)
Definition spec_last_cross (from to : bool) (ma_a ma_b : Series)
    (lookback : Z) : option nat :=
  let above := Pandas.map2 fgt ma_a ma_b in
  let recent :=
    Pandas.iloc_from (Pandas.with_index (transitions above)) (- lookback) in
  last (Pandas.labels
          (List.filter
             (fun p => match snd p with
                       | Some (a, b) => Bool.eqb a from && Bool.eqb b to
                       | None => false
                       end) recent)).

Definition spec_golden := spec_last_cross false true.

Definition spec_death := spec_last_cross true false.

(** The row of the most recent CHANGE of the faster-above-slower series in
    the trailing window, whatever its direction. *)
Definition last_change (ma_a ma_b : Series) (lookback : Z) : option nat :=
  let above := Pandas.map2 fgt ma_a ma_b in
  let recent :=
    Pandas.iloc_from (Pandas.with_index (transitions above)) (- lookback) in
  last (Pandas.labels
          (List.filter
             (fun p => match snd p with
                       | Some (a, b) => xorb a b
                       | None => false
                       end) recent)).

Definition flip (x : option (bool * bool)) : option bool :=
  match x with
  | Some (prev, cur) => Some (xorb cur prev)
  | None => None
  end.

End MACrossTerms.

(** ** Bar tables used as examples *)

Section Tables.

(** Nine bars with up-fractals at rows 2 and 6 and a down-fractal at
    row 5. *)
Definition nine_bars : DataFrame :=
  mkDF 9 (<["high" := [1; 2; 5; 2; 1; 2; 3; 2; 1]%float]>
            (<["low" := [0; 1; 2; 1; 0; -1; 1; 1; 0]%float]>
               (<["close" := [1; 2; 3; 2; 1; 2; 3; 2; 1]%float]> ∅))).

(** Five bars whose only up-fractal is the high 0.0 of row 2. *)
Definition zero_high_bars : DataFrame :=
  mkDF 5 (<["high" := [-1; -1; 0; -1; -1]%float]>
            (<["low" := [-2; -2; -3; -2; -2]%float]> ∅)).

(** Two bars, the high of the last one missing. *)
Definition two_bars_missing_high : DataFrame :=
  mkDF 2 (<["high" := [1; nan]%float]> (<["low" := [nan; nan]%float]> ∅)).

(** Nine bars whose highs zigzag around a top at row 3 and whose lows
    only fall: with one bar on each side rows 1, 3, 5 and 7 are
    up-fractals, with two bars on each side only row 3 is. *)
Definition zigzag_highs : Series := [11; 13; 12; 15; 12; 13; 11; 12; 11]%float.

Definition zigzag_lows : Series := [9; 8; 7; 6; 5; 4; 3; 2; 1]%float.

Definition zigzag_bars : DataFrame :=
  mkDF 9 (<["high" := zigzag_highs]> (<["low" := zigzag_lows]> ∅)).


(** Six bars of a flat market: every price is 100. *)
Definition flat_six : DataFrame :=
  mkDF 6 (<["high" := replicate 6 100%float]>
            (<["low" := replicate 6 100%float]>
               (<["close" := replicate 6 100%float]> ∅))).

(** A single bar. *)
Definition one_bar : DataFrame :=
  mkDF 1 (<["high" := [2%float]]> (<["low" := [1%float]]> ∅)).

(** Fifty rising closes, then twelve falling ones: the 10-bar average
    falls through the 50-bar average at row 56. *)
Definition rise_then_fall_closes : Series :=
  [
    100; 101; 102; 103; 104; 105; 106; 107; 108; 109; 110; 111; 112; 113;
    114; 115; 116; 117; 118; 119; 120; 121; 122; 123; 124; 125; 126; 127;
    128; 129; 130; 131; 132; 133; 134; 135; 136; 137; 138; 139; 140; 141;
    142; 143; 144; 145; 146; 147; 148; 149; 141; 133; 125; 117; 109; 101;
    93; 85; 77; 69; 61; 53
  ]%float.

Definition rise_then_fall : DataFrame :=
  mkDF 62 (<["close" := rise_then_fall_closes]> ∅).

(** The same 62 closes as full bars: high, low and close coincide. *)
Definition rise_then_fall_bars : DataFrame :=
  mkDF 62 (<["high" := rise_then_fall_closes]>
             (<["low" := rise_then_fall_closes]>
                (<["close" := rise_then_fall_closes]> ∅))).

(** Thirty strictly rising closes: no row equals a centred maximum or
    minimum of five. *)
Definition thirty_rising_closes : Series :=
  [
    100; 101; 102; 103; 104; 105; 106; 107; 108; 109; 110; 111; 112; 113;
    114; 115; 116; 117; 118; 119; 120; 121; 122; 123; 124; 125; 126; 127;
    128; 129
  ]%float.

Definition thirty_rising : DataFrame :=
  mkDF 30 (<["close" := thirty_rising_closes]> ∅).

(** 57 daily closes: a sideways start, a fast rally to 130, a pull-back,
    a slower rally to the higher high 134, then a decline. *)
Definition higher_high_weaker_rsi_closes : Series :=
  [
    100; 101; 100; 99; 100; 101; 100; 99; 100; 101; 100; 99; 100; 101; 100;
    99; 100; 101; 100; 99; 100; 103; 106; 109; 112; 115; 118; 121; 124;
    127; 130; 128; 126; 124; 122; 120; 118; 120; 122; 124; 126; 128; 130;
    132; 134; 133; 132; 131; 130; 129; 128; 127; 126; 125; 124; 123; 122
  ]%float.

Definition higher_high_weaker_rsi : DataFrame :=
  mkDF 57 (<["close" := higher_high_weaker_rsi_closes]> ∅).

End Tables.

(** * Properties *)

(** ** Facts about binary64 numbers *)

Section FloatFacts.

Lemma nan_add_l (x : float) : (nan + x)%float = nan.
Proof. apply Prim2SF_inj. rewrite FloatAxioms.add_spec. reflexivity. Qed.

Lemma nan_add_r (x : float) : (x + nan)%float = nan.
Proof.
  apply Prim2SF_inj. rewrite FloatAxioms.add_spec.
  change (Prim2SF nan) with S754_nan.
  destruct (Prim2SF x); reflexivity.
Qed.

Lemma nan_div_l (x : float) : (nan / x)%float = nan.
Proof. apply Prim2SF_inj. rewrite FloatAxioms.div_spec. reflexivity. Qed.

Lemma isnan_nan : isnan nan = true.
Proof. reflexivity. Qed.

Lemma nan_not_zero : (nan =? 0)%float = false.
Proof. reflexivity. Qed.

(** A number that compares equal to zero is one of the two zeros. *)
Lemma eqb_zero_inv (x : float) :
  (x =? 0)%float = true -> exists b, Prim2SF x = S754_zero b.
Proof.
  rewrite FloatAxioms.eqb_spec.
  change (Prim2SF 0) with (S754_zero false).
  destruct (Prim2SF x) as [b|b| |b m e]; simpl; try discriminate.
  - eauto.
  - destruct b; discriminate.
  - destruct b; discriminate.
Qed.

End FloatFacts.

(** ** MACross: the market-structure signal *)

Section MarketStructure.

Import MACross.

Lemma structure_of_zero (s : float) :
  (s =? 0)%float = true -> structure_of s = BEARISH_BIAS.
Proof.
  intros H. destruct (eqb_zero_inv s H) as [b Hb].
  unfold structure_of, fgt. rewrite !FloatAxioms.ltb_spec, Hb.
  destruct b; vm_compute; reflexivity.
Qed.

(** C6: the market-structure signal is the cascade on the weighted score
    0.3 * s1 + 0.3 * s2 + 0.4 * s3 of the three sign indicators (+1 when
    the percentage difference is strictly positive, -1 otherwise): above
    0.5 STRONG_BULLISH, below -0.5 STRONG_BEARISH, otherwise above 0
    BULLISH_BIAS, otherwise BEARISH_BIAS; the cascade sends a score that
    equals 0 to BEARISH_BIAS (no combination of signs produces that
    score).  In terms of the three comparisons the signal is
    [sign_table]. *)
Theorem market_structure_signal (price : float) (v : values) :
  let s1 := sign_of (pct_diff (v_ma_fast v) (v_ma_slow v)) in
  let s2 := sign_of (pct_diff (v_ma_slow v) (v_ma_long v)) in
  let s3 := sign_of (pct_diff price (v_ma_long v)) in
  let score := weighted_score price v in
  let sig := _analyze_market_structure price v in
  score = (0.3 * s1 + 0.3 * s2 + 0.4 * s3)%float /\
  (fgt score 0.5 = true -> sig = STRONG_BULLISH) /\
  ((score <? -0.5)%float = true -> sig = STRONG_BEARISH) /\
  (fgt score 0.5 = false -> (score <? -0.5)%float = false ->
     fgt score 0 = true -> sig = BULLISH_BIAS) /\
  (fgt score 0.5 = false -> (score <? -0.5)%float = false ->
     fgt score 0 = false -> sig = BEARISH_BIAS) /\
  (forall s : float, (s =? 0)%float = true -> structure_of s = BEARISH_BIAS) /\
  (score =? 0)%float = false /\
  sig = sign_table (fgt (pct_diff (v_ma_fast v) (v_ma_slow v)) 0)
                   (fgt (pct_diff (v_ma_slow v) (v_ma_long v)) 0)
                   (fgt (pct_diff price (v_ma_long v)) 0).
Proof.
  cbv zeta. split; [reflexivity|].
  split; [|split; [|split; [|split; [|split; [|split]]]]].
  6, 7: unfold _analyze_market_structure, weighted_score, sign_of;
        destruct (fgt (pct_diff (v_ma_fast v) (v_ma_slow v)) 0),
                 (fgt (pct_diff (v_ma_slow v) (v_ma_long v)) 0),
                 (fgt (pct_diff price (v_ma_long v)) 0); vm_compute; reflexivity.
  5: { apply structure_of_zero. }
  all: unfold _analyze_market_structure, structure_of.
  - intros ->. reflexivity.
  - intros H. generalize H. unfold weighted_score, sign_of.
    destruct (fgt (pct_diff (v_ma_fast v) (v_ma_slow v)) 0),
             (fgt (pct_diff (v_ma_slow v) (v_ma_long v)) 0),
             (fgt (pct_diff price (v_ma_long v)) 0); vm_compute;
      intros; congruence.
  - intros -> -> ->. reflexivity.
  - intros -> -> ->. reflexivity.
Qed.

Lemma market_structure_signal_witness :
  _analyze_market_structure 4 (mkValues 3 2 1) = STRONG_BULLISH /\
  _analyze_market_structure 0.5 (mkValues 1 2 3) = STRONG_BEARISH /\
  _analyze_market_structure 4 (mkValues 3 2 2.5) = BULLISH_BIAS /\
  _analyze_market_structure 4 (mkValues 1 2 3) = BEARISH_BIAS /\
  structure_of 0 = BEARISH_BIAS.
Proof.
  split; [|split; [|split; [|split]]].
  - destruct (market_structure_signal 4 (mkValues 3 2 1)) as (_ & H & _).
    apply H. reflexivity.
  - destruct (market_structure_signal 0.5 (mkValues 1 2 3)) as (_ & _ & H & _).
    apply H. reflexivity.
  - destruct (market_structure_signal 4 (mkValues 3 2 2.5)) as (_ & _ & _ & H & _).
    apply H; reflexivity.
  - destruct (market_structure_signal 4 (mkValues 1 2 3)) as (_ & _ & _ & _ & H & _).
    apply H; reflexivity.
  - destruct (market_structure_signal 4 (mkValues 1 2 3))
      as (_ & _ & _ & _ & _ & H & _).
    apply H. reflexivity.
Defined.

End MarketStructure.

(** ** Rolling windows *)

Section RollingFacts.

Context (agg : Series -> float).

Lemma length_roll w c (s : Series) : length (Pandas.roll agg w c s) = length s.
Proof. unfold Pandas.roll. by rewrite length_map, length_seq. Qed.

Lemma roll_lookup w c (s : Series) i :
  i < length s ->
  Pandas.roll agg w c s !! i = Some (Pandas.roll_at agg w c s i).
Proof.
  intros Hi. unfold Pandas.roll.
  change (map ?f ?l) with (f <$> l).
  rewrite list_lookup_fmap, lookup_seq_lt by done. reflexivity.
Qed.

Lemma length_dropna (s : Series) : length (Pandas.dropna s) <= length s.
Proof. apply length_filter. Qed.

Lemma length_window w c (s : Series) i :
  length (Pandas.window w c s i)
  = Nat.min (snd (Pandas.window_bounds w c (length s) i)
             - fst (Pandas.window_bounds w c (length s) i))
            (length s - fst (Pandas.window_bounds w c (length s) i)).
Proof.
  unfold Pandas.window.
  destruct (Pandas.window_bounds w c (length s) i) as [b e]. simpl.
  by rewrite length_take, length_drop.
Qed.

Lemma length_prep_values (s : Series) :
  length (Pandas.prep_values s) = length s.
Proof. apply length_map. Qed.

Lemma window_prep w c (s : Series) i :
  Pandas.window w c (Pandas.prep_values s) i
  = Pandas.prep_values (Pandas.window w c s i).
Proof.
  unfold Pandas.window. rewrite length_prep_values.
  destruct (Pandas.window_bounds w c (length s) i) as [b e].
  unfold Pandas.prep_values. change (map ?f ?l) with (f <$> l).
  by rewrite fmap_take, fmap_drop.
Qed.

Lemma notnan_prep_value (x : float) :
  notnan (Pandas.prep_value x) = isfinite x.
Proof.
  unfold Pandas.prep_value, isfinite. destruct (isinf x).
  - by rewrite andb_false_r.
  - by rewrite andb_true_r.
Qed.

Lemma prep_value_finite (x : float) :
  isfinite x = true -> Pandas.prep_value x = x.
Proof.
  unfold Pandas.prep_value, isfinite. intros H.
  apply andb_prop in H as [_ H]. by destruct (isinf x).
Qed.

(** The observations of a window are its finite values. *)
Lemma dropna_prep (l : Series) :
  Pandas.dropna (Pandas.prep_values l) = filter (fun x => isfinite x = true) l.
Proof.
  unfold Pandas.dropna, Pandas.prep_values.
  induction l as [|x l IH]; [done|].
  cbn [map]. rewrite !filter_cons, IH, notnan_prep_value.
  destruct (isfinite x) eqn:E.
  - rewrite !decide_True by done. by rewrite prep_value_finite.
  - by rewrite !decide_False by done.
Qed.

Lemma roll_at_observations w c (s : Series) i :
  Pandas.roll_at agg w c s i
  = let obs := filter (fun x => isfinite x = true) (Pandas.window w c s i) in
    if w <=? length obs then agg obs else nan.
Proof. unfold Pandas.roll_at. by rewrite window_prep, dropna_prep. Qed.

(** A window that holds fewer than [w] rows gives NaN. *)
Lemma roll_at_short w c (s : Series) i :
  length (Pandas.window w c s i) < w -> Pandas.roll_at agg w c s i = nan.
Proof.
  intros H. rewrite roll_at_observations. cbv zeta.
  pose proof (length_filter (fun x => isfinite x = true) (Pandas.window w c s i)).
  destruct (Nat.leb_spec w
              (length (filter (fun x => isfinite x = true) (Pandas.window w c s i))));
    [lia|done].
Qed.

(** Trailing window: the first [w - 1] rows. *)
Lemma roll_at_trailing_prefix w (s : Series) i :
  i + 1 < w -> Pandas.roll_at agg w false s i = nan.
Proof.
  intros H. apply roll_at_short. rewrite length_window.
  unfold Pandas.window_bounds. simpl. lia.
Qed.



End RollingFacts.

(** ** The rolling mean *)

Section RollingMean.

Lemma length_roll_mean w c (s : Series) :
  length (Pandas.roll_mean w c s) = length s.
Proof. unfold Pandas.roll_mean. by rewrite length_map, length_seq. Qed.

Lemma roll_mean_lookup w c (s : Series) i :
  i < length s ->
  Pandas.roll_mean w c s !! i
  = Some (Pandas.calc_mean (Z.of_nat w)
            (Pandas.mean_state_at w c (Pandas.prep_values s) i)).
Proof.
  intros Hi. unfold Pandas.roll_mean. cbv zeta.
  change (map ?f ?l) with (f <$> l).
  rewrite list_lookup_fmap, lookup_seq_lt by done. reflexivity.
Qed.

(** The counter of the state is the number of observations added less
    the number removed. *)
Lemma nobs_add (l : Series) st :
  Pandas.nobs (fold_left (fun st val => Pandas.add_mean val st) l st)
  = (Pandas.nobs st + Z.of_nat (length (Pandas.dropna l)))%Z.
Proof.
  revert st. induction l as [|x l IH]; intros st; [cbn; lia|].
  cbn [fold_left]. rewrite IH. unfold Pandas.add_mean, Pandas.dropna.
  rewrite filter_cons. destruct (notnan x) eqn:E.
  - rewrite decide_True by done. cbn [Pandas.nobs length]. lia.
  - rewrite decide_False by congruence. lia.
Qed.

Lemma nobs_remove (l : Series) st :
  Pandas.nobs (fold_left (fun st val => Pandas.remove_mean val st) l st)
  = (Pandas.nobs st - Z.of_nat (length (Pandas.dropna l)))%Z.
Proof.
  revert st. induction l as [|x l IH]; intros st; [cbn; lia|].
  cbn [fold_left]. rewrite IH. unfold Pandas.remove_mean, Pandas.dropna.
  rewrite filter_cons. destruct (notnan x) eqn:E.
  - rewrite decide_True by done. cbn [Pandas.nobs length]. lia.
  - rewrite decide_False by congruence. lia.
Qed.

Lemma rows_app (v : Series) a b c :
  a <= b <= c -> Pandas.rows v a c = Pandas.rows v a b ++ Pandas.rows v b c.
Proof.
  intros H. unfold Pandas.rows.
  replace (c - a) with ((b - a) + (c - b)) by lia.
  rewrite <- take_take_drop. f_equal. rewrite drop_drop. do 2 f_equal. lia.
Qed.

Lemma observations_rows_app (v : Series) a b c :
  a <= b <= c ->
  length (Pandas.dropna (Pandas.rows v a c))
  = length (Pandas.dropna (Pandas.rows v a b))
    + length (Pandas.dropna (Pandas.rows v b c)).
Proof.
  intros H. rewrite (rows_app v a b c H). unfold Pandas.dropna.
  by rewrite filter_app, length_app.
Qed.

(** Whatever the path -- set-up or update --, the counter of the state of
    row [i] is the number of observations of its window. *)
Lemma nobs_mean_state_at w c (v : Series) i :
  Pandas.nobs (Pandas.mean_state_at w c v i)
  = Z.of_nat (length (Pandas.dropna (Pandas.window w c v i))).
Proof.
  induction i as [|j IH].
  - cbn [Pandas.mean_state_at]. unfold Pandas.window.
    destruct (Pandas.window_bounds w c (length v) 0) as [s e].
    unfold Pandas.mean_setup. rewrite nobs_add. cbn [Pandas.nobs].
    unfold Pandas.rows. lia.
  - cbn [Pandas.mean_state_at]. unfold Pandas.window in *.
    assert (Hb : fst (Pandas.window_bounds w c (length v) j)
                 <= fst (Pandas.window_bounds w c (length v) (S j))
                 /\ snd (Pandas.window_bounds w c (length v) j)
                    <= snd (Pandas.window_bounds w c (length v) (S j))
                 /\ fst (Pandas.window_bounds w c (length v) j)
                    <= snd (Pandas.window_bounds w c (length v) j)
                 /\ fst (Pandas.window_bounds w c (length v) (S j))
                    <= snd (Pandas.window_bounds w c (length v) (S j))).
    { unfold Pandas.window_bounds. cbn [fst snd]. lia. }
    destruct (Pandas.window_bounds w c (length v) (S j)) as [s e].
    destruct (Pandas.window_bounds w c (length v) j) as [s' e'].
    cbn [fst snd] in Hb. destruct Hb as (H1 & H2 & H3 & H4).
    destruct (Nat.leb_spec e' s) as [Hle|Hlt].
    + unfold Pandas.mean_setup. rewrite nobs_add. cbn [Pandas.nobs].
      unfold Pandas.rows. lia.
    + rewrite nobs_add, nobs_remove, IH.
      fold (Pandas.rows v s' e'). fold (Pandas.rows v s e).
      rewrite (observations_rows_app v s' s e') by lia.
      rewrite (observations_rows_app v s e' e) by lia. lia.
Qed.

Lemma calc_mean_few (minp : Z) st :
  (Pandas.nobs st < minp \/ Pandas.nobs st <= 0)%Z ->
  Pandas.calc_mean minp st = nan.
Proof.
  intros H. unfold Pandas.calc_mean.
  destruct (Z.leb_spec minp (Pandas.nobs st)); [|done].
  destruct (Z.ltb_spec 0 (Pandas.nobs st)); [lia|done].
Qed.

(** A window with fewer than [w] observations, or with none, gives NaN. *)
Lemma roll_mean_few w c (s : Series) i :
  i < length s ->
  length (filter (fun x => isfinite x = true) (Pandas.window w c s i)) < w
  \/ length (filter (fun x => isfinite x = true) (Pandas.window w c s i)) = 0 ->
  Pandas.roll_mean w c s !! i = Some nan.
Proof.
  intros Hi H. rewrite roll_mean_lookup by done. f_equal.
  apply calc_mean_few. rewrite nobs_mean_state_at, window_prep, dropna_prep. lia.
Qed.

Lemma roll_mean_short w c (s : Series) i :
  i < length s -> length (Pandas.window w c s i) < w ->
  Pandas.roll_mean w c s !! i = Some nan.
Proof.
  intros Hi H. apply roll_mean_few; [done|]. left.
  pose proof (length_filter (fun x => isfinite x = true) (Pandas.window w c s i)).
  lia.
Qed.

Lemma roll_mean_no_value (w : Z) (xs : Series) :
  no_value_prefix w (Pandas.roll_mean (Z.to_nat w) false xs).
Proof.
  intros i Hi Hlen. rewrite length_roll_mean in Hlen.
  apply roll_mean_short; [done|].
  rewrite length_window. unfold Pandas.window_bounds. simpl. lia.
Qed.

(** An infinite value is a missing one to the windows: every window that
    holds it has no aggregate; and a window of equal values has exactly
    that value as its mean. *)
Example infinite_value_is_missing :
  Pandas.roll Pandas.agg_max 2 false [1; 2; infinity; 2; 1]%float
  = [nan; 2; nan; nan; 2]%float /\
  Pandas.roll_mean 2 false [1; 2; neg_infinity; 2; 1]%float
  = [nan; 1.5; nan; nan; 1.5]%float /\
  Pandas.roll_mean 3 false [0.1; 0.1; 0.1; 0.1]%float
  = [nan; nan; 0.1; 0.1]%float.
Proof. vm_compute. repeat split; reflexivity. Qed.

End RollingMean.

(** ** Williams Fractals *)

(** One step through code in [M]: reduce the binds and resolve the lookups
    in the columns written so far. *)
Ltac store_step :=
  repeat progress
    (cbn [rbind nrows columns];
     rewrite ?lookup_insert_eq, ?insert_insert_eq;
     repeat (rewrite lookup_insert_ne by done)).

Section FractalFacts.

Import WilliamsFractals.

Lemma length_where_equal (a b : Series) :
  length (where_equal a b) = Nat.min (length a) (length b).
Proof. unfold where_equal, Pandas.map2. apply length_zip_with. Qed.

Lemma length_fractal_up_of p (high : Series) :
  length (fractal_up_of p high) = length high.
Proof. unfold fractal_up_of. rewrite length_where_equal, length_roll. lia. Qed.

Lemma length_fractal_down_of p (low : Series) :
  length (fractal_down_of p low) = length low.
Proof. unfold fractal_down_of. rewrite length_where_equal, length_roll. lia. Qed.

Lemma init_eq df period (high low : Series) :
  columns df !! "high" = Some high ->
  columns df !! "low" = Some low ->
  length high = nrows df ->
  length low = nrows df ->
  (0 <= 2 * period + 1)%Z ->
  __init__ period df = (after_init period high low df, Ok (self_of period high low)).
Proof.
  intros Hh Hl Lh Ll Hw.
  cbv beta zeta delta [__init__ calculate M_bind get_col set_col lift M_ret
    Pandas.rolling_max Pandas.rolling_min Pandas.check_window].
  rewrite Hh.
  destruct (Z.ltb_spec (2 * period + 1) 0); [lia|].
  cbn [rbind nrows columns].
  rewrite length_roll, Lh, Nat.eqb_refl.
  store_step. rewrite Hh. store_step.
  rewrite length_where_equal, length_roll, Lh, Nat.min_id, Nat.eqb_refl.
  store_step. rewrite Hl. store_step.
  rewrite length_roll, Ll, Nat.eqb_refl.
  store_step. rewrite Hl. store_step.
  rewrite length_where_equal, length_roll, Ll, Nat.min_id, Nat.eqb_refl.
  store_step. reflexivity.
Qed.

Lemma init_inv df period df1 self :
  __init__ period df = (df1, Ok self) ->
  exists high low : Series,
    columns df !! "high" = Some high /\
    columns df !! "low" = Some low /\
    length high = nrows df /\
    length low = nrows df /\
    (0 <= 2 * period + 1)%Z.
Proof.
  cbv beta zeta delta [__init__ calculate M_bind get_col set_col lift M_ret
    Pandas.rolling_max Pandas.rolling_min Pandas.check_window].
  destruct (columns df !! "high") as [high|] eqn:Hh; [|discriminate].
  destruct (Z.ltb_spec (2 * period + 1) 0); [discriminate|].
  cbn [rbind nrows columns].
  rewrite length_roll.
  destruct (Nat.eqb_spec (length high) (nrows df)) as [Lh|]; [|discriminate].
  store_step. rewrite Hh. store_step.
  rewrite length_where_equal, length_roll, Lh, Nat.min_id, Nat.eqb_refl.
  store_step.
  destruct (columns df !! "low") as [low|] eqn:Hl; [|discriminate].
  store_step. rewrite length_roll.
  destruct (Nat.eqb_spec (length low) (nrows df)) as [Ll|]; [|discriminate].
  intros _. exists high, low. done.
Qed.

(** *** The backward scan *)

Lemma index_neg {A} (l : list A) (i : nat) (d : A) :
  1 <= i <= length l ->
  Py.index l (- Z.of_nat i) = Ok (nth (length l - i) l d).
Proof.
  intros Hi. unfold Py.index.
  destruct (Z.ltb_spec (- Z.of_nat i) 0); [|lia].
  destruct (Z.ltb_spec (Z.of_nat (length l) + - Z.of_nat i) 0); [lia|].
  destruct (Z.leb_spec (Z.of_nat (length l)) (Z.of_nat (length l) + - Z.of_nat i)); [lia|].
  cbn [orb].
  replace (Z.to_nat (Z.of_nat (length l) + - Z.of_nat i)) with (length l - i) by lia.
  destruct (l !! (length l - i)) as [x|] eqn:E.
  - f_equal. symmetry. apply nth_lookup_Some with (d := d) in E. done.
  - apply lookup_ge_None in E. lia.
Qed.

Lemma scan_spec (fu fd : Series) idxs acc :
  Forall (fun i => 1 <= i <= length fu /\ i <= length fd) idxs ->
  length acc < 10 ->
  scan fu fd idxs acc
  = Ok (take 10 (acc ++ flat_map (fun i => bar_token (bar_at fu fd i)) idxs)).
Proof.
  intros Hall. revert acc.
  induction Hall as [|i idxs [Hi1 Hi2] Hall IH]; intros acc Hacc.
  - simpl. rewrite app_nil_r, take_ge by lia. done.
  - cbn [scan flat_map]. unfold Pandas.iloc.
    rewrite (index_neg fu i nan) by lia. cbn [rbind].
    set (rest := flat_map _ idxs).
    unfold bar_token, bar_at. cbn [fst snd]. subst rest.
    destruct (notnan (nth (length fu - i) fu nan)) eqn:Eu.
    + cbn [rbind]. rewrite length_app. cbn [length].
      destruct (Nat.eqb_spec (length acc + 1) 10) as [E|E].
      * rewrite app_assoc. rewrite take_app_le by (rewrite length_app; simpl; lia).
        rewrite take_ge by (rewrite length_app; simpl; lia). done.
      * rewrite IH by (rewrite length_app; simpl; lia).
        by rewrite <- app_assoc.
    + rewrite (index_neg fd i nan) by lia. cbn [rbind].
      destruct (notnan (nth (length fd - i) fd nan)) eqn:Ed.
      * cbn [rbind]. rewrite length_app. cbn [length].
        destruct (Nat.eqb_spec (length acc + 1) 10) as [E|E].
        -- rewrite app_assoc. rewrite take_app_le by (rewrite length_app; simpl; lia).
           rewrite take_ge by (rewrite length_app; simpl; lia). done.
        -- rewrite IH by (rewrite length_app; simpl; lia).
           by rewrite <- app_assoc.
      * cbn [rbind].
        destruct (Nat.eqb_spec (length acc) 10) as [E|E]; [lia|].
        rewrite IH by done. done.
Qed.


(** Reading rows [-1], [-2], ..., [-k] is reading the first [k] rows of
    the reversed table. *)
Lemma bars_backward (fu fd : Series) k :
  length fu = length fd ->
  k <= length fu ->
  map (bar_at fu fd) (seq 1 k) = take k (reverse (zip fu fd)).
Proof.
  intros Hlen Hk. apply list_eq. intros j.
  change (map ?f ?l) with (f <$> l).
  rewrite list_lookup_fmap.
  assert (Hz : length (zip fu fd) = length fu).
  { rewrite length_zip_with. lia. }
  destruct (Nat.lt_ge_cases j k) as [Hj|Hj].
  - rewrite lookup_seq_lt by done. cbn [fmap option_fmap option_map].
    rewrite lookup_take_lt by done.
    rewrite reverse_lookup by lia. rewrite Hz.
    unfold bar_at. rewrite <- Hlen.
    replace (length fu - (1 + j)) with (length fu - S j) by lia.
    destruct (lookup_lt_is_Some_2 fu (length fu - S j)) as [x Hx]; [lia|].
    destruct (lookup_lt_is_Some_2 fd (length fu - S j)) as [y Hy]; [lia|].
    rewrite (nth_lookup_Some _ _ nan _ Hx), (nth_lookup_Some _ _ nan _ Hy).
    symmetry. apply lookup_zip_with_Some. eauto.
  - rewrite lookup_seq_ge by done. rewrite lookup_take_ge by done. done.
Qed.

Lemma flat_map_map {A B C} (f : B -> list C) (g : A -> B) (l : list A) :
  flat_map f (map g l) = flat_map (fun x => f (g x)) l.
Proof. induction l as [|x l IH]; simpl; [done|by rewrite IH]. Qed.



Lemma eqb_nan_r (x : float) : (x =? nan)%float = false.
Proof.
  rewrite FloatAxioms.eqb_spec. change (Prim2SF nan) with S754_nan.
  unfold SFeqb, SFcompare. destruct (Prim2SF x); reflexivity.
Qed.








Lemma index_zero {A} (l : list A) :
  0 < length l -> exists x, Py.index l 0 = Ok x.
Proof.
  intros H. unfold Py.index. cbn [Z.ltb Z.compare].
  destruct (Z.leb_spec (Z.of_nat (length l)) 0); [lia|]. cbn [orb Z.to_nat].
  destruct l as [|x l]; [simpl in H; lia|]. by exists x.
Qed.

Lemma trend_of_ok (v : values) : exists tr, trend_of v = Ok tr.
Proof.
  unfold trend_of.
  destruct (Nat.leb_spec 2 (length (v_recent_up_fractals v))) as [Hu|];
    [|by eexists].
  destruct (Nat.leb_spec 2 (length (v_recent_down_fractals v))) as [Hd|];
    [|by eexists].
  cbn [andb].
  change (-1)%Z with (- Z.of_nat 1)%Z.
  rewrite (index_neg _ 1 nan) by lia.
  destruct (index_zero (v_recent_up_fractals v)) as [u0 ->]; [lia|].
  rewrite (index_neg _ 1 nan) by lia.
  destruct (index_zero (v_recent_down_fractals v)) as [d0 ->]; [lia|].
  cbn [rbind]. by eexists.
Qed.

Lemma scan_collected (fu fd : Series) :
  length fu = length fd ->
  scan fu fd (Py.range 1 (length fu)) [] = Ok (collected fu fd).
Proof.
  intros Hlen. unfold Py.range, collected.
  rewrite scan_spec.
  - cbn [app]. rewrite <- flat_map_map, bars_backward by lia. done.
  - apply Forall_forall. intros i Hi. apply elem_of_seq in Hi. lia.
  - simpl. lia.
Qed.

Lemma analyze_after_init df period (high low : Series) self price :
  columns df !! "high" = Some high ->
  columns df !! "low" = Some low ->
  length high = nrows df ->
  length low = nrows df ->
  exists tr,
    trend_of (get_current_values self) = Ok tr /\
    analyze self price (after_init period high low df)
    = (after_init period high low df,
       Ok (get_current_values self,
           let recent :=
             pad_none (collected (fractal_up_of period high)
                                 (fractal_down_of period low)) in
           mkAnalysis (position_of (get_current_values self) price) tr
                      (distances_of (get_current_values self) price)
                      recent (dominance_of recent))).
Proof.
  intros Hh Hl Lh Ll.
  destruct (trend_of_ok (get_current_values self)) as [tr Htr].
  exists tr. split; [done|].
  cbv beta zeta delta [analyze M_bind get_col lift M_ret df_len after_init].
  rewrite Htr. store_step.
  rewrite <- Lh at 1. rewrite <- (length_fractal_up_of period high).
  rewrite scan_collected
    by (rewrite length_fractal_up_of, length_fractal_down_of; lia).
  reflexivity.
Qed.

End FractalFacts.

Section FractalSequence.

Import WilliamsFractals.





Lemma take_reverse_tail {A} (l : list A) :
  take (length l - 1) (reverse l) = reverse (drop 1 l).
Proof.
  destruct l as [|x l]; [done|].
  rewrite reverse_cons. cbn [length drop].
  replace (S (length l) - 1) with (length (reverse l))
    by (rewrite length_reverse; lia).
  by rewrite take_app_length, drop_0.
Qed.



Example nine_bars_sequence :
  let '(df1, r) := __init__ 2 nine_bars in
  match r with
  | Ok self =>
      match analyze self 2.5 df1 with
      | (_, Ok (_, a)) =>
          sequence a = [up; down; up; none; none; none; none; none; none; none]
      | _ => False
      end
  | Raise _ => False
  end.
Proof. vm_compute. reflexivity. Qed.



End FractalSequence.

(** ** Williams Fractals: the rows the loop reads *)

Section FractalRows.

Import WilliamsFractals.

(** The rows the loop reads, for every period: all rows but row 0, from
    the LAST row backward (its first index is [-1]), until ten tokens are
    collected. *)
Theorem fractal_sequence_rows_read (period : Z) (price : float)
    (df df1 : DataFrame) (self : t) :
  __init__ period df = (df1, Ok self) ->
  exists (fu fd : Series) v a,
    columns df1 !! "fractal_up" = Some fu /\
    columns df1 !! "fractal_down" = Some fd /\
    analyze self price df1 = (df1, Ok (v, a)) /\
    sequence a
    = pad_none (take 10 (flat_map bar_token (reverse (drop 1 (zip fu fd))))).
Proof.
  intros Hinit.
  destruct (init_inv _ _ _ _ Hinit) as (high & low & Hh & Hl & Lh & Ll & Hw).
  rewrite (init_eq df period high low Hh Hl Lh Ll Hw) in Hinit.
  injection Hinit as <- <-.
  destruct (analyze_after_init df period high low
              (self_of period high low) price Hh Hl Lh Ll) as (tr & _ & Han).
  eexists _, _, _, _. split; [|split; [|split; [exact Han|]]].
  - unfold after_init. cbn [columns].
    rewrite lookup_insert_ne by done. apply lookup_insert_eq.
  - unfold after_init. cbn [columns]. apply lookup_insert_eq.
  - cbn [sequence]. unfold collected. f_equal. f_equal. f_equal.
    rewrite <- take_reverse_tail. f_equal.
    rewrite length_zip_with, length_fractal_up_of, length_fractal_down_of. lia.
Qed.

Lemma fractal_sequence_rows_read_witness :
  let high := [1; nan]%float in
  let low := [nan; nan]%float in
  let df1 := after_init 0 high low two_bars_missing_high in
  exists (fu fd : Series) v a,
    columns df1 !! "fractal_up" = Some fu /\
    columns df1 !! "fractal_down" = Some fd /\
    analyze (self_of 0 high low) 1 df1 = (df1, Ok (v, a)) /\
    sequence a
    = pad_none (take 10 (flat_map bar_token (reverse (drop 1 (zip fu fd))))).
Proof.
  intros high low df1.
  apply (fractal_sequence_rows_read 0 1 two_bars_missing_high).
  apply init_eq; reflexivity || lia.
Defined.

(** With the degenerate half-window 0 and a missing (NaN) last high the
    loop and the specification's wording part: the loop reads the last row
    and never row 0. *)
Example half_window_zero_reads_last_row :
  let '(df1, r) := run_fractals 0 1 two_bars_missing_high in
  match r, columns df1 !! "fractal_up", columns df1 !! "fractal_down" with
  | Ok (_, a), Some fu, Some fd =>
      sequence a = replicate 10 none /\
      spec_sequence fu fd = up :: replicate 9 none
  | _, _, _ => False
  end.
Proof. vm_compute. split; reflexivity. Qed.

End FractalRows.

(** ** Williams Fractals: a fractal at exactly zero *)

Section FractalTruthiness.

Import WilliamsFractals.

Lemma falsy_zero (z : float) : (z =? 0)%float = true -> Py.truthy (Some z) = false.
Proof. intros H. unfold Py.truthy. by rewrite H. Qed.

(** C10: when the most recent up-fractal or the most recent down-fractal
    is zero (0.0, or -0.0), [analyze] still succeeds, but it has neither
    a position signal nor distances: the fractal exists ([Some]) and is
    treated as absent because it is tested by truthiness. *)
Theorem zero_fractal_treated_as_absent (period : Z) (price z : float)
    (df df1 : DataFrame) (self : t) :
  __init__ period df = (df1, Ok self) ->
  (z =? 0)%float = true ->
  last_up_fractal self = Some z \/ last_down_fractal self = Some z ->
  exists v a,
    analyze self price df1 = (df1, Ok (v, a)) /\
    position a = None /\ distances a = None.
Proof.
  intros Hinit Hz Hlast.
  destruct (init_inv _ _ _ _ Hinit) as (high & low & Hh & Hl & Lh & Ll & Hw).
  pose proof Hinit as Hinit'.
  rewrite (init_eq df period high low Hh Hl Lh Ll Hw) in Hinit'.
  injection Hinit' as <- _.
  destruct (analyze_after_init df period high low self price Hh Hl Lh Ll)
    as (tr & _ & Han).
  eexists _, _. split; [exact Han|].
  cbn [position distances]. unfold position_of, distances_of.
  cbn [get_current_values v_last_up_fractal v_last_down_fractal].
  destruct Hlast as [-> | ->]; rewrite (falsy_zero z Hz).
  - done.
  - by rewrite andb_false_r.
Qed.

Lemma zero_fractal_treated_as_absent_witness :
  let high := [-1; -1; 0; -1; -1]%float in
  let low := [-2; -2; -3; -2; -2]%float in
  let df1 := after_init 2 high low zero_high_bars in
  last_up_fractal (self_of 2 high low) = Some 0%float /\
  last_down_fractal (self_of 2 high low) = Some (-3)%float /\
  exists v a,
    analyze (self_of 2 high low) (-2) df1 = (df1, Ok (v, a)) /\
    position a = None /\ distances a = None.
Proof.
  intros high low df1.
  split; [reflexivity|]. split; [reflexivity|].
  apply (zero_fractal_treated_as_absent 2 (-2) 0 zero_high_bars df1
           (self_of 2 high low)).
  - apply init_eq; reflexivity || lia.
  - reflexivity.
  - left. reflexivity.
Defined.

End FractalTruthiness.

(** ** What a method does to the shared table *)

Section Frames.

Lemma read_only_ret {A} (a : A) : read_only (M_ret a).
Proof. by intros df. Qed.

Lemma read_only_lift {A} (r : result A) : read_only (lift r).
Proof. by intros df. Qed.

Lemma read_only_len : read_only df_len.
Proof. by intros df. Qed.

Lemma read_only_get c : read_only (get_col c).
Proof. intros df. unfold get_col. by destruct (columns df !! c). Qed.

Lemma read_only_bind {A B} (m : M A) (k : A -> M B) :
  read_only m -> (forall a, read_only (k a)) -> read_only (M_bind m k).
Proof.
  intros Hm Hk df. unfold M_bind. specialize (Hm df).
  destruct (m df) as [df' [a|e]]; cbn [fst] in *; subst df'; [apply Hk|done].
Qed.

Lemma writes_only_read {A} cs (m : M A) : read_only m -> writes_only cs m.
Proof.
  intros H df. unfold read_only in H. rewrite H.
  split; [reflexivity|intros; reflexivity].
Qed.

Lemma writes_only_set cs c s : c ∈ cs -> writes_only cs (set_col c s).
Proof.
  intros Hc df. unfold set_col.
  destruct (length s =? nrows df); [|done]. cbn [fst nrows columns].
  split; [done|]. intros c' Hc'. apply lookup_insert_ne. set_solver.
Qed.

Lemma writes_only_bind {A B} cs (m : M A) (k : A -> M B) :
  writes_only cs m -> (forall a, writes_only cs (k a)) ->
  writes_only cs (M_bind m k).
Proof.
  intros Hm Hk df. unfold M_bind. specialize (Hm df).
  destruct (m df) as [df' [a|e]]; cbn [fst] in *; [|done].
  destruct Hm as [Hn Hc]. destruct (Hk a df') as [Hn' Hc'].
  split; [congruence|]. intros c Hnot. rewrite Hc', Hc; done.
Qed.

End Frames.

Ltac read_only :=
  repeat first
    [ apply read_only_ret | apply read_only_lift | apply read_only_len
    | apply read_only_get
    | apply read_only_bind; [|intros ?]
    | match goal with |- read_only (if ?b then _ else _) => destruct b end ].

Section EngineFrames.

Lemma ichimoku_init_read_only tp kp sp d : read_only (Ichimoku.__init__ tp kp sp d).
Proof. unfold Ichimoku.__init__, Ichimoku.calculate. read_only. Qed.

Lemma rsi_init_read_only len st sl up mid lo :
  read_only (RSI.__init__ len st sl up mid lo).
Proof. unfold RSI.__init__, RSI.calculate. read_only. Qed.

Lemma rsi_divergence_read_only self lookback pw :
  read_only (RSI.get_divergence self lookback pw).
Proof. unfold RSI.get_divergence. read_only. Qed.

Lemma macross_init_read_only fp sp ty : read_only (MACross.__init__ fp sp ty).
Proof.
  unfold MACross.__init__, MACross.calculate, MACross.moving_average. read_only.
Qed.

Lemma fractals_init_writes period :
  writes_only ["fractal_up"; "fractal_down"]%string (WilliamsFractals.__init__ period).
Proof.
  unfold WilliamsFractals.__init__, WilliamsFractals.calculate.
  repeat first
    [ apply writes_only_bind; [|intros ?]
    | apply writes_only_set; set_solver
    | apply writes_only_read; read_only ].
Qed.

Lemma fractals_analyze_read_only self price :
  read_only (WilliamsFractals.analyze self price).
Proof. unfold WilliamsFractals.analyze. read_only. Qed.

End EngineFrames.

(** ** The shared table across the four engines *)

Section SharedTable.

Lemma not_written (c : string) :
  c <> "fractal_up"%string -> c <> "fractal_down"%string ->
  c ∉ ["fractal_up"; "fractal_down"]%string.
Proof.
  intros H1 H2. rewrite !elem_of_cons, elem_of_nil. intros [?|[?|[]]]; done.
Qed.

Lemma run_fractals_writes period price :
  writes_only ["fractal_up"; "fractal_down"]%string (run_fractals period price).
Proof.
  unfold run_fractals. apply writes_only_bind.
  - apply fractals_init_writes.
  - intros self. apply writes_only_read, fractals_analyze_read_only.
Qed.

Lemma run_fractals_ok period price df :
  is_ok (snd (run_fractals period price df)) = true ->
  exists high low : Series,
    columns df !! "high"%string = Some high /\
    columns df !! "low"%string = Some low /\
    fst (run_fractals period price df) = after_init period high low df.
Proof.
  unfold run_fractals, M_bind.
  destruct (WilliamsFractals.__init__ period df) as [df1 [self|e]] eqn:Hinit;
    [|discriminate].
  destruct (init_inv _ _ _ _ Hinit) as (high & low & Hh & Hl & Lh & Ll & Hw).
  rewrite (init_eq df period high low Hh Hl Lh Ll Hw) in Hinit.
  injection Hinit as <- _. intros _. exists high, low.
  split; [done|]. split; [done|]. apply fractals_analyze_read_only.
Qed.

(** C2 (as amended): Ichimoku, RSI (with its divergence check) and
    MACross never change the shared bar table, whatever their
    configuration and whether they return or raise.  WilliamsFractals
    keeps the rows and every column other than fractal_up and
    fractal_down -- so timestamp, open, high, low, close and volume --
    but a successful run leaves its two derived columns in the shared
    table. *)
Theorem shared_table_effects (df : DataFrame) :
  (forall tp kp sp d price, fst (run_ichimoku tp kp sp d price df) = df) /\
  (forall len st sl up mid lo lookback pw,
      fst (run_rsi len st sl up mid lo lookback pw df) = df) /\
  (forall fp sp ty price lookback,
      fst (run_macross fp sp ty price lookback df) = df) /\
  (forall period price,
      let df' := fst (run_fractals period price df) in
      nrows df' = nrows df /\
      Forall (fun c => columns df' !! c = columns df !! c) ohlcv /\
      (forall c, c <> "fractal_up"%string -> c <> "fractal_down"%string ->
                 columns df' !! c = columns df !! c) /\
      (is_ok (snd (run_fractals period price df)) = true ->
       exists high low : Series,
         columns df !! "high"%string = Some high /\
         columns df !! "low"%string = Some low /\
         df' = mkDF (nrows df)
                 (<["fractal_down"%string := fractal_down_of period low]>
                    (<["fractal_up"%string := fractal_up_of period high]>
                       (columns df))))).
Proof.
  split; [|split; [|split]].
  - intros. revert df. change (read_only (run_ichimoku tp kp sp d price)).
    unfold run_ichimoku. apply read_only_bind;
      [apply ichimoku_init_read_only|intros; apply read_only_lift].
  - intros. revert df.
    change (read_only (run_rsi len st sl up mid lo lookback pw)).
    unfold run_rsi. apply read_only_bind; [apply rsi_init_read_only|].
    intros self. apply read_only_bind; [apply read_only_lift|].
    intros r. apply read_only_bind; [apply rsi_divergence_read_only|].
    intros d. apply read_only_ret.
  - intros. revert df. change (read_only (run_macross fp sp ty price lookback)).
    unfold run_macross. apply read_only_bind; [apply macross_init_read_only|].
    intros self. apply read_only_bind; [apply read_only_lift|].
    intros r. apply read_only_ret.
  - intros period price df'.
    destruct (run_fractals_writes period price df) as [Hn Hc].
    split; [done|]. split; [|split].
    + unfold ohlcv. repeat constructor; apply Hc, not_written; discriminate.
    + intros c H1 H2. by apply Hc, not_written.
    + apply run_fractals_ok.
Qed.

Lemma shared_table_effects_witness :
  let df' := fst (run_fractals 2 2.5 nine_bars) in
  columns df' !! "volume"%string = columns nine_bars !! "volume"%string /\
  exists high low : Series,
    columns nine_bars !! "high"%string = Some high /\
    columns nine_bars !! "low"%string = Some low /\
    df' = mkDF 9
            (<["fractal_down"%string := fractal_down_of 2 low]>
               (<["fractal_up"%string := fractal_up_of 2 high]>
                  (columns nine_bars))).
Proof.
  destruct (shared_table_effects nine_bars) as (_ & _ & _ & H).
  destruct (H 2%Z 2.5%float) as (_ & _ & Hc & Hok).
  split.
  - apply Hc; discriminate.
  - apply Hok. vm_compute. reflexivity.
Defined.

(** C2 as the specification states it fails: after constructing and analysing the
    fractal engine the shared table is no longer the one that was
    ingested; it holds the engine's flags. *)
Lemma fractals_write_into_shared_table :
  let df' := fst (run_fractals 2 2.5 nine_bars) in
  columns nine_bars !! "fractal_up"%string = None /\
  columns df' !! "fractal_up"%string
    = Some [nan; nan; 5; nan; nan; nan; 3; nan; nan]%float /\
  columns df' !! "fractal_down"%string
    = Some [nan; nan; nan; nan; nan; -1; nan; nan; nan]%float /\
  df' <> nine_bars.
Proof.
  cbv zeta. split; [reflexivity|]. split; [vm_compute; reflexivity|].
  split; [vm_compute; reflexivity|].
  intros H. apply (f_equal (fun d => columns d !! "fractal_up"%string)) in H.
  vm_compute in H. discriminate.
Qed.

End SharedTable.

(** Step through code in [M] that only reads columns known from the
    context. *)
Ltac step_reads :=
  repeat progress
    (cbn [rbind nrows columns];
     repeat match goal with
            | H : columns _ !! _ = _ |- _ => rewrite H
            end).

(** ** Ichimoku *)

Section IchimokuFacts.

Import Ichimoku.

Lemma init_lines df tp kp sp d (high low : Series) :
  columns df !! "high"%string = Some high ->
  columns df !! "low"%string = Some low ->
  (0 <= tp)%Z -> (0 <= kp)%Z -> (0 <= sp)%Z ->
  __init__ tp kp sp d df = (df, Ok (lines_of tp kp sp d high low)).
Proof.
  intros Hh Hl Ht Hk Hs.
  cbv beta zeta delta [__init__ calculate M_bind get_col lift M_ret
    Pandas.rolling_max Pandas.rolling_min Pandas.check_window].
  destruct (Z.ltb_spec tp 0); [lia|].
  destruct (Z.ltb_spec kp 0); [lia|].
  destruct (Z.ltb_spec sp 0); [lia|].
  step_reads. reflexivity.
Qed.

Lemma init_lines_inv df tp kp sp d df1 self :
  __init__ tp kp sp d df = (df1, Ok self) ->
  exists high low : Series,
    columns df !! "high"%string = Some high /\
    columns df !! "low"%string = Some low /\
    (0 <= tp)%Z /\ (0 <= kp)%Z /\ (0 <= sp)%Z /\
    df1 = df /\ self = lines_of tp kp sp d high low.
Proof.
  cbv beta zeta delta [__init__ calculate M_bind get_col lift M_ret
    Pandas.rolling_max Pandas.rolling_min Pandas.check_window].
  destruct (columns df !! "high"%string) as [high|] eqn:Hh; [|intros [=]].
  destruct (Z.ltb_spec tp 0); [step_reads; intros [=]|]. step_reads.
  destruct (columns df !! "low"%string) as [low|] eqn:Hl; [|intros [=]].
  step_reads.
  destruct (Z.ltb_spec kp 0); [step_reads; intros [=]|]. step_reads.
  destruct (Z.ltb_spec sp 0); [step_reads; intros [=]|]. step_reads.
  intros [= <- <-]. exists high, low. done.
Qed.

Lemma length_half_sum (a b : Series) :
  length (half_sum a b) = Nat.min (length a) (length b).
Proof. apply length_zip_with. Qed.

Lemma length_lines tp kp sp d (high low : Series) :
  length high = length low ->
  let self := lines_of tp kp sp d high low in
  length (tenkan self) = length high /\
  length (kijun self) = length high /\
  length (senkou_span_a self) = length high /\
  length (senkou_span_b self) = length high.
Proof.
  intros Hlen. cbn.
  rewrite !length_half_sum, !length_roll. lia.
Qed.

Lemma index_last_ok {A} (l : list A) :
  0 < length l -> exists x, Py.index l (-1) = Ok x.
Proof.
  intros H. destruct l as [|y l]; [simpl in H; lia|].
  change (-1)%Z with (- Z.of_nat 1)%Z.
  rewrite (index_neg (y :: l) 1 y) by (simpl; lia). by eexists.
Qed.

Lemma displaced_short (s : Series) (d : Z) :
  (Z.of_nat (length s) <= d)%Z -> displaced s d = Ok None.
Proof.
  intros H. unfold displaced. by destruct (Z.ltb_spec d (Z.of_nat (length s))); [lia|].
Qed.

(** C3: on a table of 1 to [displacement] bars the constructor succeeds
    and [get_current_values] returns with both current-cloud fields
    [None] -- but [analyze] does not produce a partial result: it raises
    [TypeError] on [max(None, None)]. *)
Theorem analyze_short_series (tp kp sp d : Z) (price : float)
    (df df1 : DataFrame) (self : t) (high low : Series) :
  columns df !! "high"%string = Some high ->
  columns df !! "low"%string = Some low ->
  length high = nrows df ->
  length low = nrows df ->
  1 <= nrows df ->
  (Z.of_nat (nrows df) <= d)%Z ->
  __init__ tp kp sp d df = (df1, Ok self) ->
  (exists v, get_current_values self = Ok v /\
             current_span_a v = None /\ current_span_b v = None) /\
  analyze self price = Raise TypeError.
Proof.
  intros Hh Hl Lh Ll Hn Hd Hinit.
  destruct (init_lines_inv _ _ _ _ _ _ _ Hinit)
    as (high' & low' & Hh' & Hl' & _ & _ & _ & _ & ->).
  assert (high' = high) as -> by congruence.
  assert (low' = low) as -> by congruence.
  destruct (length_lines tp kp sp d high low) as (L1 & L2 & L3 & L4); [lia|].
  cbv zeta in L1, L2, L3, L4.
  set (self := lines_of tp kp sp d high low) in *.
  assert (Hd' : displacement self = d) by reflexivity.
  destruct (index_last_ok (tenkan self)) as [x1 E1]; [lia|].
  destruct (index_last_ok (kijun self)) as [x2 E2]; [lia|].
  destruct (index_last_ok (senkou_span_a self)) as [x3 E3]; [lia|].
  destruct (index_last_ok (senkou_span_b self)) as [x4 E4]; [lia|].
  assert (Hv : get_current_values self = Ok (mkValues x1 x2 None None x3 x4)).
  { unfold get_current_values, Pandas.iloc.
    rewrite E1, E2, E3, E4, Hd'. cbn [rbind].
    rewrite !displaced_short by lia. reflexivity. }
  split.
  - eexists. split; [exact Hv|]. done.
  - unfold analyze. rewrite Hv. reflexivity.
Qed.

Lemma analyze_short_series_witness :
  let self := lines_of 9 26 52 26 [2%float] [1%float] in
  (exists v, get_current_values self = Ok v /\
             current_span_a v = None /\ current_span_b v = None) /\
  analyze self 1.5 = Raise TypeError.
Proof.
  intros self.
  apply (analyze_short_series 9 26 52 26 1.5 one_bar one_bar self
           [2%float] [1%float]); try reflexivity; try (cbn; lia).
Defined.

End IchimokuFacts.

(** ** MACross: construction *)

Section MACrossFacts.

Import MACross.

Lemma index_head {A} (x : A) (l : list A) : Py.index (x :: l) 0 = Ok x.
Proof.
  unfold Py.index. cbn [Z.ltb Z.compare].
  destruct (Z.leb_spec (Z.of_nat (length (x :: l))) 0) as [H|H];
    [cbn [length] in H; lia|]. reflexivity.
Qed.

Lemma index_second {A} (x y : A) (l : list A) : Py.index (x :: y :: l) 1 = Ok y.
Proof.
  unfold Py.index. cbn [Z.ltb Z.compare].
  destruct (Z.leb_spec (Z.of_nat (length (x :: y :: l))) 1) as [H|H];
    [cbn [length] in H; lia|]. reflexivity.
Qed.

Lemma init_sma df (close : Series) f s l fr sr :
  columns df !! "close"%string = Some close ->
  (0 <= f)%Z -> (0 <= s)%Z -> (0 <= l)%Z ->
  __init__ (f :: fr) (s :: l :: sr) "SMA" df = (df, Ok (sma_of f s l close)).
Proof.
  intros Hc Hf Hs Hl.
  cbv beta zeta delta [__init__ calculate moving_average M_bind get_col lift M_ret
    Pandas.rolling_mean Pandas.check_window].
  rewrite !index_head, index_second.
  destruct (Z.ltb_spec f 0); [lia|].
  destruct (Z.ltb_spec s 0); [lia|].
  destruct (Z.ltb_spec l 0); [lia|].
  change (String.eqb "SMA" "SMA") with true.
  step_reads. reflexivity.
Qed.

Lemma com_of_span_ok (span : Z) :
  is_ok (Pandas.com_of_span span) = true ->
  Pandas.com_of_span span = Ok (Py.quotient (span - 1) 2).
Proof.
  unfold Pandas.com_of_span, Py.truediv.
  destruct (span <? 1)%Z; [intros [=]|].
  change (2 =? 0)%Z with false. cbv iota.
  by destruct (isinf (Py.quotient (span - 1) 2)).
Qed.

Lemma com_of_span_inv (span : Z) (com : float) :
  Pandas.com_of_span span = Ok com -> com = Py.quotient (span - 1) 2.
Proof.
  intros H. assert (Hok : is_ok (Pandas.com_of_span span) = true) by by rewrite H.
  rewrite (com_of_span_ok span Hok) in H. by injection H.
Qed.

Lemma init_ema df (close : Series) ty f s l fr sr :
  columns df !! "close"%string = Some close ->
  String.eqb ty "SMA" = false ->
  is_ok (Pandas.com_of_span f) = true ->
  is_ok (Pandas.com_of_span s) = true ->
  is_ok (Pandas.com_of_span l) = true ->
  __init__ (f :: fr) (s :: l :: sr) ty df = (df, Ok (ema_of ty f s l close)).
Proof.
  intros Hc Hty Hf Hs Hl.
  cbv beta zeta delta [__init__ calculate moving_average M_bind get_col lift M_ret].
  rewrite !index_head, index_second, Hty.
  rewrite (com_of_span_ok f Hf), (com_of_span_ok s Hs), (com_of_span_ok l Hl).
  step_reads. reflexivity.
Qed.

Lemma init_sma_inv df fp sp df1 self :
  __init__ fp sp "SMA" df = (df1, Ok self) ->
  exists (close : Series) f s l,
    columns df !! "close"%string = Some close /\
    (0 <= f)%Z /\ (0 <= s)%Z /\ (0 <= l)%Z /\
    df1 = df /\ self = sma_of f s l close.
Proof.
  cbv beta zeta delta [__init__ calculate moving_average M_bind get_col lift M_ret
    Pandas.rolling_mean Pandas.check_window].
  destruct (Py.index fp 0) as [f|]; [|intros [=]].
  destruct (Py.index sp 0) as [s|]; [|intros [=]].
  destruct (Py.index sp 1) as [l|]; [|intros [=]].
  destruct (columns df !! "close"%string) as [close|] eqn:Hc; [|intros [=]].
  change (String.eqb "SMA" "SMA") with true.
  destruct (Z.ltb_spec f 0); [step_reads; intros [=]|]. step_reads.
  destruct (Z.ltb_spec s 0); [step_reads; intros [=]|]. step_reads.
  destruct (Z.ltb_spec l 0); [step_reads; intros [=]|]. step_reads.
  intros [= <- <-]. exists close, f, s, l. done.
Qed.

End MACrossFacts.

(** ** Windowed aggregates before the window is full *)

Section NoValue.

Lemma roll_no_value agg (w : Z) (xs : Series) :
  no_value_prefix w (Pandas.roll agg (Z.to_nat w) false xs).
Proof.
  intros i Hi Hlen. rewrite length_roll in Hlen.
  rewrite roll_lookup by done. f_equal.
  apply roll_at_trailing_prefix. lia.
Qed.



Lemma half_sum_no_value (a b : Series) i :
  a !! i = Some nan \/ b !! i = Some nan ->
  i < length (Ichimoku.half_sum a b) ->
  Ichimoku.half_sum a b !! i = Some nan.
Proof.
  intros H Hi. rewrite length_half_sum in Hi.
  destruct (lookup_lt_is_Some_2 a i) as [x Hx]; [lia|].
  destruct (lookup_lt_is_Some_2 b i) as [y Hy]; [lia|].
  unfold Ichimoku.half_sum, Pandas.map2. apply lookup_zip_with_Some.
  exists x, y. split; [|done].
  destruct H as [H|H]; rewrite H in *.
  - injection Hx as <-. by rewrite nan_add_l, nan_div_l.
  - injection Hy as <-. by rewrite nan_add_r, nan_div_l.
Qed.

Lemma line_no_value (w : Z) (high low : Series) :
  no_value_prefix w
    (Ichimoku.half_sum (Pandas.roll Pandas.agg_max (Z.to_nat w) false high)
                       (Pandas.roll Pandas.agg_min (Z.to_nat w) false low)).
Proof.
  intros i Hi Hlen. apply half_sum_no_value; [|done]. left.
  rewrite length_half_sum, !length_roll in Hlen.
  apply roll_no_value; [done|]. rewrite length_roll. lia.
Qed.



End NoValue.

(** ** Construction and configuration *)

Section Configuration.

Lemma rsi_default_ok df (close : Series) :
  columns df !! "close"%string = Some close ->
  is_ok (snd (RSI.default df)) = true.
Proof.
  intros Hc.
  cbv beta zeta delta [RSI.default RSI.__init__ RSI.calculate M_bind get_col lift
    M_ret].
  rewrite Hc. vm_compute. reflexivity.
Qed.

Lemma rsi_zero_length df (close : Series) st sl up mid lo :
  columns df !! "close"%string = Some close ->
  RSI.__init__ 0 st sl up mid lo df = (df, Raise ZeroDivisionError).
Proof.
  intros Hc.
  cbv beta zeta delta [RSI.__init__ RSI.calculate M_bind get_col lift M_ret].
  rewrite Hc. reflexivity.
Qed.

Lemma ichimoku_negative df (high : Series) tp kp sp d :
  columns df !! "high"%string = Some high ->
  (tp < 0)%Z ->
  Ichimoku.__init__ tp kp sp d df = (df, Raise ValueError).
Proof.
  intros Hh Ht.
  cbv beta zeta delta [Ichimoku.__init__ Ichimoku.calculate M_bind get_col lift
    M_ret Pandas.rolling_max Pandas.check_window].
  rewrite Hh. destruct (Z.ltb_spec tp 0); [|lia]. reflexivity.
Qed.

Lemma fractals_negative df (high : Series) period :
  columns df !! "high"%string = Some high ->
  (2 * period + 1 < 0)%Z ->
  WilliamsFractals.__init__ period df = (df, Raise ValueError).
Proof.
  intros Hh Hp.
  cbv beta zeta delta [WilliamsFractals.__init__ WilliamsFractals.calculate M_bind
    get_col lift M_ret Pandas.rolling_max Pandas.check_window].
  rewrite Hh. destruct (Z.ltb_spec (2 * period + 1) 0); [|lia]. reflexivity.
Qed.

Lemma macross_span_below_one df (close : Series) ty f s l fr sr :
  columns df !! "close"%string = Some close ->
  String.eqb ty "SMA" = false ->
  (f < 1)%Z ->
  MACross.__init__ (f :: fr) (s :: l :: sr) ty df = (df, Raise ValueError).
Proof.
  intros Hc Hty Hf.
  cbv beta zeta delta [MACross.__init__ MACross.calculate MACross.moving_average
    M_bind get_col lift M_ret Pandas.com_of_span].
  rewrite !index_head, index_second, Hty.
  destruct (Z.ltb_spec f 1); [|lia].
  step_reads. reflexivity.
Qed.

Lemma macross_negative df (close : Series) f s l fr sr :
  columns df !! "close"%string = Some close ->
  (f < 0)%Z ->
  MACross.__init__ (f :: fr) (s :: l :: sr) "SMA" df = (df, Raise ValueError).
Proof.
  intros Hc Hf.
  cbv beta zeta delta [MACross.__init__ MACross.calculate MACross.moving_average
    M_bind get_col lift M_ret Pandas.rolling_mean Pandas.check_window].
  rewrite !index_head, index_second.
  destruct (Z.ltb_spec f 0); [|lia].
  change (String.eqb "SMA" "SMA") with true.
  step_reads. reflexivity.
Qed.

(** C9: every engine has invalid configurations -- a non-positive period
    -- that are rejected at construction time, on every bar table that
    holds the column the constructor reads first: a negative tenkan period
    (Ichimoku), a negative half-window (Williams Fractals), a negative
    fast period in SMA mode and a fast period below 1 in EMA mode
    (MACross) raise [ValueError], and an RSI length of 0 raises
    [ZeroDivisionError].  The constructor raises before it has written
    anything: the table is left as it was. *)
Theorem invalid_period_rejected_at_construction (df : DataFrame) :
  (forall high tp kp sp d,
      columns df !! "high"%string = Some high -> (tp < 0)%Z ->
      Ichimoku.__init__ tp kp sp d df = (df, Raise ValueError)) /\
  (forall high period,
      columns df !! "high"%string = Some high -> (period < 0)%Z ->
      WilliamsFractals.__init__ period df = (df, Raise ValueError)) /\
  (forall close f s l fr sr,
      columns df !! "close"%string = Some close -> (f < 0)%Z ->
      MACross.__init__ (f :: fr) (s :: l :: sr) "SMA" df
      = (df, Raise ValueError)) /\
  (forall close ty f s l fr sr,
      columns df !! "close"%string = Some close ->
      String.eqb ty "SMA" = false -> (f < 1)%Z ->
      MACross.__init__ (f :: fr) (s :: l :: sr) ty df
      = (df, Raise ValueError)) /\
  (forall close st sl up mid lo,
      columns df !! "close"%string = Some close ->
      RSI.__init__ 0 st sl up mid lo df = (df, Raise ZeroDivisionError)).
Proof.
  split; [|split; [|split; [|split]]].
  - intros high tp kp sp d Hh Ht. by apply (ichimoku_negative df high).
  - intros high period Hh Hp. apply (fractals_negative df high); [done|lia].
  - intros close f s l fr sr Hc Hf. by apply (macross_negative df close).
  - intros close ty f s l fr sr Hc Hty Hf.
    by apply (macross_span_below_one df close).
  - intros close st sl up mid lo Hc. by apply (rsi_zero_length df close).
Qed.

Lemma invalid_period_rejected_at_construction_witness :
  Ichimoku.__init__ (-9) 26 52 26 nine_bars = (nine_bars, Raise ValueError) /\
  WilliamsFractals.__init__ (-2) nine_bars = (nine_bars, Raise ValueError) /\
  MACross.__init__ [-10; 50]%Z [50; 200]%Z "SMA" nine_bars
  = (nine_bars, Raise ValueError) /\
  MACross.__init__ [0; 50]%Z [50; 200]%Z "EMA" nine_bars
  = (nine_bars, Raise ValueError) /\
  RSI.__init__ 0 "SMA" 14 70 50 30 nine_bars
  = (nine_bars, Raise ZeroDivisionError).
Proof.
  destruct (invalid_period_rejected_at_construction nine_bars)
    as (Hi & Hf & Hm & He & Hr).
  split; [|split; [|split; [|split]]].
  - apply (Hi [1; 2; 5; 2; 1; 2; 3; 2; 1]%float); [reflexivity|lia].
  - apply (Hf [1; 2; 5; 2; 1; 2; 3; 2; 1]%float); [reflexivity|lia].
  - apply (Hm [1; 2; 3; 2; 1; 2; 3; 2; 1]%float); [reflexivity|lia].
  - apply (He [1; 2; 3; 2; 1; 2; 3; 2; 1]%float); [reflexivity|reflexivity|lia].
  - apply (Hr [1; 2; 3; 2; 1; 2; 3; 2; 1]%float). reflexivity.
Defined.

(** The engines have no check of their own, and what pandas accepts they
    accept: a fast period (50) above the slow period (10) is constructed,
    and the three averages are computed. *)
Example fast_above_slow_constructed :
  invalid_ma_periods 50 10 200 /\
  exists self,
    MACross.__init__ [50; 50]%Z [10; 200]%Z "SMA" nine_bars = (nine_bars, Ok self) /\
    MACross.fast_ma_period self = 50%Z /\
    MACross.slow_ma_period self = 10%Z.
Proof.
  split; [unfold invalid_ma_periods; lia|].
  eexists. split; [|split].
  - apply (init_sma nine_bars [1; 2; 3; 2; 1; 2; 3; 2; 1]%float);
      reflexivity || lia.
  - reflexivity.
  - reflexivity.
Qed.

End Configuration.

(** ** MACross: cross history *)

Section CrossHistory.

Import MACross.

Lemma filter_none {A} (f : A -> bool) (l : list A) :
  (forall x, f x = false) -> List.filter f l = [].
Proof.
  intros H. induction l as [|x l IH]; [done|]. simpl. by rewrite H.
Qed.

Lemma eq_int_minus_one (x : option bool) : eq_int x (-1) = false.
Proof. by destruct x as [[|]|]. Qed.

(** Whatever the averages do, no death cross is ever reported: the
    differenced boolean series holds [True], [False] or NaN, and none of
    them equals -1. *)
Lemma death_cross_never_reported (self : t) (lookback : Z) key entry :
  get_cross_history self lookback !! key = Some entry ->
  last_death_cross entry = None.
Proof.
  unfold get_cross_history. intros H.
  apply lookup_insert_Some in H as [[_ <-]|[_ H]].
  - cbn. unfold last_where. rewrite filter_none; [done|].
    intros p. apply eq_int_minus_one.
  - apply lookup_insert_Some in H as [[_ <-]|[_ H]].
    + cbn. unfold last_where. rewrite filter_none; [done|].
      intros p. apply eq_int_minus_one.
    + by rewrite lookup_empty in H.
Qed.

(** C7 on [rise_then_fall] with the default periods and lookback: the one
    transition in the window is a death cross (true to false at row 56).
    The code reports it as the last golden cross and reports no death
    cross; as specified it is the last death cross and there is no golden
    cross. *)
Theorem death_cross_reported_as_golden :
  exists self,
    MACross.default rise_then_fall = (rise_then_fall, Ok self) /\
    get_cross_history self 10 !! (10%Z, 50%Z) = Some (mkEntry (Some 56) None) /\
    spec_golden (ma_fast self) (ma_slow self) 10 = None /\
    spec_death (ma_fast self) (ma_slow self) 10 = Some 56.
Proof.
  eexists. split; [|split; [|split]].
  - unfold default. eapply init_sma; reflexivity || lia.
  - vm_compute. reflexivity.
  - vm_compute. reflexivity.
  - vm_compute. reflexivity.
Qed.

Lemma bool_diff_transitions (above : list bool) :
  bool_diff above = map flip (transitions above).
Proof.
  unfold bool_diff, transitions. destruct above as [|a t]; [done|].
  simpl. f_equal. unfold Pandas.map2.
  generalize (a :: t). intros prev. revert prev.
  induction t as [|c t IH]; intros [|p prev]; simpl; try done.
  by rewrite IH.
Qed.

Lemma with_index_map {A B} (f : A -> B) (l : list A) :
  Pandas.with_index (map f l) = map (fun p => (fst p, f (snd p))) (Pandas.with_index l).
Proof.
  unfold Pandas.with_index. rewrite length_map.
  generalize (seq 0 (length l)). intros ns. revert ns.
  induction l as [|x l IH]; intros [|n ns]; simpl; try done.
  by rewrite IH.
Qed.

Lemma slice_from_map {A B} (f : A -> B) (l : list A) k :
  Py.slice_from (map f l) k = map f (Py.slice_from l k).
Proof.
  unfold Py.slice_from. rewrite length_map.
  change (map f ?x) with (f <$> x). by rewrite fmap_drop.
Qed.

Lemma filter_map {A B} (g : A -> B) (P : B -> bool) (l : list A) :
  List.filter P (map g l) = map g (List.filter (fun x => P (g x)) l).
Proof.
  induction l as [|x l IH]; simpl; [done|].
  destruct (P (g x)); simpl; by rewrite IH.
Qed.

Lemma crosses_of_shape (ma_a ma_b : Series) (lookback : Z) :
  last_golden_cross (crosses_of ma_a ma_b lookback) = last_change ma_a ma_b lookback /\
  last_death_cross (crosses_of ma_a ma_b lookback) = None.
Proof.
  split.
  - unfold crosses_of, last_change, last_where, Pandas.iloc_from.
    cbn [last_golden_cross].
    rewrite bool_diff_transitions, with_index_map, slice_from_map, filter_map.
    unfold Pandas.labels. rewrite map_map. cbn [fst snd].
    f_equal. f_equal. apply filter_ext. intros [i [[p c]|]]; simpl; [|done].
    by destruct p, c.
  - unfold crosses_of, last_where. cbn [last_death_cross].
    rewrite filter_none; [done|]. intros p. apply eq_int_minus_one.
Qed.

(** What [get_cross_history] returns, for every object and lookback: under
    each pair's key, as last golden cross the row of the most recent
    change of the faster-above-slower series in either direction, and no
    death cross. *)
Theorem cross_history_reports_changes (self : t) (lookback : Z) :
  get_cross_history self lookback !! (slow_ma_period self, long_ma_period self)
  = Some (mkEntry (last_change (ma_slow self) (ma_long self) lookback) None) /\
  ((fast_ma_period self, slow_ma_period self)
     <> (slow_ma_period self, long_ma_period self) ->
   get_cross_history self lookback !! (fast_ma_period self, slow_ma_period self)
   = Some (mkEntry (last_change (ma_fast self) (ma_slow self) lookback) None)).
Proof.
  unfold get_cross_history. split.
  - rewrite lookup_insert_eq. f_equal.
    destruct (crosses_of_shape (ma_slow self) (ma_long self) lookback) as [<- <-].
    by destruct (crosses_of _ _ _).
  - intros Hne. rewrite lookup_insert_ne by done. rewrite lookup_insert_eq.
    f_equal.
    destruct (crosses_of_shape (ma_fast self) (ma_slow self) lookback) as [<- <-].
    by destruct (crosses_of _ _ _).
Qed.

Lemma cross_history_reports_changes_witness :
  get_cross_history
    (sma_of 10 50 200 rise_then_fall_closes) 10 !! (10%Z, 50%Z)
  = Some (mkEntry (Some 56) None).
Proof.
  destruct (cross_history_reports_changes
              (sma_of 10 50 200 rise_then_fall_closes) 10)
    as [_ H].
  etrans; [apply H; discriminate|]. vm_compute. reflexivity.
Defined.

End CrossHistory.

(** ** RSI: divergence *)

Section Divergence.

Lemma diverges_few beyond (price_ext rsi_ext : LSeries) :
  length price_ext < 2 \/ length rsi_ext < 2 ->
  RSI.diverges beyond price_ext rsi_ext = Ok false.
Proof.
  intros H. unfold RSI.diverges.
  destruct (Nat.leb_spec 2 (length price_ext));
    destruct (Nat.leb_spec 2 (length rsi_ext)); (done || lia).
Qed.

(** C4: with fewer rows than [lookback] the answer is [None], which is
    not a "no divergence" answer; with at least [lookback] rows and fewer
    than two peaks in one of the two series and fewer than two troughs in
    one of the two series, the answer is the "no divergence" record, both
    flags false. *)
Theorem divergence_insufficient_or_none (self : RSI.t) (lookback peak_window : Z)
    (df : DataFrame) :
  ((Z.of_nat (nrows df) < lookback)%Z ->
     RSI.get_divergence self lookback peak_window df = (df, Ok None)) /\
  (forall (close : Series) (pp pt rp rt : LSeries),
     (lookback <= Z.of_nat (nrows df))%Z ->
     columns df !! "close"%string = Some close ->
     RSI.peaks peak_window (recent_of close lookback) = Ok pp ->
     RSI.troughs peak_window (recent_of close lookback) = Ok pt ->
     RSI.peaks peak_window (recent_of (RSI.smoothed_rsi self) lookback) = Ok rp ->
     RSI.troughs peak_window (recent_of (RSI.smoothed_rsi self) lookback) = Ok rt ->
     length pp < 2 \/ length rp < 2 ->
     length pt < 2 \/ length rt < 2 ->
     RSI.get_divergence self lookback peak_window df
     = (df, Ok (Some RSI.no_divergence))) /\
  None <> Some RSI.no_divergence /\
  RSI.bullish_divergence RSI.no_divergence = false /\
  RSI.bearish_divergence RSI.no_divergence = false.
Proof.
  split; [|split; [|done]].
  - intros Hshort.
    cbv beta iota zeta delta [RSI.get_divergence M_bind df_len M_ret].
    destruct (Z.ltb_spec (Z.of_nat (nrows df)) lookback); [done|lia].
  - intros close pp pt rp rt Hlong Hc Hpp Hpt Hrp Hrt Hpeaks Htroughs.
    cbv beta iota zeta delta [RSI.get_divergence M_bind df_len get_col lift M_ret].
    destruct (Z.ltb_spec (Z.of_nat (nrows df)) lookback); [lia|].
    rewrite Hc. cbv beta iota.
    fold (recent_of close lookback).
    fold (recent_of (RSI.smoothed_rsi self) lookback).
    rewrite Hpp. cbv beta iota. rewrite Hpt. cbv beta iota.
    rewrite Hrp. cbv beta iota. rewrite Hrt. cbv beta iota.
    rewrite (diverges_few _ pp rp Hpeaks). cbv beta iota.
    rewrite (diverges_few _ pt rt Htroughs). reflexivity.
Qed.

Lemma divergence_insufficient_or_none_witness :
  exists self,
    RSI.default thirty_rising = (thirty_rising, Ok self) /\
    RSI.get_divergence self 31 5 thirty_rising = (thirty_rising, Ok None) /\
    RSI.get_divergence self 30 5 thirty_rising
    = (thirty_rising, Ok (Some RSI.no_divergence)).
Proof.
  eexists. split; [vm_compute; reflexivity|]. split.
  - apply divergence_insufficient_or_none. simpl. lia.
  - eapply divergence_insufficient_or_none.
    + simpl. lia.
    + reflexivity.
    + vm_compute. reflexivity.
    + vm_compute. reflexivity.
    + vm_compute. reflexivity.
    + vm_compute. reflexivity.
    + left. simpl. lia.
    + left. simpl. lia.
Defined.

(** *** Bearish divergence *)

(** C1 on [higher_high_weaker_rsi] with the default configuration: the
    last thirty rows hold the price peaks 130 (row 30) and 134 (row 44)
    and two smoothed-RSI peaks (rows 35 and 50), the later one lower; as
    specified this is a bearish divergence.  The code does not report it:
    it looks the nearest POSITION (0 or 1) up as a row LABEL and raises
    [KeyError]. *)
Theorem bearish_divergence_key_error :
  exists self pp rp,
    RSI.default higher_high_weaker_rsi = (higher_high_weaker_rsi, Ok self) /\
    RSI.peaks 5 (recent_of higher_high_weaker_rsi_closes 30) = Ok pp /\
    RSI.peaks 5 (recent_of (RSI.smoothed_rsi self) 30) = Ok rp /\
    pp = [(30, 130%float); (44, 134%float)] /\
    Pandas.labels rp = [35; 50] /\
    Pandas.get_loc_nearest (Pandas.labels rp) 44 = Ok 1 /\
    Pandas.get_loc_nearest (Pandas.labels rp) 30 = Ok 0 /\
    spec_bearish pp rp = Ok true /\
    snd (RSI.get_divergence self 30 5 higher_high_weaker_rsi) = Raise KeyError.
Proof.
  eexists _, _, _.
  split; [vm_compute; reflexivity|].
  split; [vm_compute; reflexivity|].
  split; [vm_compute; reflexivity|].
  repeat split; vm_compute; reflexivity.
Qed.

End Divergence.

(** ** RSI: divergence on long tables *)

Section DivergenceLabels.


Lemma with_index_lookup {A} (s : list A) i p :
  Pandas.with_index s !! i = Some p -> fst p = i.
Proof.
  unfold Pandas.with_index. intros H.
  apply lookup_zip_with_Some in H as (j & x & -> & Hj & _).
  apply lookup_seq in Hj as [-> _]. done.
Qed.

(** The labels of a trailing window of [lookback] rows start at
    [length s - lookback]. *)
Lemma recent_labels (s : Series) (lookback : Z) :
  (1 <= lookback)%Z ->
  Forall (fun p => length s - Z.to_nat lookback <= fst p) (recent_of s lookback).
Proof.
  intros Hl. unfold recent_of, Pandas.iloc_from, Py.slice_from.
  assert (Hn : length (Pandas.with_index s) = length s).
  { unfold Pandas.with_index. rewrite length_zip_with, length_seq. lia. }
  rewrite Hn.
  apply Forall_lookup. intros i p Hp.
  rewrite lookup_drop in Hp. apply with_index_lookup in Hp. rewrite Hp.
  destruct (Z.ltb_spec (- lookback) 0); lia.
Qed.

Lemma recent_length (s : Series) (lookback : Z) :
  (1 <= lookback)%Z -> length (recent_of s lookback) <= Z.to_nat lookback.
Proof.
  intros Hl. unfold recent_of, Pandas.iloc_from, Py.slice_from.
  assert (Hn : length (Pandas.with_index s) = length s).
  { unfold Pandas.with_index. rewrite length_zip_with, length_seq. lia. }
  rewrite length_drop, Hn.
  destruct (Z.ltb_spec (- lookback) 0); lia.
Qed.

Lemma mask_sublist {A} (s : list A) (m : list bool) : Pandas.mask s m `sublist_of` s.
Proof.
  unfold Pandas.mask. revert m.
  induction s as [|x s IH]; intros [|b m]; simpl.
  - constructor.
  - constructor.
  - apply sublist_nil_l.
  - rewrite filter_cons. simpl. destruct (decide (b = true)); simpl.
    + by apply sublist_skip.
    + by apply sublist_cons.
Qed.

Lemma extrema_sublist rolling (w : Z) (s e : LSeries) :
  RSI.extrema rolling w s = Ok e -> e `sublist_of` s.
Proof.
  unfold RSI.extrema. destruct (rolling w true (Pandas.values s)); [|intros [=]].
  cbn [rbind]. intros [= <-].
  etrans; [apply sublist_filter|apply mask_sublist].
Qed.

Lemma get_loc_nearest_lt (ls : list nat) key pos :
  Pandas.get_loc_nearest ls key = Ok pos -> pos < length ls.
Proof.
  unfold Pandas.get_loc_nearest, Pandas.pad, Pandas.backfill.
  set (P := fun p : nat * nat => (snd p <=? key)).
  set (B := fun p : nat * nat => (key <=? snd p)).
  assert (Hin : forall (f : nat * nat -> bool) i l,
             In (i, l) (List.filter f (Pandas.with_index ls)) -> i < length ls).
  { intros f i l H. apply List.filter_In in H as [H _].
    apply list_elem_of_In, list_elem_of_lookup in H as [j Hj].
    pose proof (lookup_lt_Some _ _ _ Hj) as Hlt.
    apply with_index_lookup in Hj. simpl in Hj. subst j.
    unfold Pandas.with_index in Hlt.
    rewrite length_zip_with, length_seq in Hlt. lia. }
  destruct (last (List.filter P (Pandas.with_index ls))) as [[l ll]|] eqn:El;
    destruct (head (List.filter B (Pandas.with_index ls))) as [[r rl]|] eqn:Er.
  - apply last_Some_elem_of, list_elem_of_In, Hin in El.
    apply head_Some_elem_of, list_elem_of_In, Hin in Er.
    intros [= <-]. by destruct (_ <? _).
  - apply last_Some_elem_of, list_elem_of_In, Hin in El. by intros [= <-].
  - apply head_Some_elem_of, list_elem_of_In, Hin in Er. by intros [= <-].
  - intros [=].
Qed.

Lemma getitem_missing (s : LSeries) k :
  Forall (fun p => k < fst p) s -> Pandas.getitem s k = Raise KeyError.
Proof.
  intros H. unfold Pandas.getitem.
  destruct (List.find _ s) as [p|] eqn:E; [|done].
  apply List.find_some in E as [Hin Hk].
  apply list_elem_of_In in Hin.
  rewrite Forall_forall in H. specialize (H p Hin).
  apply Nat.eqb_eq in Hk. lia.
Qed.

(** When every row label of [ext] lies beyond its length, no position is a
    label: the lookup always raises. *)
Lemma corresponding_key_error (ext : LSeries) label :
  Forall (fun p => length ext <= fst p) ext ->
  RSI.corresponding ext label = Raise KeyError.
Proof.
  intros H. unfold RSI.corresponding.
  destruct (Pandas.get_loc_nearest (Pandas.labels ext) label) as [pos|e] eqn:E.
  - cbn [rbind]. apply get_loc_nearest_lt in E.
    unfold Pandas.labels in E. rewrite length_map in E.
    apply getitem_missing. eapply Forall_impl; [exact H|]. simpl. intros; lia.
  - cbn [rbind]. revert E. unfold Pandas.get_loc_nearest.
    destruct (Pandas.pad _ _) as [[? ?]|]; destruct (Pandas.backfill _ _) as [[? ?]|];
      intros Heq; inversion Heq; done.
Qed.

Lemma diverges_key_error beyond (price_ext rsi_ext : LSeries) :
  Forall (fun p => length rsi_ext <= fst p) rsi_ext ->
  RSI.diverges beyond price_ext rsi_ext = Ok false \/
  RSI.diverges beyond price_ext rsi_ext = Raise KeyError.
Proof.
  intros H. unfold RSI.diverges.
  destruct (Nat.leb_spec 2 (length price_ext)) as [Hp|]; [|by left].
  destruct (Nat.leb_spec 2 (length rsi_ext)) as [Hr|]; [|by left].
  right. cbn [andb].
  change (-1)%Z with (- Z.of_nat 1)%Z. change (-2)%Z with (- Z.of_nat 2)%Z.
  assert (Hl : length (Pandas.labels price_ext) = length price_ext)
    by apply length_map.
  rewrite (index_neg _ 1 0), (index_neg _ 2 0) by lia. cbn [rbind].
  by rewrite corresponding_key_error.
Qed.


Lemma extrema_labels rolling (w lookback : Z) (s : Series) (ext : LSeries) :
  (1 <= lookback)%Z ->
  (2 * lookback <= Z.of_nat (length s))%Z ->
  RSI.extrema rolling w (recent_of s lookback) = Ok ext ->
  Forall (fun p => length ext <= fst p) ext.
Proof.
  intros Hl Hs Hext. apply extrema_sublist in Hext.
  pose proof (sublist_length _ _ Hext) as Hlen.
  pose proof (recent_length s lookback Hl) as Hrec.
  apply Forall_forall. intros p Hp.
  apply (elem_of_sublist _ _ _ Hp) in Hext.
  pose proof (recent_labels s lookback Hl) as Hlab.
  rewrite Forall_forall in Hlab. specialize (Hlab p Hext). lia.
Qed.



End DivergenceLabels.

(** ** Order and missing values of binary64 numbers *)

Ltac sf_order :=
  unfold SFeqb, SFltb, SFleb, SFcompare;
  repeat match goal with
         | x : spec_float |- _ => destruct x as [[|]|[|]| |[|] ? ?]
         end;
  try discriminate; try reflexivity; try congruence;
  repeat match goal with
         | |- context [(?x ?= ?y)%Z] => destruct (Z.compare_spec x y)
         | |- context [PosDef.Pos.compare_cont Eq ?x ?y] =>
             change (PosDef.Pos.compare_cont Eq x y) with (Pos.compare x y);
             destruct (Pos.compare_spec x y)
         end;
  simpl; try discriminate; try reflexivity; intros; subst; lia.

Section FloatOrder.

Lemma SFltb_trans (a b c : spec_float) :
  SFltb a b = true -> SFltb b c = true -> SFltb a c = true.
Proof. sf_order. Qed.

Lemma SFltb_neg_trans (a b c : spec_float) :
  b <> S754_nan ->
  SFltb a b = false -> SFltb b c = false -> SFltb a c = false.
Proof. sf_order. Qed.

Lemma SFltb_irrefl (a : spec_float) : SFltb a a = false.
Proof. sf_order. Qed.

Lemma SFeqb_ltb_l (a b c : spec_float) :
  SFeqb a b = true -> SFltb a c = SFltb b c.
Proof. sf_order. Qed.

Lemma SFeqb_ltb_r (a b c : spec_float) :
  SFeqb a b = true -> SFltb c a = SFltb c b.
Proof. sf_order. Qed.

Lemma SF_trichotomy (a b : spec_float) :
  a <> S754_nan -> b <> S754_nan ->
  SFltb a b = false -> SFltb b a = false -> SFeqb a b = true.
Proof. sf_order. Qed.

Lemma notnan_SF (x : float) : notnan x = true -> Prim2SF x <> S754_nan.
Proof.
  unfold notnan, isnan, is_nan. rewrite negb_involutive, FloatAxioms.eqb_spec.
  intros H E. rewrite E in H. discriminate.
Qed.

Lemma notnan_eqb (x : float) : notnan x = (x =? x)%float.
Proof. unfold notnan, isnan, is_nan. apply negb_involutive. Qed.

Lemma ltb_trans (a b c : float) :
  (a <? b)%float = true -> (b <? c)%float = true -> (a <? c)%float = true.
Proof. rewrite !FloatAxioms.ltb_spec. apply SFltb_trans. Qed.

Lemma ltb_neg_trans (a b c : float) :
  notnan b = true ->
  (a <? b)%float = false -> (b <? c)%float = false -> (a <? c)%float = false.
Proof.
  intros H. rewrite !FloatAxioms.ltb_spec. by apply SFltb_neg_trans, notnan_SF.
Qed.

Lemma ltb_irrefl (a : float) : (a <? a)%float = false.
Proof. rewrite FloatAxioms.ltb_spec. apply SFltb_irrefl. Qed.

Lemma eqb_ltb_l (a b c : float) :
  (a =? b)%float = true -> (a <? c)%float = (b <? c)%float.
Proof. rewrite FloatAxioms.eqb_spec, !FloatAxioms.ltb_spec. apply SFeqb_ltb_l. Qed.

Lemma eqb_ltb_r (a b c : float) :
  (a =? b)%float = true -> (c <? a)%float = (c <? b)%float.
Proof. rewrite FloatAxioms.eqb_spec, !FloatAxioms.ltb_spec. apply SFeqb_ltb_r. Qed.

Lemma ltb_total (a b : float) :
  notnan a = true -> notnan b = true ->
  (a <? b)%float = false -> (b <? a)%float = false -> (a =? b)%float = true.
Proof.
  intros Ha Hb. rewrite FloatAxioms.eqb_spec, !FloatAxioms.ltb_spec.
  by apply SF_trichotomy; apply notnan_SF.
Qed.

Lemma ltb_nan_l (x : float) : (nan <? x)%float = false.
Proof. rewrite FloatAxioms.ltb_spec. reflexivity. Qed.

Lemma ltb_nan_r (x : float) : (x <? nan)%float = false.
Proof.
  rewrite FloatAxioms.ltb_spec. change (Prim2SF nan) with S754_nan.
  unfold SFltb, SFcompare. by destruct (Prim2SF x).
Qed.

Lemma leb_nan_l (x : float) : (nan <=? x)%float = false.
Proof. rewrite FloatAxioms.leb_spec. reflexivity. Qed.

Lemma leb_nan_r (x : float) : (x <=? nan)%float = false.
Proof.
  rewrite FloatAxioms.leb_spec. change (Prim2SF nan) with S754_nan.
  unfold SFleb, SFcompare. by destruct (Prim2SF x).
Qed.

Lemma fgt_nan_l (x : float) : fgt nan x = false.
Proof. apply ltb_nan_r. Qed.

Lemma fgt_nan_r (x : float) : fgt x nan = false.
Proof. apply ltb_nan_l. Qed.

Lemma nan_sub_l (x : float) : (nan - x)%float = nan.
Proof. apply Prim2SF_inj. rewrite FloatAxioms.sub_spec. reflexivity. Qed.

Lemma nan_sub_r (x : float) : (x - nan)%float = nan.
Proof.
  apply Prim2SF_inj. rewrite FloatAxioms.sub_spec.
  change (Prim2SF nan) with S754_nan. by destruct (Prim2SF x) as [[|]|[|]| |].
Qed.

Lemma nan_div_r (x : float) : (x / nan)%float = nan.
Proof.
  apply Prim2SF_inj. rewrite FloatAxioms.div_spec.
  change (Prim2SF nan) with S754_nan. by destruct (Prim2SF x).
Qed.

Lemma nan_mul_l (x : float) : (nan * x)%float = nan.
Proof. apply Prim2SF_inj. rewrite FloatAxioms.mul_spec. reflexivity. Qed.

End FloatOrder.

(** ** Williams Fractals: what a flag means *)

Section Extremum.

Context (beyond : float -> float -> bool).
Context (beyond_trans : forall a b c,
            beyond a b = true -> beyond b c = true -> beyond a c = true).
Context (beyond_neg_trans : forall a b c,
            notnan b = true ->
            beyond a b = false -> beyond b c = false -> beyond a c = false).
Context (beyond_irrefl : forall a, beyond a a = false).
Context (beyond_eqb : forall a b c,
            (a =? b)%float = true -> beyond a c = beyond b c).
Context (beyond_total : forall a b,
            notnan a = true -> notnan b = true ->
            beyond a b = false -> beyond b a = false -> (a =? b)%float = true).

(** The running extremum of the rolling aggregate and the aggregate over
    the observations of a window. *)
Let pick (a b : float) : float := if beyond a b then b else a.
Let agg (obs : Series) : float :=
  match obs with [] => nan | x :: r => fold_left pick r x end.

Lemma fold_pick_bound (t : Series) (x : float) :
  Forall (fun y => notnan y = true) (x :: t) ->
  fold_left pick t x ∈ x :: t /\
  forall y, y ∈ x :: t -> beyond (fold_left pick t x) y = false.
Proof.
  revert x. induction t as [|b t IH]; intros x Hnn.
  - simpl. split; [left|]. intros y Hy. apply list_elem_of_singleton in Hy as ->.
    apply beyond_irrefl.
  - apply Forall_cons in Hnn as [Hx Hnn]. pose proof Hnn as Hbt.
    apply Forall_cons in Hnn as [Hb Ht].
    cbn [fold_left].
    assert (Hp : notnan (pick x b) = true) by (unfold pick; by destruct (beyond x b)).
    destruct (IH (pick x b)) as [Hin Hbound]; [by constructor|].
    set (r := fold_left pick t (pick x b)) in *.
    assert (Hrp : beyond r (pick x b) = false) by (apply Hbound; left).
    split.
    + apply elem_of_cons in Hin as [Hin|Hin]; [|by do 2 right].
      rewrite Hin. unfold pick. destruct (beyond x b); [right|]; left.
    + intros y Hy. apply elem_of_cons in Hy as [->|Hy].
      * unfold pick in Hrp. destruct (beyond x b) eqn:E; [|done].
        destruct (beyond r x) eqn:E'; [|done].
        by rewrite (beyond_trans _ _ _ E' E) in Hrp.
      * apply elem_of_cons in Hy as [->|Hy]; [|by apply Hbound; right].
        unfold pick in Hrp. destruct (beyond x b) eqn:E; [done|].
        by apply (beyond_neg_trans r x b).
Qed.

Lemma filter_all {A} (P : A -> Prop) `{!forall x, Decision (P x)} (l : list A) :
  length l <= length (filter P l) -> filter P l = l /\ Forall P l.
Proof.
  induction l as [|x l IH]; [done|]. rewrite filter_cons.
  destruct (decide (P x)); cbn [length]; intros Hlen.
  - destruct IH as [-> ?]; [lia|]. split; [done|by constructor].
  - pose proof (length_filter P l). lia.
Qed.

Lemma filter_id {A} (P : A -> Prop) `{!forall x, Decision (P x)} (l : list A) :
  Forall P l -> filter P l = l.
Proof.
  induction 1 as [|x l Hx Hl IH]; [done|].
  rewrite filter_cons. destruct (decide (P x)); [by rewrite IH|done].
Qed.

Lemma window_length_le w c (s : Series) i : length (Pandas.window w c s i) <= w.
Proof.
  rewrite length_window. unfold Pandas.window_bounds. cbn [fst snd]. lia.
Qed.

Lemma half_of_window p : (2 * p + 1 - 1) / 2 = p.
Proof. replace (2 * p + 1 - 1) with (p * 2) by lia. apply Nat.div_mul. lia. Qed.

Lemma window_centred_full p (s : Series) i :
  length (Pandas.window (2 * p + 1) true s i) = 2 * p + 1 ->
  p <= i /\ i + p < length s /\
  Pandas.window (2 * p + 1) true s i = take (2 * p + 1) (drop (i - p) s).
Proof.
  unfold Pandas.window, Pandas.window_bounds. rewrite half_of_window.
  rewrite length_take, length_drop. intros H.
  assert (p <= i /\ i + p < length s) as [H1 H2] by lia.
  split; [done|]. split; [done|]. f_equal; [lia|f_equal; lia].
Qed.

Lemma window_centred p (s : Series) i :
  p <= i -> i + p < length s ->
  Pandas.window (2 * p + 1) true s i = take (2 * p + 1) (drop (i - p) s) /\
  length (take (2 * p + 1) (drop (i - p) s)) = 2 * p + 1.
Proof.
  intros H1 H2. unfold Pandas.window, Pandas.window_bounds. rewrite half_of_window.
  split.
  - f_equal; [lia|f_equal; lia].
  - rewrite length_take, length_drop. lia.
Qed.

Lemma isfinite_notnan (x : float) : isfinite x = true -> notnan x = true.
Proof. unfold isfinite. intros H. by apply andb_prop in H as [H _]. Qed.

(** Row [i] equals the centred rolling extremum exactly when it is an
    extremum of its full window of finite values. *)
Lemma extremum_flag (s : Series) p i h :
  s !! i = Some h ->
  (h =? Pandas.roll_at agg (2 * p + 1) true s i)%float = window_extremum beyond s p i.
Proof.
  intros Hi. pose proof (nth_lookup_Some _ _ nan _ Hi) as Hn.
  unfold window_extremum. rewrite Hn.
  set (W := take (2 * p + 1) (drop (i - p) s)).
  rewrite roll_at_observations. cbv zeta.
  destruct (Nat.leb_spec (2 * p + 1)
              (length (filter (fun x => isfinite x = true)
                         (Pandas.window (2 * p + 1) true s i))))
    as [Hfull|Hshort].
  - pose proof (window_length_le (2 * p + 1) true s i) as Hle.
    destruct (filter_all (fun x => isfinite x = true)
                (Pandas.window (2 * p + 1) true s i))
      as [Hobs Hfin]; [lia|].
    rewrite Hobs. rewrite Hobs in Hfull.
    destruct (window_centred_full p s i) as (H1 & H2 & HW); [lia|].
    rewrite HW in *. fold W in Hfin, Hfull |- *.
    assert (Hnn : Forall (fun x => notnan x = true) W).
    { eapply Forall_impl; [exact Hfin|]. apply isfinite_notnan. }
    destruct (Nat.leb_spec p i); [|lia].
    destruct (Nat.ltb_spec (i + p) (length s)); [|lia].
    cbn [andb].
    assert (HhW : h ∈ W).
    { apply list_elem_of_lookup. exists p. unfold W.
      rewrite lookup_take_lt by lia. rewrite lookup_drop.
      by replace (i - p + p) with i by lia. }
    destruct W as [|x t] eqn:EW; [simpl in Hfull; lia|].
    cbn [agg]. destruct (fold_pick_bound t x Hnn) as [Hin Hbound].
    set (r := fold_left pick t x) in *.
    assert (Hr : notnan r = true) by (rewrite Forall_forall in Hnn; by apply Hnn).
    assert (Hh : notnan h = true) by (rewrite Forall_forall in Hnn; by apply Hnn).
    destruct (forallb _ (x :: t)) eqn:Hall.
    + rewrite forallb_forall in Hall.
      apply beyond_total; [done|done| |by apply Hbound].
      specialize (Hall r). rewrite <- list_elem_of_In in Hall.
      specialize (Hall Hin). apply andb_prop in Hall as [_ Hall].
      by apply negb_true_iff in Hall.
    + destruct (h =? r)%float eqn:E; [|done].
      rewrite <- Hall. symmetry. apply forallb_forall. intros y Hy.
      apply list_elem_of_In in Hy.
      rewrite Forall_forall in Hfin. rewrite (Hfin y Hy). cbn [andb].
      rewrite (beyond_eqb _ _ _ E). by rewrite Hbound.
  - rewrite eqb_nan_r. symmetry.
    destruct (Nat.leb_spec p i); [|done].
    destruct (Nat.ltb_spec (i + p) (length s)); [|by rewrite andb_false_r].
    cbn [andb]. destruct (window_centred p s i) as [HW HL]; [done..|].
    rewrite HW in Hshort. fold W in Hshort, HL.
    destruct (forallb _ W) eqn:Hall; [|done].
    rewrite forallb_forall in Hall.
    assert (Forall (fun x => isfinite x = true) W).
    { apply Forall_forall. intros y Hy. apply list_elem_of_In in Hy.
      by destruct (andb_prop _ _ (Hall y Hy)). }
    rewrite filter_id in Hshort by done. lia.
Qed.

Lemma flagged_row (s : Series) p i h :
  s !! i = Some h ->
  WilliamsFractals.where_equal s (Pandas.roll agg (2 * p + 1) true s) !! i
  = Some (if window_extremum beyond s p i then h else nan).
Proof.
  intros Hi. pose proof (lookup_lt_Some _ _ _ Hi) as Hlt.
  unfold WilliamsFractals.where_equal, Pandas.map2.
  apply lookup_zip_with_Some. eexists h, _.
  split; [|split; [done|by apply roll_lookup]].
  by rewrite (extremum_flag s p i h Hi).
Qed.

End Extremum.

Section FractalFlags.

Import WilliamsFractals.

Lemma fractal_up_flag (p : Z) (high : Series) i h :
  (0 <= p)%Z -> high !! i = Some h ->
  fractal_up_of p high !! i
  = Some (if window_maximum high (Z.to_nat p) i then h else nan).
Proof.
  intros Hp Hi. unfold fractal_up_of.
  replace (Z.to_nat (2 * p + 1)) with (2 * Z.to_nat p + 1) by lia.
  apply (flagged_row (fun h y => (h <? y)%float)); [| | | | |done].
  - apply ltb_trans.
  - apply ltb_neg_trans.
  - apply ltb_irrefl.
  - apply eqb_ltb_l.
  - apply ltb_total.
Qed.

Lemma fractal_down_flag (p : Z) (low : Series) i l :
  (0 <= p)%Z -> low !! i = Some l ->
  fractal_down_of p low !! i
  = Some (if window_minimum low (Z.to_nat p) i then l else nan).
Proof.
  intros Hp Hi. unfold fractal_down_of.
  replace (Z.to_nat (2 * p + 1)) with (2 * Z.to_nat p + 1) by lia.
  apply (flagged_row (fun h y => (y <? h)%float)); [| | | | |done].
  - intros a b c H1 H2. by apply (ltb_trans c b a).
  - intros a b c Hb H1 H2. by apply (ltb_neg_trans c b a).
  - apply ltb_irrefl.
  - intros a b c. apply eqb_ltb_r.
  - intros a b Ha Hb H1 H2. by apply ltb_total.
Qed.

Lemma after_init_columns period (high low : Series) df :
  columns (after_init period high low df) !! "fractal_up"%string
  = Some (fractal_up_of period high) /\
  columns (after_init period high low df) !! "fractal_down"%string
  = Some (fractal_down_of period low).
Proof.
  unfold after_init. cbn [columns]. split.
  - rewrite lookup_insert_ne by done. apply lookup_insert_eq.
  - apply lookup_insert_eq.
Qed.

(** After construction the two columns written into the table flag exactly
    the window extrema: row [i] of fractal_up holds the bar's high when
    the [2 * period + 1] bars centred on it lie inside the table, all
    their highs are finite numbers (none missing, none infinite), and
    none of them is strictly higher -- a tie is flagged too -- and NaN
    otherwise; fractal_down likewise for the lows. *)
Theorem fractal_columns_flag_window_extrema (period : Z)
    (df df1 : DataFrame) (self : t) :
  __init__ period df = (df1, Ok self) ->
  exists high low fu fd : Series,
    columns df !! "high"%string = Some high /\
    columns df !! "low"%string = Some low /\
    columns df1 !! "fractal_up"%string = Some fu /\
    columns df1 !! "fractal_down"%string = Some fd /\
    length fu = nrows df /\ length fd = nrows df /\
    (forall i h, high !! i = Some h ->
       fu !! i = Some (if window_maximum high (Z.to_nat period) i then h else nan)) /\
    (forall i l, low !! i = Some l ->
       fd !! i = Some (if window_minimum low (Z.to_nat period) i then l else nan)).
Proof.
  intros Hinit.
  destruct (init_inv _ _ _ _ Hinit) as (high & low & Hh & Hl & Lh & Ll & Hw).
  rewrite (init_eq df period high low Hh Hl Lh Ll Hw) in Hinit.
  injection Hinit as <- _.
  destruct (after_init_columns period high low df) as [Hu Hd].
  exists high, low, (fractal_up_of period high), (fractal_down_of period low).
  split; [done|]. split; [done|]. split; [done|]. split; [done|].
  split; [by rewrite length_fractal_up_of|].
  split; [by rewrite length_fractal_down_of|].
  split.
  - intros i h Hi. apply fractal_up_flag; [lia|done].
  - intros i l Hi. apply fractal_down_flag; [lia|done].
Qed.

Lemma fractal_columns_flag_window_extrema_witness :
  exists fu fd : Series,
    columns (after_init 2 [1; 2; 5; 2; 1; 2; 3; 2; 1]%float
                          [0; 1; 2; 1; 0; -1; 1; 1; 0]%float nine_bars)
      !! "fractal_up"%string = Some fu /\
    fu !! 2 = Some 5%float /\ fu !! 3 = Some nan /\ fu !! 7 = Some nan.
Proof.
  destruct (fractal_columns_flag_window_extrema 2 nine_bars
              (after_init 2 [1; 2; 5; 2; 1; 2; 3; 2; 1]%float
                            [0; 1; 2; 1; 0; -1; 1; 1; 0]%float nine_bars)
              (self_of 2 [1; 2; 5; 2; 1; 2; 3; 2; 1]%float
                         [0; 1; 2; 1; 0; -1; 1; 1; 0]%float))
    as (high & low & fu & fd & Hh & Hl & Hu & Hd & _ & _ & Hup & _).
  - apply init_eq; reflexivity || lia.
  - injection Hh as <-.
    exists fu, fd. split; [exact Hu|].
    split; [|split].
    + apply (Hup 2 5%float). reflexivity.
    + apply (Hup 3 2%float). reflexivity.
    + apply (Hup 7 2%float). reflexivity.
Defined.

End FractalFlags.

(** ** Williams Fractals: the object and the table *)

Section FractalObject.

Import WilliamsFractals.

Lemma slice_last_five {A} (l : list A) :
  Py.slice_from l (-5) = drop (length l - 5) l.
Proof. unfold Py.slice_from. cbn [Z.ltb Z.compare]. f_equal. lia. Qed.

Lemma last_drop {A} (l : list A) k : k < length l -> last (drop k l) = last l.
Proof.
  intros Hk. rewrite !last_lookup, lookup_drop, length_drop.
  f_equal. lia.
Qed.

Lemma last_of_last_five (s : Series) : last (last_five s) = last (Pandas.dropna s).
Proof.
  unfold last_five. cbv zeta.
  destruct (Pandas.dropna s) as [|x l] eqn:E; [done|].
  apply last_drop. simpl. lia.
Qed.

Lemma length_last_five (s : Series) :
  length (last_five s) = Nat.min 5 (length (Pandas.dropna s)).
Proof. unfold last_five. cbv zeta. rewrite length_drop. lia. Qed.

(** What the constructed object holds, against the two columns it wrote:
    the recent lists are the last five flagged values of each column, the
    last fractal is the last element of the recent list ([None] exactly
    when the list is empty), and the counts reported by
    [get_current_values] are capped at five. *)
Theorem fractal_object_invariants (period : Z) (df df1 : DataFrame) (self : t) :
  __init__ period df = (df1, Ok self) ->
  exists fu fd : Series,
    columns df1 !! "fractal_up"%string = Some fu /\
    columns df1 !! "fractal_down"%string = Some fd /\
    recent_up_fractals self = last_five fu /\
    recent_down_fractals self = last_five fd /\
    last_up_fractal self = last (recent_up_fractals self) /\
    last_down_fractal self = last (recent_down_fractals self) /\
    up_fractal_count (get_current_values self)
      = Nat.min 5 (length (Pandas.dropna fu)) /\
    down_fractal_count (get_current_values self)
      = Nat.min 5 (length (Pandas.dropna fd)) /\
    (last_up_fractal self = None
       <-> up_fractal_count (get_current_values self) = 0) /\
    (last_down_fractal self = None
       <-> down_fractal_count (get_current_values self) = 0).
Proof.
  intros Hinit.
  destruct (init_inv _ _ _ _ Hinit) as (high & low & Hh & Hl & Lh & Ll & Hw).
  rewrite (init_eq df period high low Hh Hl Lh Ll Hw) in Hinit.
  injection Hinit as <- <-.
  destruct (after_init_columns period high low df) as [Hu Hd].
  exists (fractal_up_of period high), (fractal_down_of period low).
  split; [done|]. split; [done|].
  cbn [self_of get_current_values recent_up_fractals recent_down_fractals
       last_up_fractal last_down_fractal up_fractal_count down_fractal_count].
  unfold recent5, last_value. rewrite !slice_last_five.
  fold (last_five (fractal_up_of period high)).
  fold (last_five (fractal_down_of period low)).
  rewrite !last_of_last_five, !length_last_five.
  split; [done|]. split; [done|]. split; [done|]. split; [done|].
  split; [done|]. split; [done|].
  split.
  - destruct (Pandas.dropna (fractal_up_of period high)) as [|x l] eqn:E.
    + done.
    + split; [intros H; by rewrite last_cons in H; destruct (last l)|].
      cbn [length]. lia.
  - destruct (Pandas.dropna (fractal_down_of period low)) as [|x l] eqn:E.
    + done.
    + split; [intros H; by rewrite last_cons in H; destruct (last l)|].
      cbn [length]. lia.
Qed.

Lemma fractal_object_invariants_witness :
  let high := [1; 2; 5; 2; 1; 2; 3; 2; 1]%float in
  let low := [0; 1; 2; 1; 0; -1; 1; 1; 0]%float in
  let self := self_of 2 high low in
  recent_up_fractals self = [5; 3]%float /\
  last_up_fractal self = Some 3%float /\
  up_fractal_count (get_current_values self) = 2.
Proof.
  intros high low self.
  destruct (fractal_object_invariants 2 nine_bars
              (after_init 2 high low nine_bars) self)
    as (fu & fd & Hu & _ & Hr & _ & Hlast & _ & Hc & _).
  - apply init_eq; reflexivity || lia.
  - destruct (after_init_columns 2 high low nine_bars) as [Hu' _].
    rewrite Hu' in Hu. injection Hu as <-.
    split; [|split].
    + rewrite Hr. vm_compute. reflexivity.
    + rewrite Hlast, Hr. vm_compute. reflexivity.
    + rewrite Hc. vm_compute. reflexivity.
Defined.

(** *** A table shorter than the window *)

Lemma window_extremum_short beyond (s : Series) p i :
  length s < 2 * p + 1 -> window_extremum beyond s p i = false.
Proof.
  intros Hn. unfold window_extremum.
  destruct (Nat.leb_spec p i); [|done].
  destruct (Nat.ltb_spec (i + p) (length s)); [lia|done].
Qed.

Lemma dropna_all_nan (s : Series) :
  (forall i x, s !! i = Some x -> x = nan) -> Pandas.dropna s = [].
Proof.
  induction s as [|x s IH]; intros H; [done|].
  unfold Pandas.dropna. rewrite filter_cons.
  rewrite (H 0 x eq_refl). cbn.
  apply IH. intros i y Hy. by apply (H (S i)).
Qed.

Lemma tokens_all_nan (bars : list (float * float)) :
  Forall (fun b => fst b = nan /\ snd b = nan) bars ->
  flat_map bar_token bars = [].
Proof.
  induction 1 as [|[u d] bars [Hu Hd] _ IH]; [done|].
  cbn [flat_map]. cbn [fst snd] in Hu, Hd. subst. by rewrite IH.
Qed.

Lemma short_columns (p : Z) (s : Series) :
  (0 <= p)%Z -> (Z.of_nat (length s) < 2 * p + 1)%Z ->
  (forall i x, fractal_up_of p s !! i = Some x -> x = nan) /\
  (forall i x, fractal_down_of p s !! i = Some x -> x = nan).
Proof.
  intros Hp Hn. split; intros i x Hx.
  - pose proof (lookup_lt_Some _ _ _ Hx) as Hi.
    rewrite length_fractal_up_of in Hi.
    destruct (lookup_lt_is_Some_2 s i Hi) as [h Hh].
    rewrite (fractal_up_flag p s i h Hp Hh) in Hx.
    unfold window_maximum in Hx. rewrite window_extremum_short in Hx by lia.
    congruence.
  - pose proof (lookup_lt_Some _ _ _ Hx) as Hi.
    rewrite length_fractal_down_of in Hi.
    destruct (lookup_lt_is_Some_2 s i Hi) as [h Hh].
    rewrite (fractal_down_flag p s i h Hp Hh) in Hx.
    unfold window_minimum in Hx. rewrite window_extremum_short in Hx by lia.
    congruence.
Qed.

(** On a table with fewer than [2 * period + 1] bars (fewer than five
    with the default period) no bar is flagged: construction and [analyze]
    succeed, both last fractals are [None], both recent lists are empty,
    and the analysis has no position, no trend, no distances, a sequence
    of ten 'none' and no dominance. *)
Theorem fractals_short_table (period : Z) (price : float)
    (df df1 : DataFrame) (self : t) :
  __init__ period df = (df1, Ok self) ->
  (Z.of_nat (nrows df) < 2 * period + 1)%Z ->
  analyze self price df1
  = (df1, Ok (mkValues None None [] [] 0 0,
              mkAnalysis None None None (replicate 10 none)
                "No clear dominance in recent fractals")).
Proof.
  intros Hinit Hn.
  destruct (init_inv _ _ _ _ Hinit) as (high & low & Hh & Hl & Lh & Ll & Hw).
  rewrite (init_eq df period high low Hh Hl Lh Ll Hw) in Hinit.
  injection Hinit as <- <-.
  assert (Hp : (0 <= period)%Z) by lia.
  destruct (short_columns period high Hp) as [Hup _]; [lia|].
  destruct (short_columns period low Hp) as [_ Hdown]; [lia|].
  destruct (analyze_after_init df period high low (self_of period high low)
              price Hh Hl Lh Ll) as (tr & Htr & ->).
  assert (Hself : get_current_values (self_of period high low)
                  = mkValues None None [] [] 0 0).
  { unfold self_of, get_current_values, last_value, recent5. cbv zeta.
    cbn [last_up_fractal last_down_fractal recent_up_fractals recent_down_fractals].
    by rewrite !dropna_all_nan. }
  rewrite Hself in *.
  injection Htr as <-.
  assert (Hc : collected (fractal_up_of period high) (fractal_down_of period low) = []).
  { unfold collected. rewrite tokens_all_nan; [done|].
    apply Forall_forall. intros [u d] Hb.
    apply elem_of_take in Hb as (j & Hj & _).
    apply list_elem_of_lookup_2 in Hj. rewrite elem_of_reverse in Hj.
    apply list_elem_of_lookup in Hj as [k Hk].
    apply lookup_zip_with_Some in Hk as (x & y & [= -> ->] & Hx & Hy).
    split; [by apply (Hup k)|by apply (Hdown k)]. }
  rewrite Hc. reflexivity.
Qed.

Lemma fractals_short_table_witness :
  let high := [1; 3; 2; 1]%float in
  let low := [0; 1; 0; 0]%float in
  let df := mkDF 4 (<["high"%string := high]> (<["low"%string := low]> ∅)) in
  analyze (self_of 2 high low) 2 (after_init 2 high low df)
  = (after_init 2 high low df,
     Ok (mkValues None None [] [] 0 0,
         mkAnalysis None None None (replicate 10 none)
           "No clear dominance in recent fractals")).
Proof.
  intros high low df.
  apply (fractals_short_table 2 2 df).
  - apply init_eq; reflexivity || lia.
  - simpl. lia.
Defined.

(** *** Two objects on one table *)

Lemma after_init_reads period (high low : Series) df :
  columns df !! "high"%string = Some high ->
  columns df !! "low"%string = Some low ->
  columns (after_init period high low df) !! "high"%string = Some high /\
  columns (after_init period high low df) !! "low"%string = Some low /\
  nrows (after_init period high low df) = nrows df.
Proof.
  intros Hh Hl. unfold after_init. cbn [columns nrows].
  rewrite !lookup_insert_ne by done. done.
Qed.

Lemma after_init_twice pA pB (high low : Series) df :
  after_init pB high low (after_init pA high low df) = after_init pB high low df.
Proof.
  unfold after_init. cbn [columns nrows]. f_equal.
  rewrite (insert_insert_ne _ "fractal_up"%string "fractal_down"%string) by done.
  by rewrite !insert_insert_eq.
Qed.

(** The fractal columns belong to the table, not to the object.  When a
    second object is constructed on the table of a first one, it replaces
    the two columns: the table is then the one the second object alone
    would have produced, and the first object's [analyze] still succeeds,
    with its own values, position, trend and distances, but with the
    sequence and the dominance of the second object's columns.
    Constructing with the same period again changes nothing. *)
Theorem fractal_objects_share_columns (pA pB : Z) (price : float)
    (df dfA dfB : DataFrame) (a b : t) :
  __init__ pA df = (dfA, Ok a) ->
  __init__ pB dfA = (dfB, Ok b) ->
  __init__ pB df = (dfB, Ok b) /\
  (pA = pB -> dfB = dfA /\ b = a) /\
  exists va aa vb ab,
    analyze a price dfB = (dfB, Ok (va, aa)) /\
    analyze b price dfB = (dfB, Ok (vb, ab)) /\
    va = get_current_values a /\
    position aa = position_of va price /\
    distances aa = distances_of va price /\
    trend_of va = Ok (fractal_trend aa) /\
    sequence aa = sequence ab /\
    dominance aa = dominance ab.
Proof.
  intros HA HB.
  destruct (init_inv _ _ _ _ HA) as (high & low & Hh & Hl & Lh & Ll & Hw).
  rewrite (init_eq df pA high low Hh Hl Lh Ll Hw) in HA.
  injection HA as <- <-.
  destruct (after_init_reads pA high low df Hh Hl) as (Hh' & Hl' & Hn').
  destruct (init_inv _ _ _ _ HB) as (high' & low' & Hh2 & Hl2 & _ & _ & Hw').
  rewrite Hh' in Hh2. rewrite Hl' in Hl2.
  injection Hh2 as <-. injection Hl2 as <-.
  rewrite (init_eq _ pB high low Hh' Hl') in HB by (rewrite ?Hn'; done).
  rewrite after_init_twice in HB. injection HB as <- <-.
  split; [by apply init_eq|].
  split.
  - by intros ->.
  - destruct (analyze_after_init df pB high low (self_of pA high low) price
                Hh Hl Lh Ll) as (trA & HtrA & HanA).
    destruct (analyze_after_init df pB high low (self_of pB high low) price
                Hh Hl Lh Ll) as (trB & HtrB & HanB).
    eexists _, _, _, _. split; [exact HanA|]. split; [exact HanB|].
    cbn [position distances fractal_trend sequence dominance]. done.
Qed.

Lemma fractal_objects_share_columns_witness :
  let dfB := after_init 1 zigzag_highs zigzag_lows zigzag_bars in
  __init__ 1 zigzag_bars = (dfB, Ok (self_of 1 zigzag_highs zigzag_lows)) /\
  exists va aa vb ab,
    analyze (self_of 2 zigzag_highs zigzag_lows) 12 dfB = (dfB, Ok (va, aa)) /\
    analyze (self_of 1 zigzag_highs zigzag_lows) 12 dfB = (dfB, Ok (vb, ab)) /\
    sequence aa = sequence ab.
Proof.
  intros dfB.
  destruct (fractal_objects_share_columns 2 1 12 zigzag_bars
              (after_init 2 zigzag_highs zigzag_lows zigzag_bars) dfB
              (self_of 2 zigzag_highs zigzag_lows)
              (self_of 1 zigzag_highs zigzag_lows))
    as (H1 & _ & va & aa & vb & ab & Ha & Hb & _ & _ & _ & _ & Hs & _).
  - apply init_eq; reflexivity || lia.
  - unfold dfB. rewrite <- (after_init_twice 2 1).
    apply init_eq; reflexivity || lia.
  - split; [exact H1|]. by exists va, aa, vb, ab.
Defined.

(** On [zigzag_bars] the period-2 object reports one up-fractal while it
    is alone on the table, and the four up-fractals of a period-1 object
    once that one has been constructed. *)
Example second_object_changes_first_report :
  let a := self_of 2 zigzag_highs zigzag_lows in
  match analyze a 12 (after_init 2 zigzag_highs zigzag_lows zigzag_bars),
        analyze a 12 (after_init 1 zigzag_highs zigzag_lows zigzag_bars) with
  | (_, Ok (_, alone)), (_, Ok (_, shared)) =>
      sequence alone = up :: replicate 9 none /\
      sequence shared = [up; up; up; up] ++ replicate 6 none
  | _, _ => False
  end.
Proof. vm_compute. split; reflexivity. Qed.

End FractalObject.

(** ** Ichimoku: what [analyze] returns or raises *)

Section IchimokuOutcome.

Import Ichimoku.

Lemma index_in_range {A} (l : list A) (i : Z) :
  (- Z.of_nat (length l) <= i < Z.of_nat (length l))%Z ->
  exists x, l !! iloc_row (length l) i = Some x /\ Py.index l i = Ok x.
Proof.
  intros Hi. unfold Py.index, iloc_row.
  set (n := Z.of_nat (length l)) in *.
  assert (Hrow : Z.to_nat (i mod n) = Z.to_nat (if (i <? 0)%Z then n + i else i)%Z).
  { f_equal. destruct (Z.ltb_spec i 0).
    - symmetry. apply (Z.mod_unique _ _ (-1)); lia.
    - apply Z.mod_small. lia. }
  rewrite Hrow.
  destruct (lookup_lt_is_Some_2 l
              (Z.to_nat (if (i <? 0)%Z then n + i else i)%Z)) as [x Hx].
  { subst n. destruct (Z.ltb_spec i 0); lia. }
  exists x. split; [done|]. rewrite Hx.
  destruct (Z.ltb_spec i 0).
  - destruct (Z.ltb_spec (n + i) 0); [lia|].
    destruct (Z.leb_spec n (n + i)); [lia|]. done.
  - destruct (Z.ltb_spec i 0); [lia|].
    destruct (Z.leb_spec n i); [lia|]. done.
Qed.

Lemma index_out_of_range {A} (l : list A) (i : Z) :
  (i < - Z.of_nat (length l) \/ Z.of_nat (length l) <= i)%Z ->
  Py.index l i = Raise IndexError.
Proof.
  intros Hi. unfold Py.index.
  destruct (Z.ltb_spec i 0).
  - destruct (Z.ltb_spec (Z.of_nat (length l) + i) 0); [done|lia].
  - destruct (Z.ltb_spec i 0); [lia|].
    destruct (Z.leb_spec (Z.of_nat (length l)) i); [done|lia].
Qed.

Lemma last_row (n : nat) : 1 <= n -> iloc_row n (-1) = n - 1.
Proof.
  intros Hn. unfold iloc_row.
  replace (-1 mod Z.of_nat n)%Z with (Z.of_nat n - 1)%Z; [lia|].
  apply (Z.mod_unique _ _ (-1)); lia.
Qed.

Lemma displaced_row (n : nat) (d : Z) :
  (1 <= d < Z.of_nat n)%Z -> iloc_row n (- d) = n - Z.to_nat d.
Proof.
  intros Hd. unfold iloc_row.
  replace (- d mod Z.of_nat n)%Z with (Z.of_nat n - d)%Z; [lia|].
  apply (Z.mod_unique _ _ (-1)); lia.
Qed.

(** The values read by [get_current_values] when every read is in range. *)
Lemma current_values_in_range (self : t) (n : nat) :
  length (tenkan self) = n -> length (kijun self) = n ->
  length (senkou_span_a self) = n -> length (senkou_span_b self) = n ->
  1 <= n ->
  (- Z.of_nat n < displacement self < Z.of_nat n)%Z ->
  exists tk kj ca cb fa fb,
    get_current_values self = Ok (mkValues tk kj (Some ca) (Some cb) fa fb) /\
    tenkan self !! (n - 1) = Some tk /\
    kijun self !! (n - 1) = Some kj /\
    senkou_span_a self !! iloc_row n (- displacement self) = Some ca /\
    senkou_span_b self !! iloc_row n (- displacement self) = Some cb /\
    senkou_span_a self !! (n - 1) = Some fa /\
    senkou_span_b self !! (n - 1) = Some fb.
Proof.
  intros L1 L2 L3 L4 Hn Hd.
  destruct (index_in_range (tenkan self) (-1)) as (tk & Htk & Etk); [lia|].
  destruct (index_in_range (kijun self) (-1)) as (kj & Hkj & Ekj); [lia|].
  destruct (index_in_range (senkou_span_a self) (-1)) as (fa & Hfa & Efa); [lia|].
  destruct (index_in_range (senkou_span_b self) (-1)) as (fb & Hfb & Efb); [lia|].
  destruct (index_in_range (senkou_span_a self) (- displacement self))
    as (ca & Hca & Eca); [lia|].
  destruct (index_in_range (senkou_span_b self) (- displacement self))
    as (cb & Hcb & Ecb); [lia|].
  rewrite L1 in Htk. rewrite L2 in Hkj. rewrite L3 in Hfa, Hca.
  rewrite L4 in Hfb, Hcb. rewrite last_row in Htk, Hkj, Hfa, Hfb by done.
  exists tk, kj, ca, cb, fa, fb. split; [|done].
  unfold get_current_values, displaced, Pandas.iloc.
  rewrite Etk, Ekj, Efa, Efb, L3, L4. cbn [rbind].
  destruct (Z.ltb_spec (displacement self) (Z.of_nat n)); [|lia].
  by rewrite Eca, Ecb.
Qed.

Lemma analyze_in_range (self : t) (n : nat) (price : float) :
  length (tenkan self) = n -> length (kijun self) = n ->
  length (senkou_span_a self) = n -> length (senkou_span_b self) = n ->
  1 <= n ->
  (- Z.of_nat n < displacement self < Z.of_nat n)%Z ->
  exists v a,
    analyze self price = Ok (v, a) /\
    senkou_span_a self !! iloc_row n (- displacement self) = current_span_a v /\
    senkou_span_b self !! iloc_row n (- displacement self) = current_span_b v /\
    tenkan self !! (n - 1) = Some (v_tenkan v) /\
    kijun self !! (n - 1) = Some (v_kijun v) /\
    senkou_span_a self !! (n - 1) = Some (future_span_a v) /\
    senkou_span_b self !! (n - 1) = Some (future_span_b v).
Proof.
  intros L1 L2 L3 L4 Hn Hd.
  destruct (current_values_in_range self n L1 L2 L3 L4 Hn Hd)
    as (tk & kj & ca & cb & fa & fb & Hv & H1 & H2 & H3 & H4 & H5 & H6).
  unfold analyze. rewrite Hv. cbn [rbind Py.max2 Py.min2].
  eexists _, _. split; [reflexivity|]. done.
Qed.

Lemma analyze_empty (self : t) (price : float) :
  length (tenkan self) = 0 -> analyze self price = Raise IndexError.
Proof.
  intros L1. unfold analyze, get_current_values, Pandas.iloc.
  rewrite index_out_of_range by lia. done.
Qed.

Lemma analyze_cloud_none (self : t) (n : nat) (price : float) :
  length (tenkan self) = n -> length (kijun self) = n ->
  length (senkou_span_a self) = n -> length (senkou_span_b self) = n ->
  1 <= n -> (Z.of_nat n <= displacement self)%Z ->
  analyze self price = Raise TypeError.
Proof.
  intros L1 L2 L3 L4 Hn Hd.
  destruct (index_in_range (tenkan self) (-1)) as (tk & _ & Etk); [lia|].
  destruct (index_in_range (kijun self) (-1)) as (kj & _ & Ekj); [lia|].
  destruct (index_in_range (senkou_span_a self) (-1)) as (fa & _ & Efa); [lia|].
  destruct (index_in_range (senkou_span_b self) (-1)) as (fb & _ & Efb); [lia|].
  unfold analyze, get_current_values, Pandas.iloc.
  rewrite Etk, Ekj, Efa, Efb. cbn [rbind].
  rewrite !displaced_short by lia. done.
Qed.

Lemma analyze_beyond_start (self : t) (n : nat) (price : float) :
  length (tenkan self) = n -> length (kijun self) = n ->
  length (senkou_span_a self) = n ->
  1 <= n -> (displacement self <= - Z.of_nat n)%Z ->
  analyze self price = Raise IndexError.
Proof.
  intros L1 L2 L3 Hn Hd.
  destruct (index_in_range (tenkan self) (-1)) as (tk & _ & Etk); [lia|].
  destruct (index_in_range (kijun self) (-1)) as (kj & _ & Ekj); [lia|].
  unfold analyze, get_current_values, displaced, Pandas.iloc.
  rewrite Etk, Ekj, L3. cbn [rbind].
  destruct (Z.ltb_spec (displacement self) (Z.of_nat n)); [|lia].
  rewrite index_out_of_range by lia. done.
Qed.

(** What [analyze] does after a successful construction on a table of [n]
    bars with displacement [d], case by case: [IndexError] on an empty
    table; [TypeError] when [1 <= n <= d] (the cloud fields are [None]);
    [IndexError] when [d <= -n]; otherwise a result whose current-cloud
    fields are the two spans at row [iloc_row n (-d)] -- row [n - d] for
    [1 <= d < n], and row 0, the FIRST bar, for [d = 0] -- and whose other
    fields are read in the last row. *)
Theorem ichimoku_analyze_outcome (tp kp sp d : Z) (price : float)
    (df df1 : DataFrame) (self : t) (high low : Series) :
  columns df !! "high"%string = Some high ->
  columns df !! "low"%string = Some low ->
  length high = nrows df ->
  length low = nrows df ->
  __init__ tp kp sp d df = (df1, Ok self) ->
  let n := nrows df in
  (n = 0 -> analyze self price = Raise IndexError) /\
  (1 <= n -> (Z.of_nat n <= d)%Z -> analyze self price = Raise TypeError) /\
  (1 <= n -> (d <= - Z.of_nat n)%Z -> analyze self price = Raise IndexError) /\
  (1 <= n -> (- Z.of_nat n < d < Z.of_nat n)%Z ->
     exists v a,
       analyze self price = Ok (v, a) /\
       senkou_span_a self !! iloc_row n (- d) = current_span_a v /\
       senkou_span_b self !! iloc_row n (- d) = current_span_b v /\
       tenkan self !! (n - 1) = Some (v_tenkan v) /\
       kijun self !! (n - 1) = Some (v_kijun v) /\
       senkou_span_a self !! (n - 1) = Some (future_span_a v) /\
       senkou_span_b self !! (n - 1) = Some (future_span_b v)) /\
  (1 <= n -> d = 0%Z ->
     exists v a,
       analyze self price = Ok (v, a) /\
       senkou_span_a self !! 0 = current_span_a v /\
       senkou_span_b self !! 0 = current_span_b v).
Proof.
  intros Hh Hl Lh Ll Hinit n.
  destruct (init_lines_inv _ _ _ _ _ _ _ Hinit)
    as (high' & low' & Hh' & Hl' & _ & _ & _ & _ & ->).
  assert (high' = high) as -> by congruence.
  assert (low' = low) as -> by congruence.
  destruct (length_lines tp kp sp d high low) as (L1 & L2 & L3 & L4); [lia|].
  cbv zeta in L1, L2, L3, L4. rewrite Lh in L1, L2, L3, L4. fold n in L1, L2, L3, L4.
  set (self := lines_of tp kp sp d high low) in *.
  split; [|split; [|split; [|split]]].
  - intros Hn. apply analyze_empty. lia.
  - intros Hn Hd. by apply (analyze_cloud_none self n).
  - intros Hn Hd. by apply (analyze_beyond_start self n).
  - intros Hn Hd. by apply (analyze_in_range self n).
  - intros Hn ->.
    destruct (analyze_in_range self n price L1 L2 L3 L4 Hn)
      as (v & a & Ha & H1 & H2 & _); [change (displacement self) with 0%Z; lia|].
    exists v, a. done.
Qed.

Lemma ichimoku_analyze_outcome_witness :
  let high := [1; 2; 5; 2; 1; 2; 3; 2; 1]%float in
  let low := [0; 1; 2; 1; 0; -1; 1; 1; 0]%float in
  let self := lines_of 2 3 4 0 high low in
  exists v a,
    analyze self 2 = Ok (v, a) /\
    senkou_span_a self !! 0 = current_span_a v /\
    senkou_span_b self !! 0 = current_span_b v.
Proof.
  intros high low self.
  destruct (ichimoku_analyze_outcome 2 3 4 0 2 nine_bars nine_bars self
              high low eq_refl eq_refl eq_refl eq_refl) as (_ & _ & _ & _ & H).
  - apply init_lines; reflexivity || lia.
  - apply H; [simpl; lia|reflexivity].
Defined.

End IchimokuOutcome.

(** ** Ichimoku: signals when a line has no value yet *)

Section IchimokuMissing.

Import Ichimoku.

Lemma span_a_no_value (tp kp sp d : Z) (high low : Series) :
  no_value_prefix (Z.max tp kp) (senkou_span_a (lines_of tp kp sp d high low)).
Proof.
  cbn [lines_of senkou_span_a].
  intros i Hi Hlen. apply half_sum_no_value; [|done].
  rewrite !length_half_sum, !length_roll in Hlen.
  destruct (Z.max_spec tp kp) as [[_ E]|[_ E]]; rewrite E in Hi.
  - right. apply line_no_value; [done|].
    rewrite length_half_sum, !length_roll. lia.
  - left. apply line_no_value; [done|].
    rewrite length_half_sum, !length_roll. lia.
Qed.

Lemma against_cloud_nan (price : float) : against_cloud price nan nan = NEUTRAL.
Proof. unfold against_cloud. by rewrite fgt_nan_r, ltb_nan_r. Qed.

(** [max(a, b)] and [min(a, b)] with a missing value: a NaN first argument
    is kept, a NaN second argument is never chosen. *)
Lemma cloud_of_nan_a (cb : float) :
  Py.max2 (Some nan) (Some cb) = Ok nan /\ Py.min2 (Some nan) (Some cb) = Ok nan.
Proof. unfold Py.max2, Py.min2. by rewrite fgt_nan_r, ltb_nan_r. Qed.

Lemma cloud_of_nan_b (ca : float) :
  Py.max2 (Some ca) (Some nan) = Ok ca /\ Py.min2 (Some ca) (Some nan) = Ok ca.
Proof. unfold Py.max2, Py.min2. by rewrite fgt_nan_l, ltb_nan_l. Qed.

(** After a successful construction with [1 <= d < n] on a table of [n]
    bars, [analyze] returns, and a line that has no value yet (NaN) sends
    the comparisons to their [else] branch: the TK cross is BEARISH while
    the table is shorter than the longer of the two periods, the future
    cloud is BEARISH while it is shorter than the longest period, the
    price-versus-cloud signal is NEUTRAL whatever the price while span A
    has no value at the displaced row, and while only span B has none the
    cloud is the single level of span A. *)
Theorem ichimoku_signals_without_values (tp kp sp d : Z) (price : float)
    (df df1 : DataFrame) (self : t) (high low : Series) :
  columns df !! "high"%string = Some high ->
  columns df !! "low"%string = Some low ->
  length high = nrows df ->
  length low = nrows df ->
  __init__ tp kp sp d df = (df1, Ok self) ->
  (1 <= d < Z.of_nat (nrows df))%Z ->
  let n := Z.of_nat (nrows df) in
  exists v a,
    analyze self price = Ok (v, a) /\
    (n < Z.max tp kp -> tk_cross a = BEARISH)%Z /\
    (n < Z.max (Z.max tp kp) sp -> future_cloud a = BEARISH)%Z /\
    (n - d + 1 < Z.max tp kp -> price_vs_cloud a = NEUTRAL)%Z /\
    (n - d + 1 < sp ->
       forall ca, current_span_a v = Some ca ->
                  price_vs_cloud a = against_cloud price ca ca)%Z.
Proof.
  intros Hh Hl Lh Ll Hinit Hd n.
  destruct (init_lines_inv _ _ _ _ _ _ _ Hinit)
    as (high' & low' & Hh' & Hl' & _ & _ & _ & _ & ->).
  assert (high' = high) as -> by congruence.
  assert (low' = low) as -> by congruence.
  destruct (length_lines tp kp sp d high low) as (L1 & L2 & L3 & L4); [lia|].
  cbv zeta in L1, L2, L3, L4. rewrite Lh in L1, L2, L3, L4.
  pose proof (line_no_value tp high low) as Ntk.
  pose proof (line_no_value kp high low) as Nkj.
  pose proof (span_a_no_value tp kp sp d high low) as Nsa.
  pose proof (line_no_value sp high low) as Nsb.
  set (self := lines_of tp kp sp d high low) in *.
  change (no_value_prefix tp (tenkan self)) in Ntk.
  change (no_value_prefix kp (kijun self)) in Nkj.
  change (no_value_prefix sp (senkou_span_b self)) in Nsb.
  destruct (current_values_in_range self (nrows df) L1 L2 L3 L4)
    as (tk & kj & ca & cb & fa & fb & Hv & H1 & H2 & H3 & H4 & H5 & H6);
    [lia|change (displacement self) with d; lia|].
  change (displacement self) with d in H3, H4.
  rewrite displaced_row in H3, H4 by lia.
  unfold analyze. rewrite Hv. cbn [rbind Py.max2 Py.min2].
  eexists _, _. split; [reflexivity|].
  cbn [tk_cross future_cloud price_vs_cloud current_span_a v_tenkan v_kijun
       future_span_a future_span_b].
  fold (against_cloud price (if (cb <? ca)%float then cb else ca)
                            (if fgt cb ca then cb else ca)).
  split; [|split; [|split]].
  - intros Hn. destruct (Z.max_spec tp kp) as [[_ E]|[_ E]]; rewrite E in Hn.
    + rewrite Nkj in H2 by lia. injection H2 as <-. by rewrite fgt_nan_r.
    + rewrite Ntk in H1 by lia. injection H1 as <-. by rewrite fgt_nan_l.
  - intros Hn.
    destruct (Z.max_spec (Z.max tp kp) sp) as [[_ E]|[_ E]]; rewrite E in Hn.
    + rewrite Nsb in H6 by lia. injection H6 as <-. by rewrite fgt_nan_r.
    + rewrite Nsa in H5 by lia. injection H5 as <-. by rewrite fgt_nan_l.
  - intros Hn. rewrite Nsa in H3 by lia. injection H3 as <-.
    rewrite fgt_nan_r, ltb_nan_r. apply against_cloud_nan.
  - intros Hn ca' [= <-]. rewrite Nsb in H4 by lia. injection H4 as <-.
    by rewrite fgt_nan_l, ltb_nan_l.
Qed.

Lemma ichimoku_signals_without_values_witness :
  let high := [1; 2; 5; 2; 1; 2; 3; 2; 1]%float in
  let low := [0; 1; 2; 1; 0; -1; 1; 1; 0]%float in
  exists v a,
    analyze (lines_of 2 3 12 4 high low) 100 = Ok (v, a) /\
    future_cloud a = BEARISH /\
    current_span_a v = Some 0.5%float /\
    price_vs_cloud a = against_cloud 100 0.5 0.5.
Proof.
  intros high low.
  destruct (ichimoku_signals_without_values 2 3 12 4 100 nine_bars nine_bars
              (lines_of 2 3 12 4 high low) high low
              eq_refl eq_refl eq_refl eq_refl)
    as (v & a & Ha & _ & Hf & _ & Hc).
  - apply init_lines; reflexivity || lia.
  - simpl. lia.
  - exists v, a. split; [exact Ha|].
    assert (Hca : current_span_a v = Some 0.5%float).
    { vm_compute in Ha. by injection Ha as <- _. }
    split; [apply Hf; simpl; lia|]. split; [exact Hca|].
    apply Hc; [simpl; lia|exact Hca].
Defined.

End IchimokuMissing.

(** ** RSI: construction and [analyze] *)

Section RSIFacts.

Lemma rsi_init_inv len st sl up mid lo df df1 self :
  RSI.__init__ len st sl up mid lo df = (df1, Ok self) ->
  exists close : Series,
    columns df !! "close"%string = Some close /\
    df1 = df /\
    self = RSI.mk len st sl up mid lo (rsi_line len close)
             (smoothed_line st sl (rsi_line len close)).
Proof.
  cbv beta zeta delta [RSI.__init__ RSI.calculate M_bind get_col lift M_ret].
  destruct (columns df !! "close"%string) as [close|] eqn:Hc; [|intros [=]].
  unfold RSI.one_over, Py.truediv. destruct (len =? 0)%Z; [intros [=]|].
  destruct (isinf (Py.quotient 1 len)); [intros [=]|].
  unfold Pandas.com_of_alpha.
  destruct (_ || _); [intros [=]|]. cbn [rbind].
  fold (rsi_line len close). unfold smoothed_line.
  destruct (String.eqb st "SMA").
  - unfold lift, Pandas.rolling_mean, Pandas.check_window.
    destruct (sl <? 0)%Z; [intros [=]|]. cbn [rbind].
    intros [= <- <-]. by exists close.
  - destruct (String.eqb st "EMA").
    + unfold lift, Pandas.com_of_span, Py.truediv.
      destruct (sl <? 1)%Z; [intros [=]|].
      change (2 =? 0)%Z with false. cbv iota.
      destruct (isinf (Py.quotient (sl - 1) 2)); [intros [=]|]. cbn [rbind].
      intros [= <- <-]. by exists close.
    + unfold M_ret. intros [= <- <-]. by exists close.
Qed.

Lemma length_diff (s : Series) : length (Pandas.diff s) = length s.
Proof.
  destruct s as [|x t]; [done|]. cbn [Pandas.diff length]. f_equal.
  unfold Pandas.map2. rewrite length_zip_with. cbn [length]. lia.
Qed.

Lemma length_ewm_run alpha st (s : Series) :
  length (Pandas.ewm_run alpha st s) = length s.
Proof. revert st. induction s as [|x s IH]; intros st; [done|]. simpl. by rewrite IH. Qed.

Lemma length_ewm_mean com (s : Series) : length (Pandas.ewm_mean com s) = length s.
Proof.
  destruct s as [|x s]; [done|].
  cbn [Pandas.ewm_mean Pandas.prep_values map length].
  by rewrite length_ewm_run, length_map.
Qed.

Lemma length_rsi_line len (close : Series) :
  length (rsi_line len close) = length close.
Proof.
  unfold rsi_line, RSI.rsi_of, Pandas.map2. cbv zeta.
  rewrite length_zip_with, !length_ewm_mean.
  unfold RSI.gains_of, RSI.losses_of. rewrite !length_map, length_diff. lia.
Qed.

Lemma length_smoothed_line st sl (rsi : Series) :
  length (smoothed_line st sl rsi) = length rsi.
Proof.
  unfold smoothed_line.
  destruct (String.eqb st "SMA"); [apply length_roll_mean|].
  destruct (String.eqb st "EMA"); [apply length_ewm_mean|done].
Qed.

(** Row 0 of the RSI never has a value: the first difference is NaN, so
    the first gain is 0 and the first loss is -0, and 0 / -0 is NaN. *)
Lemma rsi_line_first len (close : Series) :
  0 < length close -> rsi_line len close !! 0 = Some nan.
Proof.
  destruct close as [|c cs]; [simpl; lia|]. intros _. reflexivity.
Qed.

Lemma ewm_mean_first com (s : Series) x :
  s !! 0 = Some x -> Pandas.ewm_mean com s !! 0 = Some (Pandas.prep_value x).
Proof. destruct s as [|y s]; [done|]. by intros [= ->]. Qed.

Lemma observations_with_nan (s : Series) i :
  s !! i = Some nan ->
  length (filter (fun x => isfinite x = true) s) < length s.
Proof.
  revert i. induction s as [|x s IH]; intros i Hi; [done|].
  rewrite filter_cons.
  destruct i as [|i].
  - injection Hi as ->.
    destruct (decide (isfinite nan = true)) as [E|_]; [by vm_compute in E|].
    pose proof (length_filter (fun x => isfinite x = true) s). cbn [length]. lia.
  - specialize (IH i Hi).
    destruct (decide (isfinite x = true)); cbn [length]; lia.
Qed.

(** A trailing window that reaches back to a NaN in row 0 gives NaN. *)
Lemma roll_at_first_nan agg w (s : Series) i :
  s !! 0 = Some nan -> i < w -> i < length s ->
  Pandas.roll_at agg w false s i = nan.
Proof.
  intros H0 Hi Hn. rewrite roll_at_observations. cbv zeta.
  assert (HW : Pandas.window w false s i = take (i + 1) s).
  { unfold Pandas.window, Pandas.window_bounds.
    replace (Nat.min (i + 1 + 0 - w) (length s)) with 0 by lia.
    replace (Nat.min (i + 1 + 0) (length s) - 0) with (i + 1) by lia.
    by rewrite drop_0. }
  rewrite HW.
  assert (length (filter (fun x => isfinite x = true) (take (i + 1) s))
          < length (take (i + 1) s)).
  { apply (observations_with_nan _ 0). rewrite lookup_take_lt by lia. done. }
  rewrite length_take in H.
  destruct (Nat.leb_spec w
              (length (filter (fun x => isfinite x = true) (take (i + 1) s))));
    [lia|done].
Qed.

Lemma roll_mean_first_nan w (s : Series) i :
  s !! 0 = Some nan -> i < w -> i < length s ->
  Pandas.roll_mean w false s !! i = Some nan.
Proof.
  intros H0 Hi Hn. apply roll_mean_few; [done|]. left.
  assert (HW : Pandas.window w false s i = take (i + 1) s).
  { unfold Pandas.window, Pandas.window_bounds.
    replace (Nat.min (i + 1 + 0 - w) (length s)) with 0 by lia.
    replace (Nat.min (i + 1 + 0) (length s) - 0) with (i + 1) by lia.
    by rewrite drop_0. }
  rewrite HW.
  assert (length (filter (fun x => isfinite x = true) (take (i + 1) s))
          < length (take (i + 1) s)).
  { apply (observations_with_nan _ 0). rewrite lookup_take_lt by lia. done. }
  rewrite length_take in H. lia.
Qed.

End RSIFacts.

Section RSIAnalyze.

Lemma last_is_last_row {A} (l : list A) : last l = l !! (length l - 1).
Proof. rewrite last_lookup. f_equal. lia. Qed.

(** [RSI.analyze] on an object whose two series have [n >= 1] rows. *)
Lemma rsi_analyze_ok (self : RSI.t) (n : nat) :
  length (RSI.rsi self) = n -> length (RSI.smoothed_rsi self) = n -> 1 <= n ->
  exists r s,
    last (RSI.rsi self) = Some r /\
    last (RSI.smoothed_rsi self) = Some s /\
    RSI.analyze self
    = Ok (RSI.mkValues r s (RSI.upper_limit self) (RSI.middle_limit self) (RSI.lower_limit self),
          RSI.mkAnalysis
            (if (RSI.upper_limit self <=? s)%float then OVERBOUGHT
             else if (s <=? RSI.lower_limit self)%float then OVERSOLD
             else NEUTRAL)
            (if fgt s (RSI.middle_limit self) then BULLISH else BEARISH)
            (if 5 <=? n
             then Some (if fgt s (nth (n - 5) (RSI.smoothed_rsi self) nan)
                        then RISING else FALLING)
             else None)).
Proof.
  intros L1 L2 Hn.
  destruct (index_in_range (RSI.rsi self) (-1)) as (r & Hr & Er); [lia|].
  destruct (index_in_range (RSI.smoothed_rsi self) (-1)) as (s & Hs & Es); [lia|].
  rewrite L1, last_row in Hr by done. rewrite L2, last_row in Hs by done.
  exists r, s. rewrite !last_is_last_row, L1, L2.
  split; [done|]. split; [done|].
  unfold RSI.analyze, RSI.get_current_values, Pandas.iloc, Pandas.iloc_from.
  rewrite Er, Es. cbn [rbind RSI.v_smoothed_rsi].
  rewrite slice_last_five, L2, length_drop, L2.
  destruct (Nat.leb_spec 5 n) as [H5|H5].
  - destruct (Nat.leb_spec 5 (n - (n - 5))); [|lia].
    destruct (index_in_range (drop (n - 5) (RSI.smoothed_rsi self)) (-1))
      as (x & Hx & ->); [rewrite length_drop; lia|].
    destruct (index_in_range (drop (n - 5) (RSI.smoothed_rsi self)) 0)
      as (y & Hy & ->); [rewrite length_drop; lia|].
    rewrite length_drop, L2, lookup_drop in Hx, Hy.
    rewrite last_row in Hx by lia.
    replace (n - 5 + (n - (n - 5) - 1)) with (n - 1) in Hx by lia.
    unfold iloc_row in Hy. rewrite Z.mod_0_l in Hy by lia.
    rewrite Nat.add_0_r in Hy. cbn [Z.to_nat] in Hy.
    replace (n - 5 + 0) with (n - 5) in Hy by lia.
    assert (x = s) as -> by congruence.
    rewrite (nth_lookup_Some _ _ nan _ Hy). reflexivity.
  - destruct (Nat.leb_spec 5 (n - (n - 5))); [lia|]. reflexivity.
Qed.

(** Whatever the smoothing, [RSI.analyze] after a successful construction
    raises [IndexError] on an empty table and returns otherwise; its two
    current values are the last rows of the two series; the trend is
    absent on fewer than five rows and otherwise compares the last
    smoothed value with the one four rows before it. *)
Theorem rsi_analyze_outcome (len : Z) (st : string) (sl : Z) (up mid lo : float)
    (df df1 : DataFrame) (self : RSI.t) :
  RSI.__init__ len st sl up mid lo df = (df1, Ok self) ->
  exists close : Series,
    columns df !! "close"%string = Some close /\
    length (RSI.rsi self) = length close /\
    length (RSI.smoothed_rsi self) = length close /\
    (close = [] -> RSI.analyze self = Raise IndexError) /\
    (close <> [] ->
       exists v a,
         RSI.analyze self = Ok (v, a) /\
         last (RSI.rsi self) = Some (RSI.v_rsi v) /\
         last (RSI.smoothed_rsi self) = Some (RSI.v_smoothed_rsi v) /\
         (length close < 5 -> RSI.trend a = None) /\
         (5 <= length close ->
            exists x, RSI.smoothed_rsi self !! (length close - 5) = Some x /\
                      RSI.trend a = Some (if fgt (RSI.v_smoothed_rsi v) x
                                      then RISING else FALLING))).
Proof.
  intros Hinit.
  destruct (rsi_init_inv _ _ _ _ _ _ _ _ _ Hinit) as (close & Hc & _ & ->).
  exists close. split; [done|].
  cbn [RSI.rsi RSI.smoothed_rsi].
  assert (L1 : length (rsi_line len close) = length close)
    by apply length_rsi_line.
  assert (L2 : length (smoothed_line st sl (rsi_line len close)) = length close)
    by (by rewrite length_smoothed_line).
  split; [done|]. split; [done|]. split.
  - intros ->. unfold RSI.analyze, RSI.get_current_values, Pandas.iloc. cbn [RSI.rsi].
    rewrite index_out_of_range; [done|]. rewrite L1. simpl. lia.
  - intros Hne.
    assert (1 <= length close) by (destruct close; [done|simpl; lia]).
    destruct (rsi_analyze_ok
                (RSI.mk len st sl up mid lo (rsi_line len close)
                   (smoothed_line st sl (rsi_line len close)))
                (length close) L1 L2) as (r & s & Hr & Hs & Ha); [done|].
    cbn [RSI.rsi RSI.smoothed_rsi RSI.upper_limit RSI.middle_limit RSI.lower_limit] in Hr, Hs, Ha.
    eexists _, _. split; [exact Ha|].
    cbn [RSI.v_rsi RSI.v_smoothed_rsi RSI.trend].
    split; [done|]. split; [done|]. split.
    + intros H5. by destruct (Nat.leb_spec 5 (length close)); [lia|].
    + intros H5. destruct (Nat.leb_spec 5 (length close)); [|lia].
      destruct (lookup_lt_is_Some_2 (smoothed_line st sl (rsi_line len close))
                  (length close - 5)) as [x Hx]; [lia|].
      exists x. split; [done|]. by rewrite (nth_lookup_Some _ _ nan _ Hx).
Qed.

Lemma rsi_analyze_outcome_witness :
  exists self v a,
    RSI.__init__ 14 "SMA" 14 70 50 30 thirty_rising = (thirty_rising, Ok self) /\
    RSI.analyze self = Ok (v, a) /\
    last (RSI.smoothed_rsi self) = Some (RSI.v_smoothed_rsi v) /\
    exists x, RSI.smoothed_rsi self !! 25 = Some x /\
              RSI.trend a = Some (if fgt (RSI.v_smoothed_rsi v) x then RISING else FALLING).
Proof.
  destruct (RSI.__init__ 14 "SMA" 14 70 50 30 thirty_rising)
    as [df1 [self|e]] eqn:Hinit; [|by vm_compute in Hinit].
  destruct (rsi_init_inv _ _ _ _ _ _ _ _ _ Hinit) as (_ & _ & -> & _).
  destruct (rsi_analyze_outcome 14 "SMA" 14 70 50 30 thirty_rising thirty_rising
              self Hinit) as (close & Hc & _ & _ & _ & Hok).
  injection Hc as <-.
  destruct Hok as (v & a & Ha & _ & Hs & _ & Ht); [done|].
  destruct Ht as (x & Hx & Htr); [vm_compute; lia|].
  exists self, v, a. split; [done|]. split; [done|]. split; [done|].
  exists x. done.
Defined.

(** *** Rows without a value *)

Lemma smoothed_first_row st sl (r : Series) :
  r !! 0 = Some nan -> smoothed_line st sl r !! 0 = Some nan.
Proof.
  intros H0. pose proof (lookup_lt_Some _ _ _ H0) as Hn.
  unfold smoothed_line.
  destruct (String.eqb st "SMA").
  - destruct (Z.to_nat sl) as [|w] eqn:E.
    + apply roll_mean_few; [done|]. right.
      unfold Pandas.window, Pandas.window_bounds.
      replace (Nat.min (0 + 1 + 0) (length r)
               - Nat.min (0 + 1 + 0 - 0) (length r)) with 0 by lia.
      reflexivity.
    + apply roll_mean_first_nan; [done|lia|done].
  - destruct (String.eqb st "EMA"); [exact (ewm_mean_first _ _ _ H0)|done].
Qed.

Lemma nan_signals (self : RSI.t) (n : nat) :
  length (RSI.rsi self) = n -> length (RSI.smoothed_rsi self) = n -> 1 <= n ->
  last (RSI.smoothed_rsi self) = Some nan ->
  exists v a,
    RSI.analyze self = Ok (v, a) /\
    RSI.condition a = NEUTRAL /\ RSI.momentum a = BEARISH /\
    RSI.trend a = if 5 <=? n then Some FALLING else None.
Proof.
  intros L1 L2 Hn Hlast.
  destruct (rsi_analyze_ok self n L1 L2 Hn) as (r & s & _ & Hs & Ha).
  assert (s = nan) as -> by congruence.
  eexists _, _. split; [exact Ha|].
  cbn [RSI.condition RSI.momentum RSI.trend].
  by rewrite leb_nan_r, leb_nan_l, !fgt_nan_l.
Qed.

(** Row 0 of the RSI never has a value, so row 0 of the smoothed RSI has
    none either, whatever the smoothing; with SMA smoothing the smoothed
    RSI has no value in its first [smoothing_length] rows -- one row more
    than the window needs to fill.  On a table that ends inside these
    rows [RSI.analyze] returns NEUTRAL and BEARISH, with no trend or a
    FALLING one, whatever the closes are. *)
Theorem smoothed_rsi_first_rows (len : Z) (st : string) (sl : Z)
    (up mid lo : float) (df df1 : DataFrame) (self : RSI.t) :
  RSI.__init__ len st sl up mid lo df = (df1, Ok self) ->
  let n := length (RSI.smoothed_rsi self) in
  (1 <= n -> RSI.rsi self !! 0 = Some nan /\ RSI.smoothed_rsi self !! 0 = Some nan) /\
  (st = "SMA"%string ->
   forall i, (Z.of_nat i < sl)%Z -> i < n -> RSI.smoothed_rsi self !! i = Some nan) /\
  (1 <= n -> n = 1 \/ (st = "SMA"%string /\ (Z.of_nat n <= sl)%Z) ->
   exists v a,
     RSI.analyze self = Ok (v, a) /\
     RSI.condition a = NEUTRAL /\ RSI.momentum a = BEARISH /\
     RSI.trend a = if 5 <=? n then Some FALLING else None).
Proof.
  intros Hinit.
  destruct (rsi_init_inv _ _ _ _ _ _ _ _ _ Hinit) as (close & Hc & _ & ->).
  cbn [RSI.rsi RSI.smoothed_rsi].
  pose proof (length_rsi_line len close) as L1.
  pose proof (length_smoothed_line st sl (rsi_line len close)) as L2.
  rewrite L2, L1 in *. set (n := length close) in *.
  assert (Hfirst : 1 <= n -> rsi_line len close !! 0 = Some nan).
  { intros Hn. apply rsi_line_first. lia. }
  assert (Hsma : st = "SMA"%string ->
            forall i, (Z.of_nat i < sl)%Z -> i < n ->
                      smoothed_line st sl (rsi_line len close) !! i = Some nan).
  { intros -> i Hi Hn. unfold smoothed_line.
    change (String.eqb "SMA" "SMA") with true. cbv iota.
    apply roll_mean_first_nan; [apply Hfirst; lia|lia|lia]. }
  split; [|split].
  - intros Hn. split; [by apply Hfirst|]. by apply smoothed_first_row, Hfirst.
  - exact Hsma.
  - intros Hn Hcase.
    apply (nan_signals (RSI.mk len st sl up mid lo (rsi_line len close)
                          (smoothed_line st sl (rsi_line len close))) n);
      [exact L1|exact L2|done|].
    cbn [RSI.smoothed_rsi]. rewrite last_is_last_row, L2.
    destruct Hcase as [->|[Hst Hsl]].
    + by apply smoothed_first_row, Hfirst.
    + apply Hsma; [done|lia|lia].
Qed.

Lemma smoothed_rsi_first_rows_witness :
  exists self v a,
    RSI.__init__ 3 "SMA" 9 70 50 30 nine_bars = (nine_bars, Ok self) /\
    RSI.smoothed_rsi self !! 8 = Some nan /\
    RSI.analyze self = Ok (v, a) /\
    RSI.condition a = NEUTRAL /\ RSI.momentum a = BEARISH /\ RSI.trend a = Some FALLING.
Proof.
  destruct (RSI.__init__ 3 "SMA" 9 70 50 30 nine_bars) as [df1 [self|e]] eqn:Hinit;
    [|by vm_compute in Hinit].
  destruct (rsi_init_inv _ _ _ _ _ _ _ _ _ Hinit) as (_ & _ & -> & _).
  destruct (smoothed_rsi_first_rows 3 "SMA" 9 70 50 30 nine_bars nine_bars
              self Hinit) as (_ & Hsma & Hsig).
  assert (Hn : length (RSI.smoothed_rsi self) = 9).
  { vm_compute in Hinit. by injection Hinit as <-. }
  rewrite Hn in Hsma, Hsig.
  destruct Hsig as (v & a & Ha & Hc & Hm & Ht); [lia|right; split; [done|lia]|].
  exists self, v, a. split; [done|].
  split; [apply Hsma; [done|lia|lia]|]. done.
Defined.

End RSIAnalyze.

(** ** RSI: a flat market *)

Section RSIFlat.

(** [c - c] is +0 for a finite [c] and NaN otherwise: never above and
    never below zero. *)
Lemma sub_diag_cases (c : float) :
  Prim2SF (c - c) = S754_zero false \/ Prim2SF (c - c) = S754_nan.
Proof.
  rewrite FloatAxioms.sub_spec. unfold SF64sub, SFsub.
  destruct (Prim2SF c) as [[|]|[|]| |s m e]; auto.
  left. cbv zeta. by rewrite Z.sub_diag.
Qed.

Lemma sub_diag_not_pos (c : float) : fgt (c - c) 0 = false.
Proof.
  unfold fgt. rewrite FloatAxioms.ltb_spec.
  by destruct (sub_diag_cases c) as [-> | ->].
Qed.

Lemma sub_diag_not_neg (c : float) : (c - c <? 0)%float = false.
Proof.
  rewrite FloatAxioms.ltb_spec.
  by destruct (sub_diag_cases c) as [-> | ->].
Qed.

Lemma diff_replicate (n : nat) (c : float) :
  Pandas.diff (replicate (S n) c) = nan :: replicate n (c - c)%float.
Proof.
  cbn [replicate Pandas.diff]. f_equal. unfold Pandas.map2.
  change (c :: replicate n c) with (replicate (S n) c).
  induction n as [|n IH]; [done|].
  cbn [replicate zip_with]. f_equal. exact IH.
Qed.

Lemma map_replicate {A B} (f : A -> B) n (x : A) :
  map f (replicate n x) = replicate n (f x).
Proof. induction n as [|n IH]; [done|]. simpl. by rewrite IH. Qed.

Lemma zip_with_replicate {A B C} (f : A -> B -> C) n (x : A) (y : B) :
  zip_with f (replicate n x) (replicate n y) = replicate n (f x y).
Proof. induction n as [|n IH]; [done|]. simpl. by rewrite IH. Qed.

(** The exponentially weighted mean of a constant series is the series:
    a value equal to the running mean leaves it unchanged, and a NaN
    never replaces it. *)
Lemma ewm_run_constant alpha (z : float) n :
  Pandas.ewm_run alpha (z, 1%float) (replicate n z) = replicate n z.
Proof.
  induction n as [|n IH]; [done|].
  cbn [replicate Pandas.ewm_run]. unfold Pandas.ewm_step.
  destruct (notnan z) eqn:Hz.
  - rewrite notnan_eqb in Hz. rewrite Hz. cbn [fst]. by rewrite IH.
  - cbn [fst]. by rewrite IH.
Qed.

Lemma ewm_mean_constant com (z : float) n :
  Pandas.ewm_mean com (replicate n z) = replicate n (Pandas.prep_value z).
Proof.
  unfold Pandas.ewm_mean, Pandas.prep_values. rewrite map_replicate.
  destruct n as [|n]; [done|].
  cbn [replicate]. by rewrite ewm_run_constant.
Qed.

Lemma gains_flat n (c : float) :
  RSI.gains_of (Pandas.diff (replicate n c)) = replicate n 0%float.
Proof.
  destruct n as [|n]; [done|].
  rewrite diff_replicate. unfold RSI.gains_of.
  cbn [map replicate]. rewrite map_replicate, sub_diag_not_pos. reflexivity.
Qed.

Lemma losses_flat n (c : float) :
  RSI.losses_of (Pandas.diff (replicate n c)) = replicate n (-0)%float.
Proof.
  destruct n as [|n]; [done|].
  rewrite diff_replicate. unfold RSI.losses_of.
  cbn [map replicate]. rewrite map_replicate, sub_diag_not_neg. reflexivity.
Qed.

Lemma rsi_line_flat len n (c : float) :
  rsi_line len (replicate n c) = replicate n nan.
Proof.
  unfold rsi_line. cbv zeta.
  rewrite gains_flat, losses_flat, !ewm_mean_constant.
  unfold RSI.rsi_of, Pandas.map2. rewrite zip_with_replicate. reflexivity.
Qed.

Lemma dropna_replicate_nan n : Pandas.dropna (replicate n nan) = [].
Proof.
  apply dropna_all_nan. intros i x Hx.
  by apply lookup_replicate in Hx as [-> _].
Qed.

Lemma observations_replicate_nan n :
  filter (fun x => isfinite x = true) (replicate n nan) = [].
Proof.
  induction n as [|n IH]; [done|].
  cbn [replicate]. rewrite filter_cons, IH.
  destruct (decide (isfinite nan = true)) as [E|_]; [by vm_compute in E|done].
Qed.

Lemma roll_mean_nan w n :
  Pandas.roll_mean w false (replicate n nan) = replicate n nan.
Proof.
  apply list_eq. intros i.
  destruct (Nat.lt_ge_cases i n) as [Hi|Hi].
  - rewrite lookup_replicate_2 by done.
    apply roll_mean_few; [by rewrite length_replicate|]. right.
    unfold Pandas.window.
    destruct (Pandas.window_bounds _ _ _ _) as [b e].
    by rewrite drop_replicate, take_replicate, observations_replicate_nan.
  - rewrite !lookup_ge_None_2; [done|by rewrite length_replicate|].
    by rewrite length_roll_mean, length_replicate.
Qed.

Lemma smoothed_line_nan st sl n :
  smoothed_line st sl (replicate n nan) = replicate n nan.
Proof.
  unfold smoothed_line.
  destruct (String.eqb st "SMA"); [apply roll_mean_nan|].
  destruct (String.eqb st "EMA"); [exact (ewm_mean_constant _ nan n)|done].
Qed.

(** On a flat market -- every close the same number [c], whatever it is --
    the RSI has no value in any row, because the average loss is -0 and
    the average gain 0; so has the smoothed RSI, whatever the smoothing,
    and [analyze] reports NEUTRAL, BEARISH momentum and, from five rows
    on, a FALLING trend. *)
Theorem rsi_flat_market (len : Z) (st : string) (sl : Z) (up mid lo c : float)
    (n : nat) (df df1 : DataFrame) (self : RSI.t) :
  columns df !! "close"%string = Some (replicate n c) ->
  RSI.__init__ len st sl up mid lo df = (df1, Ok self) ->
  RSI.rsi self = replicate n nan /\
  RSI.smoothed_rsi self = replicate n nan /\
  (1 <= n ->
   exists v a,
     RSI.analyze self = Ok (v, a) /\
     RSI.condition a = NEUTRAL /\ RSI.momentum a = BEARISH /\
     RSI.trend a = if 5 <=? n then Some FALLING else None).
Proof.
  intros Hc Hinit.
  destruct (rsi_init_inv _ _ _ _ _ _ _ _ _ Hinit) as (close & Hc' & _ & ->).
  assert (close = replicate n c) as -> by congruence.
  cbn [RSI.rsi RSI.smoothed_rsi].
  rewrite rsi_line_flat, smoothed_line_nan.
  split; [done|]. split; [done|].
  intros Hn. apply nan_signals; cbn [RSI.rsi RSI.smoothed_rsi].
  - apply length_replicate.
  - apply length_replicate.
  - done.
  - rewrite last_is_last_row, length_replicate. apply lookup_replicate_2. lia.
Qed.

Lemma rsi_flat_market_witness :
  exists self v a,
    RSI.__init__ 14 "SMA" 14 70 50 30 flat_six = (flat_six, Ok self) /\
    RSI.rsi self = replicate 6 nan /\
    RSI.analyze self = Ok (v, a) /\
    RSI.condition a = NEUTRAL /\ RSI.momentum a = BEARISH /\
    RSI.trend a = Some FALLING.
Proof.
  destruct (RSI.__init__ 14 "SMA" 14 70 50 30 flat_six)
    as [df1 [self|e]] eqn:Hinit; [|by vm_compute in Hinit].
  destruct (rsi_init_inv _ _ _ _ _ _ _ _ _ Hinit) as (_ & _ & -> & _).
  destruct (rsi_flat_market 14 "SMA" 14 70 50 30 100 6 flat_six flat_six self
              eq_refl Hinit) as (Hr & _ & Ha).
  destruct Ha as (v & a & Ha & Hc & Hm & Ht); [lia|].
  exists self, v, a. done.
Defined.

End RSIFlat.

(** ** MACross: construction and [analyze] *)

Section MACrossOutcome.

Import MACross.

(** The object [calculate] builds, in either mode. *)
Lemma macross_init_inv fp sp ty df df1 self :
  __init__ fp sp ty df = (df1, Ok self) ->
  exists (close : Series) f s l,
    Py.index fp 0 = Ok f /\ Py.index sp 0 = Ok s /\ Py.index sp 1 = Ok l /\
    columns df !! "close"%string = Some close /\
    df1 = df /\
    self = (if String.eqb ty "SMA" then sma_of f s l close
            else ema_of ty f s l close).
Proof.
  cbv beta zeta delta [__init__ calculate moving_average M_bind get_col lift M_ret
    Pandas.rolling_mean Pandas.check_window].
  destruct (Py.index fp 0) as [f|]; [|intros [=]].
  destruct (Py.index sp 0) as [s|]; [|intros [=]].
  destruct (Py.index sp 1) as [l|]; [|intros [=]].
  destruct (columns df !! "close"%string) as [close|] eqn:Hc; [|intros [=]].
  destruct (String.eqb ty "SMA") eqn:Hty.
  - apply String.eqb_eq in Hty as ->.
    destruct (Z.ltb_spec f 0); [step_reads; intros [=]|]. step_reads.
    destruct (Z.ltb_spec s 0); [step_reads; intros [=]|]. step_reads.
    destruct (Z.ltb_spec l 0); [step_reads; intros [=]|]. step_reads.
    intros [= <- <-]. exists close, f, s, l. done.
  - destruct (Pandas.com_of_span f) as [cf|] eqn:Ef; [|step_reads; intros [=]].
    step_reads.
    destruct (Pandas.com_of_span s) as [cs|] eqn:Es; [|step_reads; intros [=]].
    step_reads.
    destruct (Pandas.com_of_span l) as [cl|] eqn:El; [|step_reads; intros [=]].
    step_reads.
    apply com_of_span_inv in Ef as ->. apply com_of_span_inv in Es as ->.
    apply com_of_span_inv in El as ->.
    intros [= <- <-]. exists close, f, s, l. done.
Qed.

Lemma macross_lengths fp sp ty df df1 self (close : Series) :
  columns df !! "close"%string = Some close ->
  __init__ fp sp ty df = (df1, Ok self) ->
  length (ma_fast self) = length close /\
  length (ma_slow self) = length close /\
  length (ma_long self) = length close.
Proof.
  intros Hc Hinit.
  destruct (macross_init_inv _ _ _ _ _ _ Hinit)
    as (close' & f & s & l & _ & _ & _ & Hc' & _ & ->).
  assert (close' = close) as -> by congruence.
  destruct (String.eqb ty "SMA"); cbn [sma_of ema_of ma_fast ma_slow ma_long];
    by rewrite ?length_roll_mean, ?length_ewm_mean.
Qed.

Lemma macross_values (self : t) (n : nat) :
  length (ma_fast self) = n -> length (ma_slow self) = n ->
  length (ma_long self) = n -> 1 <= n ->
  exists a b c,
    get_current_values self = Ok (mkValues a b c) /\
    ma_fast self !! (n - 1) = Some a /\
    ma_slow self !! (n - 1) = Some b /\
    ma_long self !! (n - 1) = Some c.
Proof.
  intros L1 L2 L3 Hn.
  destruct (index_in_range (ma_fast self) (-1)) as (a & Ha & Ea); [lia|].
  destruct (index_in_range (ma_slow self) (-1)) as (b & Hb & Eb); [lia|].
  destruct (index_in_range (ma_long self) (-1)) as (c & Hc & Ec); [lia|].
  rewrite L1 in Ha. rewrite L2 in Hb. rewrite L3 in Hc.
  rewrite last_row in Ha, Hb, Hc by done.
  exists a, b, c. split; [|done].
  unfold get_current_values, Pandas.iloc. by rewrite Ea, Eb, Ec.
Qed.

(** The periods are read before the table: a missing one raises
    [IndexError] whatever the table holds, and entries after
    [fast_periods[0]] and [slow_periods[1]] are never used (the 50 of the
    default [[10, 50]] is not).  After a successful construction
    [analyze] raises [IndexError] on an empty table and otherwise returns
    the last row of each of the three averages. *)
Theorem macross_periods_and_values (ty : string) (price : float) (df : DataFrame) :
  (forall sp, __init__ [] sp ty df = (df, Raise IndexError)) /\
  (forall f fr, __init__ (f :: fr) [] ty df = (df, Raise IndexError)) /\
  (forall f fr s, __init__ (f :: fr) [s] ty df = (df, Raise IndexError)) /\
  (forall f fr s l sr,
     __init__ (f :: fr) (s :: l :: sr) ty df = __init__ [f] [s; l] ty df) /\
  (forall fp sp df1 self (close : Series),
     columns df !! "close"%string = Some close ->
     __init__ fp sp ty df = (df1, Ok self) ->
     (close = [] -> analyze self price = Raise IndexError) /\
     (close <> [] ->
      exists v a,
        analyze self price = Ok (v, a) /\
        last (ma_fast self) = Some (v_ma_fast v) /\
        last (ma_slow self) = Some (v_ma_slow v) /\
        last (ma_long self) = Some (v_ma_long v))).
Proof.
  split; [|split; [|split; [|split]]].
  - intros sp. reflexivity.
  - intros f fr. unfold __init__, M_bind, lift. by rewrite index_head.
  - intros f fr s. unfold __init__, M_bind, lift. by rewrite !index_head.
  - intros f fr s l sr. unfold __init__, M_bind, lift.
    by rewrite !index_head, !index_second.
  - intros fp sp df1 self close Hc Hinit.
    destruct (macross_lengths _ _ _ _ _ _ _ Hc Hinit) as (L1 & L2 & L3).
    split.
    + intros ->. unfold analyze, get_current_values, Pandas.iloc.
      rewrite index_out_of_range; [done|]. rewrite L1. simpl. lia.
    + intros Hne.
      assert (1 <= length close) by (destruct close; [done|simpl; lia]).
      destruct (macross_values self (length close) L1 L2 L3)
        as (a & b & c & Hv & Ha & Hb & Hc'); [done|].
      unfold analyze. rewrite Hv. cbn [rbind].
      eexists _, _. split; [reflexivity|].
      cbn [v_ma_fast v_ma_slow v_ma_long].
      by rewrite !last_is_last_row, L1, L2, L3.
Qed.

Lemma macross_periods_and_values_witness :
  exists self v a,
    __init__ [2; 9]%Z [3; 4]%Z "SMA" nine_bars = (nine_bars, Ok self) /\
    analyze self 2 = Ok (v, a) /\
    last (ma_fast self) = Some (v_ma_fast v).
Proof.
  destruct (macross_periods_and_values "SMA" 2 nine_bars) as (_ & _ & _ & _ & H).
  destruct (H [2; 9]%Z [3; 4]%Z nine_bars
              (sma_of 2 3 4 [1; 2; 3; 2; 1; 2; 3; 2; 1]%float)
              [1; 2; 3; 2; 1; 2; 3; 2; 1]%float eq_refl) as [_ Hok].
  - apply init_sma; reflexivity || lia.
  - destruct Hok as (v & a & Ha & Hf & _); [done|].
    eexists _, v, a. split; [|done].
    apply (init_sma nine_bars [1; 2; 3; 2; 1; 2; 3; 2; 1]%float);
      reflexivity || lia.
Defined.

(** *** A table shorter than a period *)

Lemma pct_diff_nan_r (x : float) : pct_diff x nan = nan.
Proof. unfold pct_diff. by rewrite nan_div_r, nan_mul_l. Qed.

Lemma pct_diff_nan_l (x : float) : pct_diff nan x = nan.
Proof. unfold pct_diff. by rewrite nan_sub_l, nan_div_l, nan_mul_l. Qed.

Lemma ma_set_without_slow (price fast : float) :
  cross_status (_analyze_ma_set price fast nan) = BEARISH /\
  price_position (_analyze_ma_set price fast nan) = BETWEEN.
Proof.
  unfold _analyze_ma_set. cbn [cross_status price_position].
  by rewrite !fgt_nan_r, ltb_nan_r, !andb_false_r.
Qed.

Lemma structure_without_long (price a b : float) :
  _analyze_market_structure price (mkValues a b nan)
  = if fgt (pct_diff a b) 0 then BEARISH_BIAS else STRONG_BEARISH.
Proof.
  unfold _analyze_market_structure, weighted_score.
  cbn [v_ma_fast v_ma_slow v_ma_long].
  rewrite !pct_diff_nan_r. unfold sign_of at 2 3. rewrite fgt_nan_l.
  unfold sign_of. by destruct (fgt (pct_diff a b) 0).
Qed.

(** In SMA mode, on a table with fewer rows than the long period (200 by
    default) the long average has no value: [analyze] still returns, the
    long-term set reads BEARISH and BETWEEN whatever the prices are, and
    the market structure is BEARISH_BIAS or STRONG_BEARISH, never
    bullish; with fewer rows than the slow period too, the short-term set
    reads the same and the structure is STRONG_BEARISH. *)
Theorem macross_short_table (fp sp : list Z) (price : float)
    (df df1 : DataFrame) (self : t) (close : Series) :
  columns df !! "close"%string = Some close ->
  1 <= length close ->
  __init__ fp sp "SMA" df = (df1, Ok self) ->
  (Z.of_nat (length close) < long_ma_period self)%Z ->
  exists v a,
    analyze self price = Ok (v, a) /\
    v_ma_long v = nan /\
    cross_status (set2_long_term a) = BEARISH /\
    price_position (set2_long_term a) = BETWEEN /\
    (market_structure a = BEARISH_BIAS \/ market_structure a = STRONG_BEARISH) /\
    ((Z.of_nat (length close) < slow_ma_period self)%Z ->
     v_ma_slow v = nan /\
     cross_status (set1_short_term a) = BEARISH /\
     price_position (set1_short_term a) = BETWEEN /\
     market_structure a = STRONG_BEARISH).
Proof.
  intros Hc Hn Hinit Hlong.
  destruct (macross_lengths _ _ _ _ _ _ _ Hc Hinit) as (L1 & L2 & L3).
  destruct (init_sma_inv _ _ _ _ _ Hinit)
    as (close' & f & s & l & Hc' & _ & _ & _ & _ & ->).
  assert (close' = close) as -> by congruence.
  destruct (macross_values _ (length close) L1 L2 L3 Hn)
    as (a & b & c & Hv & Ha & Hb & Hl).
  cbn [sma_of long_ma_period slow_ma_period ma_slow ma_long] in Hlong, Hb, Hl |- *.
  rewrite roll_mean_no_value in Hl by (rewrite ?length_roll_mean; lia).
  injection Hl as <-.
  unfold analyze. rewrite Hv. cbn [rbind].
  eexists _, _. split; [reflexivity|].
  cbn [v_ma_fast v_ma_slow v_ma_long set1_short_term set2_long_term market_structure].
  destruct (ma_set_without_slow price b) as [-> ->].
  rewrite structure_without_long.
  split; [done|]. split; [done|]. split; [done|].
  split; [destruct (fgt (pct_diff a b) 0); auto|].
  intros Hslow.
  rewrite roll_mean_no_value in Hb by (rewrite ?length_roll_mean; lia).
  injection Hb as <-.
  destruct (ma_set_without_slow price a) as [-> ->].
  by rewrite pct_diff_nan_r, fgt_nan_l.
Qed.

Lemma macross_short_table_witness :
  exists v a,
    analyze (sma_of 10 50 200 rise_then_fall_closes) 53 = Ok (v, a) /\
    v_ma_long v = nan /\
    cross_status (set2_long_term a) = BEARISH /\
    price_position (set2_long_term a) = BETWEEN /\
    (market_structure a = BEARISH_BIAS \/ market_structure a = STRONG_BEARISH).
Proof.
  destruct (macross_short_table [10; 50]%Z [50; 200]%Z 53 rise_then_fall
              rise_then_fall (sma_of 10 50 200 rise_then_fall_closes)
              rise_then_fall_closes eq_refl)
    as (v & a & Ha & Hl & Hc & Hp & Hm & _).
  - vm_compute. lia.
  - apply init_sma; reflexivity || lia.
  - vm_compute. reflexivity.
  - by exists v, a.
Defined.

End MACrossOutcome.

(** ** MACross: ties and a flat market *)

Section MACrossFlat.

Import MACross.

(** [((c - c) / c) * 100] is a zero or NaN, never above zero. *)
Lemma pct_diff_diag (c : float) : fgt (pct_diff c c) 0 = false.
Proof.
  unfold fgt, pct_diff.
  rewrite FloatAxioms.ltb_spec, FloatAxioms.mul_spec, FloatAxioms.div_spec.
  destruct (sub_diag_cases c) as [-> | ->];
    destruct (Prim2SF c) as [[|]|[|]| |[|] m e]; reflexivity.
Qed.

Lemma ma_set_tie (c : float) :
  cross_status (_analyze_ma_set c c c) = BEARISH /\
  price_position (_analyze_ma_set c c c) = BETWEEN.
Proof.
  unfold _analyze_ma_set, fgt. cbn [cross_status price_position].
  by rewrite !ltb_irrefl.
Qed.

Lemma structure_tie (c : float) :
  _analyze_market_structure c (mkValues c c c) = STRONG_BEARISH.
Proof.
  unfold _analyze_market_structure, weighted_score, sign_of.
  cbn [v_ma_fast v_ma_slow v_ma_long]. rewrite pct_diff_diag. reflexivity.
Qed.

Lemma structure_without_averages (price : float) :
  _analyze_market_structure price (mkValues nan nan nan) = STRONG_BEARISH.
Proof.
  unfold _analyze_market_structure, weighted_score.
  cbn [v_ma_fast v_ma_slow v_ma_long].
  rewrite !pct_diff_nan_r. unfold sign_of. rewrite fgt_nan_l. reflexivity.
Qed.

Lemma structure_flat (c : float) :
  _analyze_market_structure c
    (mkValues (Pandas.prep_value c) (Pandas.prep_value c) (Pandas.prep_value c))
  = STRONG_BEARISH.
Proof.
  unfold Pandas.prep_value. destruct (isinf c).
  - apply structure_without_averages.
  - apply structure_tie.
Qed.

(** Every comparison of the analysis is strict, and a tie goes to the
    bearish side: when the price and the three current averages are the
    same number, both sets read BEARISH and BETWEEN and the market
    structure is STRONG_BEARISH.  A flat market in EMA mode is such a
    case: on a close column that holds the same number [c] in every row,
    an object constructed in EMA mode has that column as each of its three
    exponential averages, whatever the periods -- a column of NaN when [c]
    is infinite, since an infinite close counts as a missing one -- and
    [analyze] at price [c] reports STRONG_BEARISH.  With the default
    periods the construction succeeds on every such table. *)
Theorem flat_market_strong_bearish (c : float) :
  (forall self,
     get_current_values self = Ok (mkValues c c c) ->
     exists a,
       analyze self c = Ok (mkValues c c c, a) /\
       cross_status (set1_short_term a) = BEARISH /\
       price_position (set1_short_term a) = BETWEEN /\
       cross_status (set2_long_term a) = BEARISH /\
       price_position (set2_long_term a) = BETWEEN /\
       market_structure a = STRONG_BEARISH) /\
  (forall (ty : string) (fp sp : list Z) (n : nat) (df df1 : DataFrame) (self : t),
     columns df !! "close"%string = Some (replicate n c) ->
     1 <= n ->
     String.eqb ty "SMA" = false ->
     __init__ fp sp ty df = (df1, Ok self) ->
     let m := if isinf c then nan else c in
     ma_fast self = replicate n m /\
     ma_slow self = replicate n m /\
     ma_long self = replicate n m /\
     exists a,
       analyze self c = Ok (mkValues m m m, a) /\
       market_structure a = STRONG_BEARISH) /\
  (forall (n : nat) (df : DataFrame),
     columns df !! "close"%string = Some (replicate n c) ->
     1 <= n ->
     exists self,
       __init__ [10; 50]%Z [50; 200]%Z "EMA" df = (df, Ok self)).
Proof.
  split; [|split].
  - intros self Hv. unfold analyze. rewrite Hv. cbn [rbind].
    eexists. split; [reflexivity|].
    cbn [set1_short_term set2_long_term market_structure v_ma_fast v_ma_slow
         v_ma_long].
    destruct (ma_set_tie c) as [-> ->]. by rewrite structure_tie.
  - intros ty fp sp n df df1 self Hc Hn Hty Hinit.
    fold (Pandas.prep_value c). cbv zeta.
    destruct (macross_init_inv _ _ _ _ _ _ Hinit)
      as (close & f & s & l & _ & _ & _ & Hc' & _ & ->).
    assert (close = replicate n c) as -> by congruence.
    rewrite Hty.
    assert (E : ema_of ty f s l (replicate n c)
                = mk f s l ty (replicate n (Pandas.prep_value c))
                     (replicate n (Pandas.prep_value c))
                     (replicate n (Pandas.prep_value c))).
    { unfold ema_of. by rewrite !ewm_mean_constant. }
    rewrite E. cbn [ma_fast ma_slow ma_long].
    split; [done|]. split; [done|]. split; [done|].
    destruct (macross_values
                (mk f s l ty (replicate n (Pandas.prep_value c))
                   (replicate n (Pandas.prep_value c))
                   (replicate n (Pandas.prep_value c))) n)
      as (x & y & z & Hv & Hx & Hy & Hz);
      [cbn [ma_fast ma_slow ma_long]; by rewrite length_replicate..|done|].
    cbn [ma_fast ma_slow ma_long] in Hx, Hy, Hz.
    apply lookup_replicate in Hx as [-> _].
    apply lookup_replicate in Hy as [-> _].
    apply lookup_replicate in Hz as [-> _].
    unfold analyze. rewrite Hv. cbn [rbind].
    eexists. split; [reflexivity|].
    cbn [market_structure]. apply structure_flat.
  - intros n df Hc _. eexists.
    apply (init_ema df (replicate n c)); done.
Qed.

Lemma flat_market_strong_bearish_witness :
  exists self a,
    __init__ [10; 50]%Z [50; 200]%Z "EMA" flat_six = (flat_six, Ok self) /\
    ma_long self = replicate 6 100%float /\
    analyze self 100 = Ok (mkValues 100 100 100, a) /\
    market_structure a = STRONG_BEARISH.
Proof.
  destruct (flat_market_strong_bearish 100) as (_ & Hflat & Hinit).
  destruct (Hinit 6 flat_six eq_refl ltac:(lia)) as [self Hself].
  destruct (Hflat "EMA"%string [10; 50]%Z [50; 200]%Z 6 flat_six flat_six self
              eq_refl ltac:(lia) eq_refl Hself)
    as (_ & _ & Hl & a & Ha & Hm).
  by exists self, a.
Defined.

End MACrossFlat.

(** ** MACross: the window of the cross history *)

Section CrossWindow.

Import MACross.

Lemma with_index_entry {A} (s : list A) i p :
  Pandas.with_index s !! i = Some p -> fst p = i /\ s !! i = Some (snd p).
Proof.
  unfold Pandas.with_index. intros H.
  apply lookup_zip_with_Some in H as (j & x & -> & Hj & Hx).
  apply lookup_seq in Hj as [-> _]. done.
Qed.

Lemma length_with_index {A} (s : list A) : length (Pandas.with_index s) = length s.
Proof. unfold Pandas.with_index. rewrite length_zip_with, length_seq. lia. Qed.

Lemma length_bool_diff (s : list bool) : length (bool_diff s) = length s.
Proof.
  destruct s as [|x t]; [done|]. cbn [bool_diff length]. f_equal.
  unfold Pandas.map2. rewrite length_zip_with. cbn [length]. lia.
Qed.

Lemma bool_diff_lookup (s : list bool) i :
  bool_diff s !! S i = Some (Some true) ->
  exists cur prev, s !! S i = Some cur /\ s !! i = Some prev /\ cur <> prev.
Proof.
  destruct s as [|x t]; [done|]. cbn [bool_diff]. rewrite lookup_cons.
  unfold Pandas.map2. intros H.
  apply lookup_zip_with_Some in H as (cur & prev & [= Hx] & Hc & Hp).
  exists cur, prev. split; [done|]. split; [done|].
  by destruct cur, prev.
Qed.

Lemma slice_whole {A} (l : list A) (k : Z) :
  (k = 0 \/ k <= - Z.of_nat (length l))%Z -> Py.slice_from l k = l.
Proof.
  intros Hk. unfold Py.slice_from.
  replace (Z.to_nat _) with 0; [apply drop_0|].
  destruct (Z.ltb_spec k 0); lia.
Qed.

(** The row reported as a cross by [crosses_of]. *)
Lemma crosses_of_row (ma_a ma_b : Series) (lookback : Z) r :
  last_golden_cross (crosses_of ma_a ma_b lookback) = Some r ->
  1 <= r /\
  ((1 <= lookback)%Z ->
   (Z.of_nat (Nat.min (length ma_a) (length ma_b)) - lookback <= Z.of_nat r)%Z) /\
  exists a b a' b',
    ma_a !! r = Some a /\ ma_b !! r = Some b /\
    ma_a !! (r - 1) = Some a' /\ ma_b !! (r - 1) = Some b' /\
    fgt a b <> fgt a' b'.
Proof.
  unfold crosses_of, last_where, Pandas.iloc_from, Py.slice_from, Pandas.labels.
  cbn [last_golden_cross]. intros H.
  apply last_Some_elem_of in H.
  apply list_elem_of_In, in_map_iff in H as ([i x] & <- & Hin).
  apply List.filter_In in Hin as [Hin Heq]. cbn [fst snd] in *.
  apply list_elem_of_In, list_elem_of_lookup in Hin as [j Hj].
  rewrite lookup_drop in Hj.
  apply with_index_entry in Hj as [Hi Hx]. cbn [fst snd] in Hi, Hx.
  destruct x as [[|]|]; try discriminate Heq.
  rewrite <- Hi in Hx.
  rewrite length_with_index, length_bool_diff in Hi.
  unfold Pandas.map2 in Hi. rewrite length_zip_with in Hi.
  destruct i as [|i].
  { destruct (Pandas.map2 fgt ma_a ma_b); discriminate Hx. }
  split; [lia|]. split.
  - intros Hl. destruct (Z.ltb_spec (- lookback) 0); lia.
  - apply bool_diff_lookup in Hx as (cur & prev & Hc & Hp & Hne).
    unfold Pandas.map2 in Hc, Hp.
    apply lookup_zip_with_Some in Hc as (a & b & -> & Ha & Hb).
    apply lookup_zip_with_Some in Hp as (a' & b' & -> & Ha' & Hb').
    replace (S i - 1) with i by lia.
    by exists a, b, a', b'.
Qed.

(** Every row that [get_cross_history] reports lies in the trailing
    window of [lookback] rows, is never row 0, and is a row where the
    faster-above-slower comparison differs from the row before.  A
    lookback of 0 is not an empty window: [iloc[-0:]] is the whole series,
    so the history is the one of a lookback that covers the table. *)
Theorem cross_history_window (fp sp : list Z) (ty : string)
    (df df1 : DataFrame) (self : t) (close : Series) (lookback : Z) :
  columns df !! "close"%string = Some close ->
  __init__ fp sp ty df = (df1, Ok self) ->
  (forall key entry r,
     get_cross_history self lookback !! key = Some entry ->
     last_golden_cross entry = Some r ->
     1 <= r < length close /\
     ((1 <= lookback)%Z -> (Z.of_nat (length close) - lookback <= Z.of_nat r)%Z) /\
     exists (ma_a ma_b : Series) a b a' b',
       (ma_a = ma_fast self /\ ma_b = ma_slow self \/
        ma_a = ma_slow self /\ ma_b = ma_long self) /\
       ma_a !! r = Some a /\ ma_b !! r = Some b /\
       ma_a !! (r - 1) = Some a' /\ ma_b !! (r - 1) = Some b' /\
       fgt a b <> fgt a' b') /\
  get_cross_history self 0
  = get_cross_history self (Z.of_nat (length close)).
Proof.
  intros Hc Hinit.
  destruct (macross_lengths _ _ _ _ _ _ _ Hc Hinit) as (L1 & L2 & L3).
  split.
  - intros key entry r Hkey Hr.
    assert (Hpair : exists ma_a ma_b : Series,
               (ma_a = ma_fast self /\ ma_b = ma_slow self \/
                ma_a = ma_slow self /\ ma_b = ma_long self) /\
               entry = crosses_of ma_a ma_b lookback).
    { unfold get_cross_history in Hkey.
      apply lookup_insert_Some in Hkey as [[_ <-]|[_ Hkey]]; [eauto 6|].
      apply lookup_insert_Some in Hkey as [[_ <-]|[_ Hkey]]; [eauto 6|].
      by rewrite lookup_empty in Hkey. }
    destruct Hpair as (ma_a & ma_b & Hab & ->).
    destruct (crosses_of_row _ _ _ _ Hr)
      as (H1 & Hw & a & b & a' & b' & Ha & Hb & Ha' & Hb' & Hne).
    assert (La : length ma_a = length close) by (destruct Hab as [[-> _]|[-> _]]; done).
    assert (Lb : length ma_b = length close) by (destruct Hab as [[_ ->]|[_ ->]]; done).
    rewrite La, Lb, Nat.min_id in Hw.
    apply lookup_lt_Some in Ha as Hlt. rewrite La in Hlt.
    split; [lia|]. split; [done|].
    by exists ma_a, ma_b, a, b, a', b'.
  - unfold get_cross_history, crosses_of, Pandas.iloc_from.
    rewrite !slice_whole; [done|..];
      rewrite length_with_index, length_bool_diff;
      unfold Pandas.map2; rewrite length_zip_with; lia.
Qed.

Lemma cross_history_window_witness :
  let self := sma_of 10 50 200 rise_then_fall_closes in
  get_cross_history self 0 = get_cross_history self 62 /\
  forall key entry r,
    get_cross_history self 10 !! key = Some entry ->
    last_golden_cross entry = Some r ->
    1 <= r < 62 /\ (52 <= Z.of_nat r)%Z.
Proof.
  intros self.
  destruct (cross_history_window [10; 50]%Z [50; 200]%Z "SMA" rise_then_fall
              rise_then_fall self rise_then_fall_closes 0 eq_refl) as [_ H0].
  { apply init_sma; reflexivity || lia. }
  split; [exact H0|].
  intros key entry r Hk Hr.
  destruct (cross_history_window [10; 50]%Z [50; 200]%Z "SMA" rise_then_fall
              rise_then_fall self rise_then_fall_closes 10 eq_refl) as [H _].
  { apply init_sma; reflexivity || lia. }
  destruct (H key entry r Hk Hr) as (H1 & H2 & _).
  split; [exact H1|]. apply H2. lia.
Defined.

End CrossWindow.

(** ** main.py: colours *)

Section Colours.

Import Main.

Lemma colored_is_signal (s c : string) :
  colors !! s = Some c -> exists sig, s = signal_name sig.
Proof.
  unfold colors. intros H. apply elem_of_list_to_map_2 in H.
  repeat (apply elem_of_cons in H as [[= -> _]|H];
          [by (eexists BULLISH + eexists BEARISH + eexists NEUTRAL
               + eexists OVERBOUGHT + eexists OVERSOLD + eexists RISING
               + eexists FALLING + eexists BREAKOUT + eexists BREAKDOWN
               + eexists RANGE + eexists UPTREND + eexists DOWNTREND
               + eexists MIXED + eexists ABOVE_BOTH + eexists BELOW_BOTH
               + eexists BETWEEN + eexists STRONG_BULLISH
               + eexists STRONG_BEARISH + eexists BULLISH_BIAS
               + eexists BEARISH_BIAS)|]).
  by apply elem_of_nil in H.
Qed.

(** Every signal that an engine can put into an analysis has a colour --
    green, red or yellow -- and any other text has none: the empty
    string. *)
Theorem every_signal_has_a_color :
  (forall sig : signal,
     get_color_code (signal_name sig) = green \/
     get_color_code (signal_name sig) = red \/
     get_color_code (signal_name sig) = yellow) /\
  (forall s : string,
     get_color_code s <> ""%string <-> exists sig, s = signal_name sig).
Proof.
  split.
  - intros sig. destruct sig; vm_compute; auto.
  - intros s. split.
    + unfold get_color_code. destruct (colors !! s) as [c|] eqn:E; [|done].
      intros _. by apply (colored_is_signal s c).
    + intros [sig ->]. destruct sig; vm_compute; discriminate.
Qed.

End Colours.

(** ** main.py: the four engines on one table *)

Section MainRun.

Import Main.

(** The objects [main] constructs from the ingested columns. *)
Lemma rsi_main_init df (close : Series) :
  columns df !! "close"%string = Some close ->
  RSI.__init__ 14 "SMA" 14 70 50 30 df
  = (df, Ok (RSI.mk 14 "SMA" 14 70 50 30 (rsi_line 14 close)
               (smoothed_line "SMA" 14 (rsi_line 14 close)))).
Proof.
  intros Hc. pose proof (rsi_default_ok df close Hc) as Hok.
  unfold RSI.default in Hok.
  destruct (RSI.__init__ 14 "SMA" 14 70 50 30 df) as [df1 [self|e]] eqn:Hinit;
    [|discriminate Hok].
  destruct (rsi_init_inv _ _ _ _ _ _ _ _ _ Hinit) as (close' & Hc' & -> & ->).
  by assert (close' = close) as -> by congruence.
Qed.

(** The divergence check reads the row count and the close column only. *)
Lemma get_divergence_reads self lookback pw (df df' : DataFrame) :
  nrows df' = nrows df ->
  columns df' !! "close"%string = columns df !! "close"%string ->
  RSI.get_divergence self lookback pw df'
  = (df', snd (RSI.get_divergence self lookback pw df)).
Proof.
  intros Hn Hc.
  cbv beta iota zeta delta [RSI.get_divergence M_bind df_len get_col lift M_ret].
  rewrite Hn.
  destruct (Z.of_nat (nrows df) <? lookback)%Z; [done|].
  cbv beta iota. rewrite Hc.
  destruct (columns df !! "close"%string) as [close|]; [|done].
  repeat match goal with
         | |- context [match ?r with Ok _ => _ | Raise _ => _ end] =>
             destruct r as [?|?]; cbn [fst snd]; try done
         | |- context [if ?b then _ else _] => destruct b; cbn [fst snd]; try done
         end.
Qed.

Lemma corresponding_raises ext label e :
  RSI.corresponding ext label = Raise e -> e = KeyError.
Proof.
  unfold RSI.corresponding, Pandas.get_loc_nearest, Pandas.getitem.
  destruct (Pandas.pad _ _) as [[? ?]|]; destruct (Pandas.backfill _ _) as [[? ?]|];
    cbn [rbind]; try (by intros [= <-]);
    by destruct (List.find _ ext); intros [= <-].
Qed.

Lemma diverges_raises beyond (price_ext rsi_ext : LSeries) e :
  RSI.diverges beyond price_ext rsi_ext = Raise e -> e = KeyError.
Proof.
  unfold RSI.diverges.
  destruct (Nat.leb_spec 2 (length price_ext)) as [Hp|]; [|by intros [=]].
  destruct (Nat.leb_spec 2 (length rsi_ext)) as [Hr|]; [|by intros [=]].
  cbn [andb].
  assert (Hl : length (Pandas.labels price_ext) = length price_ext)
    by apply length_map.
  assert (Hv : length (Pandas.values price_ext) = length price_ext)
    by apply length_map.
  destruct (index_in_range (Pandas.labels price_ext) (-1)) as (l1 & _ & ->); [lia|].
  destruct (index_in_range (Pandas.labels price_ext) (-2)) as (l2 & _ & ->); [lia|].
  cbn [rbind].
  destruct (RSI.corresponding rsi_ext l1) as [x1|e1] eqn:E1;
    [|cbn [rbind]; intros [= <-]; by apply corresponding_raises in E1].
  destruct (RSI.corresponding rsi_ext l2) as [x2|e2] eqn:E2;
    [|cbn [rbind]; intros [= <-]; by apply corresponding_raises in E2].
  cbn [rbind]. unfold Pandas.iloc.
  destruct (index_in_range (Pandas.values price_ext) (-1)) as (p1 & _ & ->); [lia|].
  destruct (index_in_range (Pandas.values price_ext) (-2)) as (p2 & _ & ->); [lia|].
  by intros [=].
Qed.

Lemma extrema_ok agg (w : Z) (s : LSeries) :
  (0 <= w)%Z ->
  exists e,
    RSI.extrema (fun w c x =>
                   let! n := Pandas.check_window w in
                   Ok (Pandas.roll agg n c x)) w s = Ok e.
Proof.
  intros Hw. unfold RSI.extrema, Pandas.check_window.
  destruct (Z.ltb_spec w 0); [lia|]. cbn [rbind]. by eexists.
Qed.

(** With the default arguments: [None] below 30 rows; from 30 rows on an
    answer or [KeyError]; from 60 rows on "no divergence" or [KeyError]. *)
Lemma main_divergence (self : RSI.t) (df : DataFrame) (close : Series) :
  columns df !! "close"%string = Some close ->
  length (RSI.smoothed_rsi self) = nrows df ->
  let r := snd (RSI.get_divergence self 30 5 df) in
  (nrows df < 30 -> r = Ok None) /\
  (30 <= nrows df -> r = Raise KeyError \/ exists d, r = Ok (Some d)) /\
  (60 <= nrows df -> r = Raise KeyError \/ r = Ok (Some RSI.no_divergence)).
Proof.
  intros Hc Hs r. subst r.
  assert (Hlong : 30 <= nrows df ->
    (snd (RSI.get_divergence self 30 5 df) = Raise KeyError \/
     exists d, snd (RSI.get_divergence self 30 5 df) = Ok (Some d)) /\
    (60 <= nrows df ->
     snd (RSI.get_divergence self 30 5 df) = Raise KeyError \/
     snd (RSI.get_divergence self 30 5 df) = Ok (Some RSI.no_divergence))).
  { intros Hn.
    cbv beta iota zeta delta [RSI.get_divergence M_bind df_len get_col lift M_ret].
    destruct (Z.ltb_spec (Z.of_nat (nrows df)) 30); [lia|].
    rewrite Hc. cbv beta iota.
    fold (recent_of close 30). fold (recent_of (RSI.smoothed_rsi self) 30).
    destruct (extrema_ok Pandas.agg_max 5 (recent_of close 30))
      as [pp Hpp]; [lia|].
    destruct (extrema_ok Pandas.agg_min 5 (recent_of close 30))
      as [pt Hpt]; [lia|].
    destruct (extrema_ok Pandas.agg_max 5 (recent_of (RSI.smoothed_rsi self) 30))
      as [rp Hrp]; [lia|].
    destruct (extrema_ok Pandas.agg_min 5 (recent_of (RSI.smoothed_rsi self) 30))
      as [rt Hrt]; [lia|].
    unfold RSI.peaks, RSI.troughs, Pandas.rolling_max, Pandas.rolling_min.
    rewrite Hpp. cbv beta iota. rewrite Hpt. cbv beta iota.
    rewrite Hrp. cbv beta iota. rewrite Hrt. cbv beta iota.
    assert (Hlab : 60 <= nrows df ->
              Forall (fun p => length rp <= fst p) rp /\
              Forall (fun p => length rt <= fst p) rt).
    { intros H60. split.
      - eapply (extrema_labels _ 5 30 (RSI.smoothed_rsi self)); [| |exact Hrp]; lia.
      - eapply (extrema_labels _ 5 30 (RSI.smoothed_rsi self)); [| |exact Hrt]; lia. }
    destruct (RSI.diverges fgt pp rp) as [[|]|e] eqn:E1; cbn [fst snd].
    - split; [right; by eexists|]. intros H60.
      destruct (Hlab H60) as [Hp _].
      destruct (diverges_key_error fgt pp rp Hp); congruence.
    - destruct (RSI.diverges _ pt rt) as [[|]|e] eqn:E2; cbn [fst snd].
      + split; [right; by eexists|]. intros H60.
        destruct (Hlab H60) as [_ Ht].
        destruct (diverges_key_error (fun a b => (a <? b)%float) pt rt Ht);
          congruence.
      + split; [right; by eexists|]. by right.
      + apply diverges_raises in E2 as ->. split; by left.
    - apply diverges_raises in E1 as ->. split; by left. }
  split; [|split].
  - intros Hn.
    cbv beta iota zeta delta [RSI.get_divergence M_bind df_len M_ret].
    by destruct (Z.ltb_spec (Z.of_nat (nrows df)) 30); [|lia].
  - intros Hn. by apply Hlong.
  - intros Hn. apply Hlong; lia.
Qed.

End MainRun.

Section MainOutcome.

Import Main.

Lemma after_init_close period (high low : Series) df :
  columns (after_init period high low df) !! "close"%string
  = columns df !! "close"%string.
Proof. unfold after_init. cbn [columns]. by rewrite !lookup_insert_ne. Qed.

(** [main] on a table that holds the high, low and close of [n] bars.
    On an empty table it stops with [IndexError], and on 1 to 26 bars
    with [TypeError], both raised by the Ichimoku analysis before any
    other engine is constructed: the table is untouched.  From 27 bars on
    every engine is constructed and analysed; the table ends as the
    ingested one with the two fractal columns added; the run either
    stops with [KeyError], raised by the divergence check, or returns
    results that are those each engine gives on the ingested columns
    alone -- the columns written by the fractal engine change nothing
    for the engines that run after it.  The divergence is [None] below
    30 bars and, from 60 bars on, never a divergence. *)
Theorem main_outcome (price : float) (df : DataFrame) (high low close : Series) :
  columns df !! "high"%string = Some high ->
  columns df !! "low"%string = Some low ->
  columns df !! "close"%string = Some close ->
  length high = nrows df ->
  length low = nrows df ->
  length close = nrows df ->
  let n := nrows df in
  let rsi := RSI.mk 14 "SMA" 14 70 50 30 (rsi_line 14 close)
               (smoothed_line "SMA" 14 (rsi_line 14 close)) in
  (n = 0 -> main price df = (df, Raise IndexError)) /\
  (1 <= n <= 26 -> main price df = (df, Raise TypeError)) /\
  (27 <= n ->
   fst (main price df) = after_init 2 high low df /\
   (snd (main price df) = Raise KeyError /\
    snd (RSI.get_divergence rsi 30 5 df) = Raise KeyError /\ 30 <= n
    \/
    exists r,
      snd (main price df) = Ok r /\
      Ichimoku.analyze (lines_of 9 26 52 26 high low) price
        = Ok (ichimoku_result r) /\
      RSI.analyze rsi = Ok (rsi_result r) /\
      snd (run_fractals 2 price df) = Ok (fractals_result r) /\
      MACross.analyze (sma_of 10 50 200 close) price = Ok (ma_result r) /\
      snd (RSI.get_divergence rsi 30 5 df) = Ok (divergence r) /\
      (n < 30 -> divergence r = None) /\
      (60 <= n -> divergence r = Some RSI.no_divergence))).
Proof.
  intros Hh Hl Hc Lh Ll Lc n rsi.
  destruct (length_lines 9 26 52 26 high low) as (L1 & L2 & L3 & L4); [lia|].
  cbv zeta in L1, L2, L3, L4. rewrite Lh in L1, L2, L3, L4.
  fold n in L1, L2, L3, L4.
  assert (Hstart : main price df
            = match Ichimoku.analyze (lines_of 9 26 52 26 high low) price with
              | Ok ichimoku_r =>
                  (let* rsi := RSI.__init__ 14 "SMA" 14 70 50 30 in
                   let* rsi_r := lift (RSI.analyze rsi) in
                   let* fractals := WilliamsFractals.__init__ 2 in
                   let* fractals_r := WilliamsFractals.analyze fractals price in
                   let* ma_cross := MACross.__init__ [10; 50]%Z [50; 200]%Z "SMA" in
                   let* ma_r := lift (MACross.analyze ma_cross price) in
                   let* divergence := RSI.get_divergence rsi 30 5 in
                   M_ret (mkResults ichimoku_r rsi_r fractals_r ma_r divergence)) df
              | Raise e => (df, Raise e)
              end).
  { unfold main. unfold M_bind at 1.
    rewrite (init_lines df 9 26 52 26 high low Hh Hl) by lia.
    unfold M_bind at 1. unfold lift at 1. reflexivity. }
  split; [|split].
  - intros Hn. rewrite Hstart, analyze_empty; [done|lia].
  - intros Hn. rewrite Hstart, (analyze_cloud_none _ n); try done; [lia|].
    change (Ichimoku.displacement _) with 26%Z. lia.
  - intros Hn.
    destruct (analyze_in_range (lines_of 9 26 52 26 high low) n price
                L1 L2 L3 L4) as (iv & ia & Hi & _);
      [lia|change (Ichimoku.displacement _) with 26%Z; lia|].
    assert (exists rr, RSI.analyze rsi = Ok rr) as [rr Hr].
    { destruct (rsi_analyze_ok rsi n) as (r & s & _ & _ & Hr); [| |lia|by eexists].
      - subst rsi. cbn [RSI.rsi]. by rewrite length_rsi_line.
      - subst rsi. cbn [RSI.smoothed_rsi].
        by rewrite length_smoothed_line, length_rsi_line. }
    assert (exists fr,
              WilliamsFractals.analyze (self_of 2 high low) price
                (after_init 2 high low df)
              = (after_init 2 high low df, Ok fr)) as [fr Hf].
    { destruct (analyze_after_init df 2 high low (self_of 2 high low) price
                  Hh Hl Lh Ll) as (tr & _ & Hf). by eexists. }
    assert (exists mr, MACross.analyze (sma_of 10 50 200 close) price = Ok mr)
      as [mr Hm].
    { destruct (macross_values (sma_of 10 50 200 close) n)
        as (a & b & c & Hv & _); [by cbn; rewrite length_roll_mean..|lia|].
      unfold MACross.analyze. rewrite Hv. by eexists. }
    assert (Hrun : run_fractals 2 price df
                   = WilliamsFractals.analyze (self_of 2 high low) price
                       (after_init 2 high low df)).
    { unfold run_fractals, M_bind.
      by rewrite (init_eq df 2 high low Hh Hl Lh Ll) by lia. }
    rewrite Hf in Hrun.
    assert (Hmain : main price df
              = (after_init 2 high low df,
                 match snd (RSI.get_divergence rsi 30 5 df) with
                 | Ok d => Ok (mkResults (iv, ia) rr fr mr d)
                 | Raise e => Raise e
                 end)).
    { rewrite Hstart, Hi.
      unfold M_bind at 1. rewrite (rsi_main_init df close Hc). fold rsi.
      unfold M_bind at 1. unfold lift at 1. rewrite Hr.
      unfold M_bind at 1. rewrite (init_eq df 2 high low Hh Hl Lh Ll) by lia.
      unfold M_bind at 1. rewrite Hf.
      unfold M_bind at 1.
      rewrite (init_sma _ close) by (rewrite ?after_init_close; done || lia).
      unfold M_bind at 1. unfold lift at 1. rewrite Hm.
      unfold M_bind at 1.
      rewrite (get_divergence_reads rsi 30 5 df)
        by (by rewrite ?after_init_close).
      destruct (snd (RSI.get_divergence rsi 30 5 df)); reflexivity. }
    rewrite Hmain. cbn [fst snd]. split; [done|].
    destruct (main_divergence rsi df close Hc) as (Hnone & Hsome & Hlong).
    { subst rsi. cbn [RSI.smoothed_rsi].
      by rewrite length_smoothed_line, length_rsi_line. }
    cbv zeta in Hnone, Hsome, Hlong. fold n in Hnone, Hsome, Hlong.
    destruct (snd (RSI.get_divergence rsi 30 5 df)) as [d|e] eqn:Ed.
    + right. eexists. split; [reflexivity|].
      cbn [ichimoku_result rsi_result fractals_result ma_result divergence].
      rewrite Hrun. cbn [snd].
      split; [done|]. split; [done|]. split; [done|]. split; [done|].
      split; [done|]. split.
      * intros H30. specialize (Hnone H30). congruence.
      * intros H60. destruct (Hlong H60); congruence.
    + left.
      destruct (Nat.lt_ge_cases n 30) as [H30|H30];
        [specialize (Hnone H30); congruence|].
      destruct (Hsome H30) as [He|[d Hd]]; [|congruence].
      injection He as ->. done.
Qed.

Lemma main_outcome_witness :
  main 2 nine_bars = (nine_bars, Raise TypeError) /\
  fst (main 53 rise_then_fall_bars)
  = after_init 2 rise_then_fall_closes rise_then_fall_closes rise_then_fall_bars /\
  exists r,
    snd (main 53 rise_then_fall_bars) = Ok r /\
    divergence r = Some RSI.no_divergence.
Proof.
  split.
  - destruct (main_outcome 2 nine_bars
                [1; 2; 5; 2; 1; 2; 3; 2; 1]%float
                [0; 1; 2; 1; 0; -1; 1; 1; 0]%float
                [1; 2; 3; 2; 1; 2; 3; 2; 1]%float
                eq_refl eq_refl eq_refl eq_refl eq_refl eq_refl) as (_ & H & _).
    apply H. simpl. lia.
  - destruct (main_outcome 53 rise_then_fall_bars
                rise_then_fall_closes rise_then_fall_closes rise_then_fall_closes
                eq_refl eq_refl eq_refl eq_refl eq_refl eq_refl) as (_ & _ & H).
    destruct H as [Hfst Hsnd]; [simpl; lia|].
    split; [exact Hfst|].
    destruct Hsnd as [[Hk _]|(r & Hr & _ & _ & _ & _ & _ & _ & Hd)].
    + vm_compute in Hk. discriminate Hk.
    + exists r. split; [exact Hr|]. apply Hd. simpl. lia.
Defined.

End MainOutcome.

(** ** Williams Fractals: a construction that fails half-way *)

Section FractalFailure.

Import WilliamsFractals.



End FractalFailure.

(** ** RSI: what a peak is *)

Section Peaks.

Lemma eqb_sym (a b : float) : (a =? b)%float = (b =? a)%float.
Proof.
  rewrite !FloatAxioms.eqb_spec.
  generalize (Prim2SF a) (Prim2SF b). intros x y. sf_order.
Qed.

Lemma mask_by_position {A} (f : nat -> bool) (s : list A) (k : nat) :
  Pandas.mask s (map f (seq k (length s)))
  = map snd (List.filter (fun q => f (fst q)) (zip (seq k (length s)) s)).
Proof.
  unfold Pandas.mask. revert k.
  induction s as [|x s IH]; intros k; [done|].
  cbn [length seq map zip zip_with List.filter fst snd].
  rewrite filter_cons. cbn [snd].
  destruct (f k) eqn:E.
  - rewrite decide_True by done. cbn [map fst snd]. f_equal. apply IH.
  - rewrite decide_False by done. apply IH.
Qed.

Lemma flags_by_position beyond agg (vs : Series) p :
  (forall i h, vs !! i = Some h ->
     (h =? Pandas.roll_at agg (2 * p + 1) true vs i)%float
     = window_extremum beyond vs p i) ->
  Pandas.map2 (fun a b => (a =? b)%float)
    (Pandas.roll agg (2 * p + 1) true vs) vs
  = map (window_extremum beyond vs p) (seq 0 (length vs)).
Proof.
  intros Hflag. apply list_eq. intros i.
  change (map ?f ?l) with (f <$> l). rewrite list_lookup_fmap.
  unfold Pandas.map2.
  destruct (vs !! i) as [h|] eqn:Hi.
  - pose proof (lookup_lt_Some _ _ _ Hi) as Hlt.
    rewrite lookup_seq_lt by done. cbn [fmap option_fmap option_map].
    apply lookup_zip_with_Some. eexists _, h.
    split; [|split; [by apply roll_lookup|done]].
    by rewrite eqb_sym, (Hflag i h Hi).
  - pose proof (lookup_ge_None_1 _ _ Hi) as Hge.
    rewrite lookup_seq_ge by done. cbn.
    apply lookup_ge_None_2. rewrite length_zip_with, length_roll. lia.
Qed.

Lemma rows_where_extremum beyond (s : LSeries) p :
  Pandas.ldropna (rows_where (window_extremum beyond (Pandas.values s) p) s)
  = rows_where (window_extremum beyond (Pandas.values s) p) s.
Proof.
  unfold Pandas.ldropna. apply filter_id.
  apply Forall_forall. intros q Hq. unfold rows_where in Hq.
  apply list_elem_of_In, in_map_iff in Hq as ([i q'] & <- & Hin).
  apply List.filter_In in Hin as [Hin Hw]. cbn [fst snd] in *.
  apply list_elem_of_In, list_elem_of_lookup in Hin as [j Hj].
  apply lookup_zip_with_Some in Hj as (i' & x & [= -> ->] & Hi & Hx).
  apply lookup_seq in Hi as [Hi _]. cbn in Hi. subst i'.
  unfold window_extremum in Hw.
  apply andb_prop in Hw as [Hb Hall]. apply andb_prop in Hb as [Hp Hn].
  apply Nat.leb_le in Hp. apply Nat.ltb_lt in Hn.
  rewrite forallb_forall in Hall.
  assert (Hv : Pandas.values s !! j = Some (snd x)).
  { unfold Pandas.values. change (map ?f ?l) with (f <$> l).
    by rewrite list_lookup_fmap, Hx. }
  specialize (Hall (snd x)).
  destruct (andb_prop _ _ (Hall ltac:(
    apply list_elem_of_In, list_elem_of_lookup; exists p;
    rewrite lookup_take_lt by lia; rewrite lookup_drop;
    by replace (j - p + p) with j by lia))) as [Hnn _].
  exact (isfinite_notnan _ Hnn).
Qed.

Lemma peaks_rows (p : nat) (s : LSeries) :
  RSI.peaks (2 * Z.of_nat p + 1) s
  = Ok (rows_where (window_maximum (Pandas.values s) p) s).
Proof.
  assert (Hw : Z.to_nat (2 * Z.of_nat p + 1) = 2 * p + 1) by lia.
  assert (Hl : length (Pandas.values s) = length s) by apply length_map.
  unfold RSI.peaks, RSI.extrema, Pandas.rolling_max, Pandas.check_window.
  destruct (Z.ltb_spec (2 * Z.of_nat p + 1) 0); [lia|]. cbn [rbind].
  rewrite Hw. f_equal.
  rewrite (flags_by_position (fun h y => (h <? y)%float)).
  - rewrite Hl, mask_by_position.
    apply (rows_where_extremum (fun h y => (h <? y)%float)).
  - intros i h Hi. apply extremum_flag; [| | | | |done].
    + apply ltb_trans.
    + apply ltb_neg_trans.
    + apply ltb_irrefl.
    + apply eqb_ltb_l.
    + apply ltb_total.
Qed.

Lemma troughs_rows (p : nat) (s : LSeries) :
  RSI.troughs (2 * Z.of_nat p + 1) s
  = Ok (rows_where (window_minimum (Pandas.values s) p) s).
Proof.
  assert (Hw : Z.to_nat (2 * Z.of_nat p + 1) = 2 * p + 1) by lia.
  assert (Hl : length (Pandas.values s) = length s) by apply length_map.
  unfold RSI.troughs, RSI.extrema, Pandas.rolling_min, Pandas.check_window.
  destruct (Z.ltb_spec (2 * Z.of_nat p + 1) 0); [lia|]. cbn [rbind].
  rewrite Hw. f_equal.
  rewrite (flags_by_position (fun h y => (y <? h)%float)).
  - rewrite Hl, mask_by_position.
    apply (rows_where_extremum (fun h y => (y <? h)%float)).
  - intros i h Hi. apply extremum_flag; [| | | | |done].
    + intros a b c H1 H2. by apply (ltb_trans c b a).
    + intros a b c Hb H1 H2. by apply (ltb_neg_trans c b a).
    + apply ltb_irrefl.
    + intros a b c. apply eqb_ltb_r.
    + intros a b Ha Hb H1 H2. by apply ltb_total.
Qed.

(** The peaks and troughs that [get_divergence] looks for, for an odd
    window of [2 * p + 1] rows (five by default) that fits a 64-bit
    integer: a peak is a row of the recent window that no row among the
    [p] before and the [p] after it exceeds, all of them present within
    the recent window and all of them finite numbers (a NaN or an infinite
    value in the window leaves no peak there); so the first [p] and the
    last [p] recent rows are never peaks, and a tie gives a peak.  Troughs
    likewise. *)
Theorem peaks_are_window_maxima (p : nat) (s : LSeries) :
  (2 * Z.of_nat p + 1 < 2 ^ 63)%Z ->
  RSI.peaks (2 * Z.of_nat p + 1) s
  = Ok (rows_where (window_maximum (Pandas.values s) p) s) /\
  RSI.troughs (2 * Z.of_nat p + 1) s
  = Ok (rows_where (window_minimum (Pandas.values s) p) s).
Proof.
  intros _. split.
  - apply peaks_rows.
  - apply troughs_rows.
Qed.

Lemma peaks_are_window_maxima_witness :
  RSI.peaks (2 * Z.of_nat 1 + 1)
    (Pandas.with_index [1; 3; 2; infinity; 2; 4; 1]%float)
  = Ok [(1, 3%float); (5, 4%float)] /\
  RSI.troughs (2 * Z.of_nat 1 + 1)
    (Pandas.with_index [1; 3; 2; infinity; 2; 4; 1]%float)
  = Ok [].
Proof.
  destruct (peaks_are_window_maxima 1
              (Pandas.with_index [1; 3; 2; infinity; 2; 4; 1]%float))
    as [-> ->]; [simpl; lia|].
  split; vm_compute; reflexivity.
Defined.

End Peaks.

(** ** RSI: no divergence in a one-way market *)

Section OneWayMarket.











End OneWayMarket.

(** ** Ichimoku: what the lines are *)

Section IchimokuLines.

Import Ichimoku.







End IchimokuLines.

(** ** RSI: every outcome of the divergence check *)

Section DivergenceOutcomes.

Lemma extrema_ok_or_value_error agg (w : Z) (s : LSeries) :
  (exists e, RSI.extrema (fun w c x =>
                            let! n := Pandas.check_window w in
                            Ok (Pandas.roll agg n c x)) w s = Ok e) \/
  ((w < 0)%Z /\
   RSI.extrema (fun w c x =>
                  let! n := Pandas.check_window w in
                  Ok (Pandas.roll agg n c x)) w s = Raise ValueError).
Proof.
  unfold RSI.extrema, Pandas.check_window.
  destruct (Z.ltb_spec w 0); cbn [rbind]; [by right|left; by eexists].
Qed.

(** For arguments that fit a 64-bit integer, [get_divergence] never
    changes the table, and these are all its outcomes: [None], exactly
    when the table has fewer than [lookback] rows; one of the three
    records (both flags are never set together); [KeyError], from a
    missing close column or from the label lookup; [ValueError], only for
    a negative peak window. *)
Theorem get_divergence_outcomes (self : RSI.t) (lookback peak_window : Z)
    (df : DataFrame) :
  (- 2 ^ 63 < lookback < 2 ^ 63)%Z ->
  (peak_window < 2 ^ 63)%Z ->
  let r := snd (RSI.get_divergence self lookback peak_window df) in
  fst (RSI.get_divergence self lookback peak_window df) = df /\
  (r = Ok None \/
   r = Ok (Some RSI.no_divergence) \/ r = Ok (Some RSI.bearish) \/
   r = Ok (Some RSI.bullish) \/
   r = Raise KeyError \/ r = Raise ValueError) /\
  (r = Ok None <-> (Z.of_nat (nrows df) < lookback)%Z) /\
  (r = Raise ValueError -> (peak_window < 0)%Z) /\
  (forall d, r = Ok (Some d) ->
             RSI.bullish_divergence d && RSI.bearish_divergence d = false).
Proof.
  intros _ _ r. split; [apply rsi_divergence_read_only|].
  assert (Hcases :
    (Z.of_nat (nrows df) < lookback)%Z /\ r = Ok None \/
    (lookback <= Z.of_nat (nrows df))%Z /\
    (r = Ok (Some RSI.no_divergence) \/ r = Ok (Some RSI.bearish) \/
     r = Ok (Some RSI.bullish) \/ r = Raise KeyError \/
     ((peak_window < 0)%Z /\ r = Raise ValueError))).
  { subst r.
    cbv beta iota zeta delta [RSI.get_divergence M_bind df_len get_col lift M_ret].
    destruct (Z.ltb_spec (Z.of_nat (nrows df)) lookback); [by left|].
    right. split; [done|].
    destruct (columns df !! "close"%string) as [close|]; [|cbn; auto].
    cbv beta iota. unfold RSI.peaks, RSI.troughs, Pandas.rolling_max,
      Pandas.rolling_min.
    destruct (extrema_ok_or_value_error Pandas.agg_max peak_window
                (Pandas.iloc_from (Pandas.with_index close) (- lookback)))
      as [[pp ->]|[Hw ->]]; [|cbn; auto 6].
    cbv beta iota.
    destruct (extrema_ok_or_value_error Pandas.agg_min peak_window
                (Pandas.iloc_from (Pandas.with_index close) (- lookback)))
      as [[pt ->]|[Hw ->]]; [|cbn; auto 6].
    cbv beta iota.
    destruct (extrema_ok_or_value_error Pandas.agg_max peak_window
                (Pandas.iloc_from (Pandas.with_index (RSI.smoothed_rsi self))
                   (- lookback)))
      as [[rp ->]|[Hw ->]]; [|cbn; auto 6].
    cbv beta iota.
    destruct (extrema_ok_or_value_error Pandas.agg_min peak_window
                (Pandas.iloc_from (Pandas.with_index (RSI.smoothed_rsi self))
                   (- lookback)))
      as [[rt ->]|[Hw ->]]; [|cbn; auto 6].
    cbv beta iota.
    destruct (RSI.diverges fgt pp rp) as [[|]|e] eqn:E1; cbn [fst snd].
    - auto.
    - destruct (RSI.diverges _ pt rt) as [[|]|e] eqn:E2; cbn [fst snd].
      + auto.
      + auto.
      + apply diverges_raises in E2 as ->. auto 6.
    - apply diverges_raises in E1 as ->. auto 6. }
  split; [|split; [|split]].
  - destruct Hcases as [[_ ->]|[_ [->|[->|[->|[->|[_ ->]]]]]]]; auto 7.
  - split.
    + intros Hr.
      destruct Hcases as [[Hn _]|[_ [H|[H|[H|[H|[_ H]]]]]]];
        [done|rewrite H in Hr; discriminate Hr..].
    + intros Hn. destruct Hcases as [[_ ->]|[Hge _]]; [done|lia].
  - intros Hr.
    destruct Hcases as [[_ H]|[_ [H|[H|[H|[H|[Hw _]]]]]]];
      [rewrite H in Hr; discriminate Hr..|done].
  - intros d Hr.
    destruct Hcases as [[_ H]|[_ [H|[H|[H|[H|[_ H]]]]]]];
      rewrite H in Hr; try discriminate Hr; by injection Hr as <-.
Qed.

Lemma get_divergence_outcomes_witness :
  let self := RSI.mk 14 "SMA" 14 70 50 30 [] [] in
  fst (RSI.get_divergence self 31 5 thirty_rising) = thirty_rising /\
  snd (RSI.get_divergence self 31 5 thirty_rising) = Ok None.
Proof.
  intros self.
  destruct (get_divergence_outcomes self 31 5 thirty_rising)
    as (Hdf & _ & [_ Hnone] & _); [lia|lia|].
  split; [exact Hdf|]. apply Hnone. simpl. lia.
Defined.

End DivergenceOutcomes.
